(** * HairCareAI / ScalpSense backend: [backend/model_load.py]

    A shallow embedding of the two analysis entry points of the backend,
    [predict_stage] (stage classification with the non-scalp gate) and
    [analyze_hair_density] (four-image density trend), together with the
    properties the specification states about them; then of the parts of
    [backend/app.py] that call them or compute on their own: the folder
    name sanitiser, the routes [/predict] and [/analyze-hair-growth], the
    like switch and the deletion of forum posts.

    Conventions of the embedding.

    - The tracker is embedded twice.  [Tracker] idealises Python floats as
      exact rationals ([Q], compared with [==]); it carries the statements
      that do not turn on the last bit of a floating-point result: the
      zero baseline, the failure paths, bounds, and the gap between a
      status and the reported figure.  [Binary64] is the same code on
      IEEE doubles, operation by operation; the statements about the
      ordering of the samples, the statuses at a threshold and the
      reported digits are made there.
    - A string is its sequence of UTF-8 bytes, which orders as its code
      points do.
    - A Python exception is a value [Raise msg], where [msg] is the text
      [str(e)] that the handlers splice into their error dictionaries.
    - The collaborators the module calls but does not define ([urlopen],
      PIL, Keras, OpenCV's decoder and colour conversion) are section
      variables: the theorems hold for every behaviour of them.
    - Logging is not modelled. *)

From Stdlib Require Import List String Ascii Bool Arith ZArith QArith Qround.
From Stdlib Require Import Lia Lqa Sorting Permutation OrderedTypeEx.
From Stdlib Require Import Floats Uint63.
Import ListNotations.

Local Open Scope string_scope.
Local Open Scope list_scope.

(** ** Exceptions *)

Inductive exc (A : Type) : Type :=
| Raise (msg : string)
| Return (a : A).
Arguments Raise {A} msg.
Arguments Return {A} a.

Definition bind {A B : Type} (m : exc A) (k : A -> exc B) : exc B :=
  match m with
  | Raise msg => Raise msg
  | Return a => k a
  end.

Notation "x <- m ;; k" := (bind m (fun x => k))
  (at level 100, m at next level, right associativity).

(** [l[i]] on a Python list. *)
Definition getitem {A : Type} (l : list A) (i : nat) : exc A :=
  match nth_error l i with
  | Some a => Return a
  | None => Raise "list index out of range"
  end.

(** * Stage classifier *)

Module Classifier.

Inductive Model : Type := male_model | female_model.

Definition male_labels : list string :=
  ["non-scalp"; "Stage 1"; "Stage 2"; "Stage 3"; "Stage 4"; "Stage 5"; "Stage 6"].
Definition female_labels : list string :=
  ["non-scalp"; "Stage 1"; "Stage 2"; "Stage 3"; "Stage 4"; "Stage 5"].

(** The dictionary [predict_stage] returns; a key that is absent is [None]. *)
Record StageDict : Type := {
  error : option string;
  stage : option string;
  confidence : option Q;
  image_url : option string
}.

Definition error_dict (msg : string) : StageDict :=
  {| error := Some msg; stage := None; confidence := None; image_url := None |}.

(** Calls made to the outside world, in order. *)
Inductive event : Type :=
| EvUrlopen (url : string)
| EvPredict (m : Model).

(** [np.argmax] of one row: the first index holding the largest value. *)
Fixpoint argmax_from (best_i : nat) (best : Q) (i : nat) (l : list Q) : nat :=
  match l with
  | [] => best_i
  | x :: rest =>
      if Qle_bool x best then argmax_from best_i best (S i) rest
      else argmax_from i x (S i) rest
  end.

Definition argmax (l : list Q) : exc nat :=
  match l with
  | [] => Raise "attempt to get argmax of an empty sequence"
  | x :: rest => Return (argmax_from 0 x 1 rest)
  end.

(** [np.max]. *)
Definition amax (l : list Q) : exc Q :=
  match l with
  | [] => Raise "zero-size array to reduction operation maximum which has no identity"
  | x :: rest => Return (fold_left (fun m y => if Qle_bool y m then m else y) rest x)
  end.

Definition select_model (gender : string) : option (Model * list string) :=
  if gender =? "male" then Some (male_model, male_labels)
  else if gender =? "female" then Some (female_model, female_labels)
  else None.

Section World.

Variable Bytes : Type.
Variable Tensor : Type.
(** [urlopen(image_url).read()] *)
Variable urlopen : string -> exc Bytes.
(** [Image.open(..).convert("RGB").resize((224, 224))], scaled to [0,1]
    and given a batch axis. *)
Variable preprocess : Bytes -> exc Tensor.
(** [model.predict(img_array, verbose=0)]: the single row of class
    probabilities. *)
Variable model_predict : Model -> Tensor -> exc (list Q).

Definition load_image (url : string) : exc Tensor :=
  img_data <- urlopen url ;; preprocess img_data.

Definition run_prediction (model : Model) (class_labels : list string)
    (url : string) (img_array : Tensor) : exc StageDict :=
  predictions <- model_predict model img_array ;;
  predicted_class <- argmax predictions ;;
  conf <- amax predictions ;;
  label <- getitem class_labels predicted_class ;;
  if Nat.eqb predicted_class 0 then
    Return {| error := Some "Invalid image! Please upload a scalp image.";
              stage := Some label;
              confidence := Some conf;
              image_url := Some url |}
  else
    Return {| error := None;
              stage := Some label;
              confidence := Some conf;
              image_url := Some url |}.

Definition predict_stage (url gender : string) : list event * StageDict :=
  match select_model gender with
  | None => ([], error_dict "Invalid gender selection. Choose 'male' or 'female'.")
  | Some (model, class_labels) =>
      match load_image url with
      | Raise e =>
          ([EvUrlopen url], error_dict ("Error loading image from URL: " ++ e))
      | Return img_array =>
          ([EvUrlopen url; EvPredict model],
           match run_prediction model class_labels url img_array with
           | Raise e => error_dict ("Prediction failed: " ++ e)
           | Return d => d
           end)
      end
  end.

End World.

(** Reading the dictionary the way the specification names its parts. *)
Definition isValid (d : StageDict) : bool :=
  match error d with Some _ => false | None => true end.

(** A hard failure carries nothing but the error text. *)
Definition is_failure (d : StageDict) : bool :=
  match stage d, confidence d with
  | None, None => true
  | _, _ => false
  end.

End Classifier.

(** * Density tracker *)

Module Tracker.

Local Open Scope Q_scope.

Inductive Status : Type := Improved | Worsened | Stable.

(** One entry of ["results"]. *)
Record TrendPoint : Type := {
  week : nat;
  percentageChange : Q;
  status : Status
}.

(** The success dictionary; the key ["status"] is [overall_status]. *)
Record TrackingResult : Type := {
  results : list TrendPoint;
  overall_status : Status;
  comparisonImageUrl : option string
}.

(** What [analyze_hair_density] returns: [{"error": msg}] or the result. *)
Inductive TrackReturn : Type :=
| Error (msg : string)
| Success (r : TrackingResult).

(** A decoded raster.  [cv2.imdecode] answers [None] instead of an empty
    matrix, so a raster has at least one element; only the multiset of its
    elements matters to the metric, so it is kept flat. *)
Record Mat : Type := { px0 : Z; pxs : list Z }.

Definition pixels (m : Mat) : list Z := px0 m :: pxs m.

(** [cv2.threshold(gray, thresh, maxval, cv2.THRESH_BINARY_INV)] *)
Definition threshold_binary_inv (thresh maxval : Z) (gray : Mat) : Mat :=
  let f := fun p : Z => if (p >? thresh)%Z then 0%Z else maxval in
  {| px0 := f (px0 gray); pxs := map f (pxs gray) |}.

(** [np.sum(thresh == 255)] *)
Definition count_eq (v : Z) (m : Mat) : Z :=
  Z.of_nat (List.length (filter (fun p => (p =? v)%Z) (pixels m))).

(** [thresh.size] *)
Definition size (m : Mat) : Z := Z.of_nat (List.length (pixels m)).

Definition density_of (gray : Mat) : Q :=
  let thresh := threshold_binary_inv 50 255 gray in
  let hair_pixels := count_eq 255 thresh in
  let total_pixels := size thresh in
  (inject_Z hair_pixels / inject_Z total_pixels) * 100.

(** ** Ordering of timestamps

    The timestamps arrive as strings and [np.argsort] first stores them in
    a fixed-width unicode array, every entry padded with NUL characters to
    the width of the longest, and then compares the padded entries code
    point by code point.  Trailing NULs therefore do not count: an entry
    is compared as [np_item] of its text, by [String.ltb] (on the UTF-8
    bytes, which orders as the code points do).  numpy's default sort
    hands every run of at most 16 elements to its insertion sort, so on
    four timestamps it is that insertion sort: each index in turn is moved
    left past every index whose key is strictly greater. *)

(** The text of an array entry: the string without its trailing NULs. *)
Fixpoint np_item (s : string) : string :=
  match s with
  | EmptyString => EmptyString
  | String c rest =>
      let kept := np_item rest in
      if (Ascii.eqb c Ascii.zero && String.eqb kept EmptyString)%bool
      then EmptyString
      else String c kept
  end.

Section InsertionSort.

Context {A : Type}.
Variable key : A -> string.

(** The sorted prefix is held right to left, the way the inner loop
    walks it. *)
Fixpoint insert_back (x : A) (rev_prefix : list A) : list A :=
  match rev_prefix with
  | [] => [x]
  | k :: rest =>
      if String.ltb (key x) (key k) then k :: insert_back x rest
      else x :: k :: rest
  end.

Definition insertion_sort (l : list A) : list A :=
  rev (fold_left (fun acc x => insert_back x acc) l []).

End InsertionSort.

Definition argsort (v : list string) : list nat :=
  insertion_sort (fun i => np_item (nth i v "")) (seq 0 (List.length v)).

(** ** Numeric helpers, on exact rationals

    The same helpers on doubles are in [Binary64]. *)

(** Round half to even. *)
Definition rint (x : Q) : Z :=
  let f := Qfloor x in
  match Qcompare (x - inject_Z f) (1 # 2) with
  | Lt => f
  | Gt => (f + 1)%Z
  | Eq => if Z.even f then f else (f + 1)%Z
  end.

(** [round(x, 1)] *)
Definition round1 (x : Q) : Q := inject_Z (rint (x * 10)) / 10.

(** [np.mean] *)
Definition mean (l : list Q) : Q :=
  fold_right Qplus 0 l / inject_Z (Z.of_nat (List.length l)).

(** ["Improved" if x > 0 else "Worsened" if x < -5 else "Stable"] *)
Definition status_of (x : Q) : Status :=
  match Qcompare 0 x with
  | Lt => Improved
  | _ => match Qcompare x (-5) with
         | Lt => Worsened
         | _ => Stable
         end
  end.

Definition percentage_change (baseline_density current_density : Q) : Q :=
  if Qeq_bool baseline_density 0 then 0
  else ((current_density - baseline_density) / baseline_density) * 100.

(** The dictionary appended by one turn of the loop: the status is taken
    from [percentage_change] itself, the stored figure is its rounding. *)
Definition trend_entry (baseline_density : Q) (i : nat) (current_density : Q)
    : TrendPoint :=
  let pc := percentage_change baseline_density current_density in
  {| week := i + 1;
     percentageChange := round1 pc;
     status := status_of pc |}.

(** Body of the loop [for i in range(1, 4)]. *)
Definition trend_point (sorted_densities : list Q) (baseline_density : Q)
    (i : nat) : exc TrendPoint :=
  current_density <- getitem sorted_densities i ;;
  Return (trend_entry baseline_density i current_density).

Fixpoint for_each {A B : Type} (f : A -> exc B) (l : list A) : exc (list B) :=
  match l with
  | [] => Return []
  | a :: rest => b <- f a ;; bs <- for_each f rest ;; Return (b :: bs)
  end.

(** Lines 109-135: everything after the images have been measured. *)
Definition compare_densities (density_scores : list Q)
    (processed_urls timestamps : list string) : exc TrackingResult :=
  let sorted_indices := argsort timestamps in
  sorted_densities <- for_each (getitem density_scores) sorted_indices ;;
  sorted_urls <- for_each (getitem processed_urls) sorted_indices ;;
  baseline_density <- getitem sorted_densities 0 ;;
  results <- for_each (trend_point sorted_densities baseline_density) (seq 1 3) ;;
  let avg_change := mean (map percentageChange results) in
  let overall_status := status_of avg_change in
  Return {| results := results;
            overall_status := overall_status;
            comparisonImageUrl := None |}.

Section World.

Variable Bytes : Type.
Variable ColorMat : Type.
(** [urlopen(url).read()] *)
Variable urlopen : string -> exc Bytes.
(** [cv2.imdecode(np.frombuffer(img_data, np.uint8), cv2.IMREAD_COLOR)] *)
Variable imdecode : Bytes -> option ColorMat.
(** [cv2.cvtColor(img, cv2.COLOR_BGR2GRAY)] *)
Variable cvtColor_BGR2GRAY : ColorMat -> Mat.

(** Body of the inner [try]. *)
Definition image_density (url : string) : exc Q :=
  img_data <- urlopen url ;;
  match imdecode img_data with
  | None => Raise ("Failed to decode image from " ++ url)%string
  | Some img => Return (density_of (cvtColor_BGR2GRAY img))
  end.

(** The loop [for url in image_urls]; [inl] is its early [return]. *)
Fixpoint measure_images (image_urls : list string)
    (density_scores : list Q) (processed_urls : list string)
    : string + (list Q * list string) :=
  match image_urls with
  | [] => inr (density_scores, processed_urls)
  | url :: rest =>
      match image_density url with
      | Raise e => inl ("Failed to process image " ++ url ++ ": " ++ e)%string
      | Return density =>
          measure_images rest (density_scores ++ [density])
                         (processed_urls ++ [url])
      end
  end.

Definition analyze_hair_density (image_urls timestamps : list string)
    : TrackReturn :=
  if negb (List.length image_urls =? 4)%nat || negb (List.length timestamps =? 4)%nat
  then Error "Exactly 4 images and timestamps are required"
  else
    match measure_images image_urls [] [] with
    | inl msg => Error msg
    | inr (density_scores, processed_urls) =>
        if negb (List.length density_scores =? 4)%nat
        then Error "Failed to process all images"
        else
          match compare_densities density_scores processed_urls timestamps with
          | Raise e => Error ("Density analysis failed: " ++ e)
          | Return r => Success r
          end
    end.

End World.

End Tracker.

(** * A small concrete world

    Used to run the two entry points on explicit inputs. *)

Module Demo.

Import Tracker.

(** A raster of [total] pixels of which [dark] have luminance 20 (hair) and
    the rest 200 (skin). *)
Definition raster (dark total : nat) : Mat :=
  match dark with
  | O => {| px0 := 200; pxs := repeat 200%Z (total - 1) |}
  | S d => {| px0 := 20; pxs := repeat 20%Z d ++ repeat 200%Z (total - dark) |}
  end.

(** The stored objects: a body is the text after the last slash. *)
Definition urlopen (url : string) : exc string :=
  if url =? "https://cdn.test/w1.png" then Return "w1"
  else if url =? "https://cdn.test/w2.png" then Return "w2"
  else if url =? "https://cdn.test/w3.png" then Return "w3"
  else if url =? "https://cdn.test/w4.png" then Return "w4"
  else if url =? "https://cdn.test/bare.png" then Return "bare"
  else if url =? "https://cdn.test/fine1.png" then Return "fine1"
  else if url =? "https://cdn.test/fine2.png" then Return "fine2"
  else if url =? "https://cdn.test/notes.txt" then Return "notes"
  else if url =? "https://cdn.test/wall.png" then Return "wall"
  else Raise "HTTP Error 404: Not Found".

(** Decoding: [notes] is not an image. *)
Definition imdecode (body : string) : option Mat :=
  if body =? "w1" then Some (raster 10 100)
  else if body =? "w2" then Some (raster 12 100)
  else if body =? "w3" then Some (raster 9 100)
  else if body =? "w4" then Some (raster 20 100)
  else if body =? "bare" then Some (raster 0 100)
  else if body =? "fine1" then Some (raster 2500 5000)
  else if body =? "fine2" then Some (raster 2501 5000)
  else if body =? "wall" then Some (raster 0 100)
  else None.

(** The demo rasters are already grey. *)
Definition cvtColor_BGR2GRAY (m : Mat) : Mat := m.

(** Four weekly photographs with hair densities 10, 12, 9 and 20 percent,
    and the instants they were taken at. *)
Definition week_urls : list string :=
  ["https://cdn.test/w1.png"; "https://cdn.test/w2.png";
   "https://cdn.test/w3.png"; "https://cdn.test/w4.png"].

Definition week_stamps : list string :=
  ["2024-01-01T09:00:00"; "2024-01-08T09:00:00";
   "2024-01-15T09:00:00"; "2024-01-22T09:00:00"].

Definition analyze : list string -> list string -> TrackReturn :=
  analyze_hair_density string Mat urlopen imdecode cvtColor_BGR2GRAY.

(** Classifier side: the tensor is the body, the models answer from a
    table. *)
Definition preprocess (body : string) : exc string :=
  if body =? "notes" then Raise "cannot identify image file" else Return body.

Definition model_predict (m : Classifier.Model) (t : string) : exc (list Q) :=
  if t =? "wall" then
    match m with
    | Classifier.male_model => Return [9 # 10; 1 # 50; 1 # 50; 1 # 50; 1 # 50; 1 # 100; 1 # 100]
    | Classifier.female_model => Return [4 # 5; 1 # 10; 1 # 20; 1 # 50; 1 # 50; 1 # 100]
    end
  else
    match m with
    | Classifier.male_model => Return [1 # 50; 1 # 10; 7 # 10; 1 # 10; 1 # 20; 1 # 50; 1 # 100]
    | Classifier.female_model => Return [1 # 50; 3 # 5; 1 # 5; 1 # 10; 1 # 20; 3 # 100]
    end.

Definition predict : string -> string -> list Classifier.event * Classifier.StageDict :=
  Classifier.predict_stage string string urlopen preprocess model_predict.

End Demo.


(** * Vocabulary of the statements *)

Module Vocabulary.

Import Tracker.
Local Open Scope Q_scope.

(** The order [np.argsort] compares timestamps with. *)
Definition slt (a b : string) : Prop := String.ltb a b = true.
Definition sle (a b : string) : Prop := String.ltb b a = false.

(** [x] comes before [y] in a stable ascending arrangement: its key is
    smaller, or the keys tie and [x] came first in the input. *)
Definition stable_before {A : Type} (key : A -> string) (earlier : A -> A -> Prop)
    (x y : A) : Prop :=
  slt (key x) (key y) \/ (key x = key y /\ earlier x y).

(** The same on positions of a timestamp list. *)
Definition chronological (timestamps : list string) (i j : nat) : Prop :=
  stable_before (fun k => np_item (nth k timestamps "")) lt i j.

(** [r] is [x] rounded to one decimal place: a whole number of tenths no
    further than half a tenth from [x]. *)
Definition rounded_to_tenths (x r : Q) : Prop :=
  (exists n : Z, r == inject_Z n / 10) /\ - (1 # 20) <= r - x <= 1 # 20.

(** The three-way rule as the specification words it. *)
Definition three_way_rule (x : Q) (s : Status) : Prop :=
  (s = Improved <-> 0 < x) /\
  (s = Worsened <-> x < -5) /\
  (s = Stable <-> -5 <= x <= 0).

(** Lines 113-135 on the four densities in time order, in closed form. *)
Definition summary (b s2 s3 s4 : Q) : TrackingResult :=
  let results := [trend_entry b 1 s2; trend_entry b 2 s3; trend_entry b 3 s4] in
  {| results := results;
     overall_status := status_of (mean (map percentageChange results));
     comparisonImageUrl := None |}.

(** The text shape of an instant, as [datetime.isoformat()] writes it and
    as the request layer supplies it by default:
    [YYYY-MM-DDTHH:MM:SS] with an optional fraction of digits.  A text
    that is not of this shape cannot be read as an instant. *)
Definition is_digit (c : ascii) : bool :=
  (48 <=? nat_of_ascii c)%nat && (nat_of_ascii c <=? 57)%nat.

Definition is_char (k : ascii) (c : ascii) : bool := Ascii.eqb k c.

Fixpoint strip (shape : list (ascii -> bool)) (s : string) : option string :=
  match shape, s with
  | [], _ => Some s
  | _ :: _, EmptyString => None
  | p :: shape', String c s' => if p c then strip shape' s' else None
  end.

Fixpoint all_digits (s : string) : bool :=
  match s with
  | EmptyString => true
  | String c s' => is_digit c && all_digits s'
  end.

Definition iso_shape : list (ascii -> bool) :=
  [is_digit; is_digit; is_digit; is_digit; is_char "-";
   is_digit; is_digit; is_char "-"; is_digit; is_digit; is_char "T";
   is_digit; is_digit; is_char ":"; is_digit; is_digit; is_char ":";
   is_digit; is_digit]%char.

Definition is_iso_instant (s : string) : bool :=
  match strip iso_shape s with
  | Some EmptyString => true
  | Some (String "." (String c frac)) => is_digit c && all_digits frac
  | _ => false
  end.

End Vocabulary.

(** * The tracker on IEEE doubles

    [analyze_hair_density] once more, with every arithmetic operation the
    binary64 operation the interpreter and numpy perform.  The collaborators,
    the rasters, the counting and [argsort] are those of [Tracker]. *)

Module Binary64.

Import Tracker.
Local Open Scope float_scope.

Record TrendPoint : Type := {
  week : nat;
  percentageChange : float;
  status : Status
}.

Record TrackingResult : Type := {
  results : list TrendPoint;
  overall_status : Status;
  comparisonImageUrl : option string
}.

Inductive TrackReturn : Type :=
| Error (msg : string)
| Success (r : TrackingResult).

(** An integer count as a double (exact below 2^53). *)
Definition of_count (n : Z) : float := PrimFloat.of_uint63 (Uint63.of_Z n).

(** Line 97. *)
Definition density (hair_pixels total_pixels : float) : float :=
  (hair_pixels / total_pixels) * 100.

Definition density_of (gray : Mat) : float :=
  let thresh := threshold_binary_inv 50 255 gray in
  let hair_pixels := count_eq 255 thresh in
  let total_pixels := size thresh in
  density (of_count hair_pixels) (of_count total_pixels).

(** Lines 117-120. *)
Definition percentage_change (baseline_density current_density : float) : float :=
  if PrimFloat.eqb baseline_density 0 then 0
  else ((current_density - baseline_density) / baseline_density) * 100.

(** ["Improved" if x > 0 else "Worsened" if x < -5 else "Stable"] *)
Definition status_of (x : float) : Status :=
  if PrimFloat.ltb 0 x then Improved
  else if PrimFloat.ltb x (-5) then Worsened
  else Stable.

Definition two52 : float := 4503599627370496.

(** [np.rint]: the nearest integer, ties to even, keeping the sign.  Below
    2^52 adding and then subtracting 2^52 rounds to an integer in the
    default rounding mode; from 2^52 on every double is an integer. *)
Definition rint (y : float) : float :=
  if PrimFloat.ltb (PrimFloat.abs y) two52 then
    if PrimFloat.eqb y 0 then y
    else if PrimFloat.ltb 0 y then (y + two52) - two52
    else - ((- y + two52) - two52)
  else y.

(** [round(x, 1)] on a numpy double: [rint(x * 10) / 10]; on the Python
    float [0.0] of line 118 the builtin gives the same [0.0]. *)
Definition round1 (x : float) : float := rint (x * 10) / 10.

(** [np.mean] of fewer than eight values: the running sum, left to
    right, over the count.  (Whether the sum starts from 0.0 or -0.0 only
    shows in the sign of a zero, which no comparison sees.) *)
Definition mean (l : list float) : float :=
  fold_left PrimFloat.add l 0 / of_count (Z.of_nat (List.length l)).

Definition trend_entry (baseline_density : float) (i : nat)
    (current_density : float) : TrendPoint :=
  let pc := percentage_change baseline_density current_density in
  {| week := i + 1;
     percentageChange := round1 pc;
     status := status_of pc |}.

Definition trend_point (sorted_densities : list float) (baseline_density : float)
    (i : nat) : exc TrendPoint :=
  current_density <- getitem sorted_densities i ;;
  Return (trend_entry baseline_density i current_density).

Definition compare_densities (density_scores : list float)
    (processed_urls timestamps : list string) : exc TrackingResult :=
  let sorted_indices := argsort timestamps in
  sorted_densities <- for_each (getitem density_scores) sorted_indices ;;
  sorted_urls <- for_each (getitem processed_urls) sorted_indices ;;
  baseline_density <- getitem sorted_densities 0 ;;
  results <- for_each (trend_point sorted_densities baseline_density) (seq 1 3) ;;
  let avg_change := mean (map percentageChange results) in
  let overall_status := status_of avg_change in
  Return {| results := results;
            overall_status := overall_status;
            comparisonImageUrl := None |}.

(** Lines 113-135 on the four densities in time order, in closed form. *)
Definition summary (b s2 s3 s4 : float) : TrackingResult :=
  let results := [trend_entry b 1 s2; trend_entry b 2 s3; trend_entry b 3 s4] in
  {| results := results;
     overall_status := status_of (mean (map percentageChange results));
     comparisonImageUrl := None |}.

Section World.

Variable Bytes : Type.
Variable ColorMat : Type.
Variable urlopen : string -> exc Bytes.
(** [cv2.imdecode] returns [None] for bytes that are no image and raises
    on an empty buffer. *)
Variable imdecode : Bytes -> exc (option ColorMat).
Variable cvtColor_BGR2GRAY : ColorMat -> Mat.

Definition image_density (url : string) : exc float :=
  img_data <- urlopen url ;;
  decoded <- imdecode img_data ;;
  match decoded with
  | None => Raise ("Failed to decode image from " ++ url)%string
  | Some img => Return (density_of (cvtColor_BGR2GRAY img))
  end.

Fixpoint measure_images (image_urls : list string)
    (density_scores : list float) (processed_urls : list string)
    : string + (list float * list string) :=
  match image_urls with
  | [] => inr (density_scores, processed_urls)
  | url :: rest =>
      match image_density url with
      | Raise e => inl ("Failed to process image " ++ url ++ ": " ++ e)%string
      | Return density =>
          measure_images rest (density_scores ++ [density])
                         (processed_urls ++ [url])
      end
  end.

Definition analyze_hair_density (image_urls timestamps : list string)
    : TrackReturn :=
  if negb (List.length image_urls =? 4)%nat || negb (List.length timestamps =? 4)%nat
  then Error "Exactly 4 images and timestamps are required"
  else
    match measure_images image_urls [] [] with
    | inl msg => Error msg
    | inr (density_scores, processed_urls) =>
        if negb (List.length density_scores =? 4)%nat
        then Error "Failed to process all images"
        else
          match compare_densities density_scores processed_urls timestamps with
          | Raise e => Error ("Density analysis failed: " ++ e)
          | Return r => Success r
          end
    end.

End World.

(** The rational number a finite double stands for. *)
Definition exact (x : float) : Q :=
  match Prim2SF x with
  | S754_finite s m e =>
      ((if s then -1 else 1) * inject_Z (Zpos m) * Qpower 2 e)%Q
  | _ => 0%Q
  end.

(** What the specification's formula gives when it is evaluated on doubles
    in the order it is written, [100 * (s - b) / b], and rounded. *)
Definition formula_as_written (b s : float) : float :=
  round1 ((100 * (s - b)) / b).

(** The three-way rule as the specification words it, on doubles. *)
Definition three_way_rule (x : float) (s : Status) : Prop :=
  (s = Improved <-> PrimFloat.ltb 0 x = true) /\
  (s = Worsened <-> PrimFloat.ltb x (-5) = true) /\
  (s = Stable <-> PrimFloat.ltb 0 x = false /\ PrimFloat.ltb x (-5) = false).

End Binary64.

(** * More photographs for the concrete world *)

Module Demo2.

Import Tracker.

Definition urlopen (url : string) : exc string :=
  if url =? "https://cdn.test/d80.png" then Return "d80"
  else if url =? "https://cdn.test/d29.png" then Return "d29"
  else if url =? "https://cdn.test/d31.png" then Return "d31"
  else if url =? "https://cdn.test/d60.png" then Return "d60"
  else if url =? "https://cdn.test/d57.png" then Return "d57"
  else if url =? "https://cdn.test/fine0.png" then Return "fine0"
  else if url =? "https://cdn.test/m0.png" then Return "m0"
  else if url =? "https://cdn.test/m1.png" then Return "m1"
  else if url =? "https://cdn.test/m2.png" then Return "m2"
  else if url =? "https://cdn.test/m3.png" then Return "m3"
  else if url =? "https://cdn.test/empty.png" then Return EmptyString
  else Demo.urlopen url.

Definition imdecode (body : string) : exc (option Mat) :=
  if body =? EmptyString then Raise "(-215:Assertion failed) !buf.empty()"
  else if body =? "d80" then Return (Some (Demo.raster 80 100))
  else if body =? "d29" then Return (Some (Demo.raster 29 100))
  else if body =? "d31" then Return (Some (Demo.raster 31 100))
  else if body =? "d60" then Return (Some (Demo.raster 60 100))
  else if body =? "d57" then Return (Some (Demo.raster 57 100))
  else if body =? "fine0" then Return (Some (Demo.raster 2374 5000))
  else if body =? "m0" then Return (Some (Demo.raster 1000 5000))
  else if body =? "m1" then Return (Some (Demo.raster 1001 5000))
  else if body =? "m2" then Return (Some (Demo.raster 1002 5000))
  else if body =? "m3" then Return (Some (Demo.raster 997 5000))
  else Return (Demo.imdecode body).

(** The run on doubles. *)
Definition analyze : list string -> list string -> Binary64.TrackReturn :=
  Binary64.analyze_hair_density string Mat urlopen imdecode
                                Demo.cvtColor_BGR2GRAY.

(** A NUL character, and a timestamp followed by one. *)
Definition padded (t : string) : string :=
  (t ++ String Ascii.zero EmptyString)%string.

End Demo2.

(** * [backend/app.py]: folder names *)

Module Sanitize.

Local Open Scope N_scope.

(** A Python [str] is held here as its list of code points, since the
    pattern works character by character. *)
Definition between (lo hi c : N) : bool := (lo <=? c) && (c <=? hi).

(** The class [a-zA-Z0-9_-]. *)
Definition in_class (c : N) : bool :=
  between 97 122 c || between 65 90 c || between 48 57 c
  || (c =? 95) || (c =? 45).

(** [re.sub(r'[^a-zA-Z0-9_-]', '_', name)] *)
Definition sanitize_folder_name (name : list N) : list N :=
  map (fun c => if in_class c then c else 95) name.

End Sanitize.

(** * [backend/app.py]: the two analysis routes

    The request is the pair of Flask's [request.files] and [request.form];
    a response is the JSON body with the status code.  Cloudinary, the
    MongoDB collections, [json.loads] and the clock are section variables;
    the calls that change the outside world are recorded in a trace. *)

Module Routes.

Import Classifier Tracker.

Record FileStorage : Type := {
  filename : string;
  content_type : string;
  stream : string
}.

Record Request : Type := {
  files : list (string * FileStorage);
  form : list (string * string)
}.

(** [d[key]] / [d.get(key)] on a request dictionary: the first value. *)
Fixpoint lookup {V : Type} (key : string) (d : list (string * V)) : option V :=
  match d with
  | [] => None
  | (k, v) :: rest => if k =? key then Some v else lookup key rest
  end.

(** [key in d] *)
Definition has {V : Type} (key : string) (d : list (string * V)) : bool :=
  match lookup key d with Some _ => true | None => false end.

(** [d.get(key, default)] *)
Definition get_or {V : Type} (key : string) (default : V)
    (d : list (string * V)) : V :=
  match lookup key d with Some v => v | None => default end.

(** The folder an upload goes to; the folder text itself is
    [hairfall_predictions/<sanitize_folder_name(user_id)>] with the suffix
    [/tracking] for the tracking route. *)
Inductive Folder : Type := PredictionsFolder | TrackingFolder.

(** The document stored by [/predict]. *)
Record PredictionDoc (Instant Json : Type) : Type := {
  pd_user_id : string;
  pd_image_url : string;
  pd_stage : option string;
  pd_confidence : option Q;
  pd_gender : string;
  pd_timestamp : Instant;
  pd_questionnaire_answers : Json
}.
Arguments pd_user_id {Instant Json} _.
Arguments pd_image_url {Instant Json} _.
Arguments pd_stage {Instant Json} _.
Arguments pd_confidence {Instant Json} _.
Arguments pd_gender {Instant Json} _.
Arguments pd_timestamp {Instant Json} _.
Arguments pd_questionnaire_answers {Instant Json} _.

(** The document stored by [/analyze-hair-growth]. *)
Record TrackingDoc (Instant : Type) : Type := {
  td_user_id : string;
  td_images : list string;
  td_timestamps : list string;
  td_results : list TrendPoint;
  td_status : Status;
  td_comparison_image_url : option string;
  td_timestamp : Instant
}.
Arguments td_user_id {Instant} _.
Arguments td_images {Instant} _.
Arguments td_timestamps {Instant} _.
Arguments td_results {Instant} _.
Arguments td_status {Instant} _.
Arguments td_comparison_image_url {Instant} _.
Arguments td_timestamp {Instant} _.

(** [jsonify(...)] of an error, of a [predict_stage] dictionary or of a
    tracking result. *)
Inductive Body : Type :=
| BError (msg : string)
| BStage (d : StageDict)
| BTracking (r : TrackingResult).

Definition Response : Type := (Body * nat)%type.

(** An integer below ten as [str(i)]. *)
Definition digit (i : nat) : string :=
  String (ascii_of_nat (48 + i)%nat) EmptyString.

Definition allowed_type (t : string) : bool :=
  (t =? "image/jpeg") || (t =? "image/png").

Section World.

Variable Bytes : Type.
Variable Tensor : Type.
Variable ColorMat : Type.
Variable Instant : Type.
Variable Json : Type.

(** The collaborators of [model_load.py]. *)
Variable urlopen : string -> exc Bytes.
Variable preprocess : Bytes -> exc Tensor.
Variable model_predict : Model -> Tensor -> exc (list Q).
Variable imdecode : Bytes -> option ColorMat.
Variable cvtColor_BGR2GRAY : ColorMat -> Mat.

(** [str.lower] *)
Variable lower : string -> string.
(** [cloudinary.uploader.upload(file, resource_type="image", folder=...)]
    followed by [.get("secure_url")]. *)
Variable upload : Folder -> string -> FileStorage -> exc string.
(** [json.loads]; [Raise] is its [JSONDecodeError]. *)
Variable json_loads : string -> exc Json.
(** [isinstance(answers, dict)] *)
Variable is_dict : Json -> bool.
(** The collections: [None], or their [insert_one]. *)
Variable predictions_collection :
  option (PredictionDoc Instant Json -> exc unit).
Variable hair_tracking_collection : option (TrackingDoc Instant -> exc unit).
(** [datetime.utcnow()] at its n-th reading within the request, and
    [.isoformat()]. *)
Variable utcnow : nat -> Instant.
Variable isoformat : Instant -> string.
(** [str(e)] of the error Flask raises for [request.files[key]] on a key
    that is absent. *)
Variable bad_request_key : string -> string.

Inductive Event : Type :=
| Upload (folder : Folder) (user_id : string) (file : FileStorage)
| Classify (e : Classifier.event)
| InsertPrediction (doc : PredictionDoc Instant Json)
| InsertTracking (doc : TrackingDoc Instant).

(** Lines 110-117: the questionnaire answers. *)
Definition read_answers (req : Request) : exc Json :=
  answers <- json_loads (get_or "answers" "{}" (form req)) ;;
  if is_dict answers then Return answers
  else Raise "Invalid answers format".

(** The route [/predict]. *)
Definition predict (req : Request) : list Event * Response :=
  match lookup "file" (files req), lookup "gender" (form req),
        lookup "user_id" (form req) with
  | Some file, Some g, Some user_id =>
      let gender := lower g in
      if filename file =? "" then
        ([], (BError "No selected file", 400%nat))
      else if negb (allowed_type (content_type file)) then
        ([], (BError "Invalid file type. Only JPEG and PNG are allowed", 400%nat))
      else
        match upload PredictionsFolder user_id file with
        | Raise e =>
            ([Upload PredictionsFolder user_id file],
             (BError ("Cloudinary upload failed: " ++ e), 500%nat))
        | Return image_url =>
            let (calls, result) :=
              predict_stage Bytes Tensor urlopen preprocess model_predict
                            image_url gender in
            let trace :=
              Upload PredictionsFolder user_id file :: map Classify calls in
            match predictions_collection with
            | None => (trace, (BError "MongoDB is not initialized", 500%nat))
            | Some insert_one =>
                match read_answers req with
                | Raise e =>
                    (trace,
                     (BError ("Invalid questionnaire answers: " ++ e), 400%nat))
                | Return answers =>
                    let metadata :=
                      {| pd_user_id := user_id;
                         pd_image_url := image_url;
                         pd_stage := stage result;
                         pd_confidence := confidence result;
                         pd_gender := gender;
                         pd_timestamp := utcnow 0%nat;
                         pd_questionnaire_answers := answers |} in
                    match insert_one metadata with
                    | Raise e =>
                        (trace ++ [InsertPrediction metadata],
                         (BError ("Prediction or database error: " ++ e), 500%nat))
                    | Return _ =>
                        (trace ++ [InsertPrediction metadata],
                         (BStage result, 200%nat))
                    end
                end
            end
        end
  | _, _, _ => ([], (BError "Missing file, gender, or user_id", 400%nat))
  end.

(** The loop of lines 163-174 over the remaining indices; [inl] is a
    response returned from inside it. *)
Fixpoint upload_images (req : Request) (user_id : string) (indices : list nat)
    (images timestamps : list string) (trace : list Event)
    : (list Event * Response) + (list string * list string * list Event) :=
  match indices with
  | [] => inr (images, timestamps, trace)
  | i :: rest =>
      match lookup ("image" ++ digit i) (files req) with
      | None =>
          inl (trace,
               (BError ("Cloudinary upload failed: "
                        ++ bad_request_key ("image" ++ digit i)), 500%nat))
      | Some file =>
          if filename file =? "" then
            inl (trace, (BError ("No file selected for image" ++ digit i), 400%nat))
          else
            match upload TrackingFolder user_id file with
            | Raise e =>
                inl (trace ++ [Upload TrackingFolder user_id file],
                     (BError ("Cloudinary upload failed: " ++ e), 500%nat))
            | Return url =>
                upload_images req user_id rest
                  (images ++ [url])
                  (timestamps ++
                     [get_or ("timestamp" ++ digit i) (isoformat (utcnow i))
                             (form req)])
                  (trace ++ [Upload TrackingFolder user_id file])
            end
      end
  end.

(** The route [/analyze-hair-growth]. *)
Definition analyze_hair_growth (req : Request) : list Event * Response :=
  match lookup "user_id" (form req) with
  | None => ([], (BError "Missing images or user_id", 400%nat))
  | Some user_id =>
      if negb (forallb (fun i => has ("image" ++ digit i) (files req)) (seq 0 4))
      then ([], (BError "Missing images or user_id", 400%nat))
      else
        match upload_images req user_id (seq 0 4) [] [] [] with
        | inl early => early
        | inr (images, timestamps, trace) =>
            let results :=
              analyze_hair_density Bytes ColorMat urlopen imdecode
                                   cvtColor_BGR2GRAY images timestamps in
            match hair_tracking_collection with
            | None => (trace, (BError "MongoDB is not initialized", 500%nat))
            | Some insert_one =>
                match results with
                | Error _ =>
                    (trace, (BError "Analysis failed: 'results'", 500%nat))
                | Success r =>
                    let metadata :=
                      {| td_user_id := user_id;
                         td_images := images;
                         td_timestamps := timestamps;
                         td_results := Tracker.results r;
                         td_status := overall_status r;
                         td_comparison_image_url := comparisonImageUrl r;
                         td_timestamp := utcnow 4%nat |} in
                    match insert_one metadata with
                    | Raise e =>
                        (trace ++ [InsertTracking metadata],
                         (BError ("Analysis failed: " ++ e), 500%nat))
                    | Return _ =>
                        (trace ++ [InsertTracking metadata],
                         (BTracking r, 200%nat))
                    end
                end
            end
        end
  end.

End World.

Arguments Upload {Instant Json} folder user_id file.
Arguments Classify {Instant Json} e.
Arguments InsertPrediction {Instant Json} doc.
Arguments InsertTracking {Instant Json} doc.

End Routes.

(** * A concrete world for the routes *)

Module RouteDemo.

Import Routes.

(** ASCII lower-casing, which is what [str.lower] does on ASCII text. *)
Definition lower_ascii (c : ascii) : ascii :=
  let n := nat_of_ascii c in
  if ((65 <=? n) && (n <=? 90))%nat then ascii_of_nat (n + 32) else c.

Fixpoint lower (s : string) : string :=
  match s with
  | EmptyString => EmptyString
  | String c s' => String (lower_ascii c) (lower s')
  end.

(** An upload is stored under its file name; an empty stream is refused. *)
Definition upload (folder : Folder) (user_id : string) (file : FileStorage)
    : exc string :=
  if stream file =? "" then Raise "Empty file"
  else Return ("https://cdn.test/" ++ filename file)%string.

(** JSON reduced to what the route looks at. *)
Inductive json : Type := JObject (text : string) | JOther (text : string).

Definition json_loads (text : string) : exc json :=
  match text with
  | String "{" _ => Return (JObject text)
  | String "[" _ => Return (JOther text)
  | _ => Raise "Expecting value: line 1 column 1 (char 0)"
  end.

Definition is_dict (j : json) : bool :=
  match j with JObject _ => true | JOther _ => false end.

Definition utcnow (n : nat) : nat := n.

Definition isoformat (t : nat) : string := "2024-05-01T10:00:0" ++ digit t.

Definition bad_request_key (key : string) : string := "400 Bad Request".

Definition photo (name : string) : FileStorage :=
  {| filename := name; content_type := "image/png"; stream := "PNG" |}.

Definition predict : Request -> list (Event nat json) * Response :=
  Routes.predict string string nat json
    Demo.urlopen Demo.preprocess Demo.model_predict
    lower upload json_loads is_dict (Some (fun _ => Return tt)) utcnow.

Definition analyze_hair_growth : Request -> list (Event nat json) * Response :=
  Routes.analyze_hair_growth string Tracker.Mat nat json
    Demo.urlopen Demo.imdecode Demo.cvtColor_BGR2GRAY
    upload (Some (fun _ => Return tt)) utcnow isoformat bad_request_key.

(** A classification request for a wall photograph, gender in capitals. *)
Definition wall_request (gender : string) : Request :=
  {| files := [("file", photo "wall.png")];
     form := [("gender", gender); ("user_id", "u/1")] |}.

(** A tracking request with the four weekly photographs and no
    timestamps. *)
Definition weekly_request : Request :=
  {| files := [("image0", photo "w1.png"); ("image1", photo "w2.png");
               ("image2", photo "w3.png"); ("image3", photo "w4.png")];
     form := [("user_id", "u/1")] |}.

(** A model pair whose female network has seven outputs, one more than
    there are female labels, the last being the largest. *)
Definition wide_model_predict (m : Classifier.Model) (t : string)
    : exc (list Q) :=
  match m with
  | Classifier.male_model => Demo.model_predict m t
  | Classifier.female_model =>
      Return [1 # 50; 1 # 50; 1 # 50; 1 # 50; 1 # 50; 1 # 10; 4 # 5]
  end.

(** Two photographs so alike that the change is 0.04 percent. *)
Definition fine_urls : list string :=
  ["https://cdn.test/fine1.png"; "https://cdn.test/fine2.png";
   "https://cdn.test/fine2.png"; "https://cdn.test/fine2.png"].

(** The same with the third file replaced by a text file. *)
Definition broken_request : Request :=
  {| files := [("image0", photo "w1.png"); ("image1", photo "w2.png");
               ("image2", photo "notes.txt"); ("image3", photo "w4.png")];
     form := [("user_id", "u/1")] |}.

End RouteDemo.

(** * [backend/app.py]: likes and deletion of forum posts

    The collection [ForumPosts] is the list of its documents.  [find_one],
    [update_one] and [delete_one] with an [_id] filter act on the first
    document with that [_id].  The JSON body of a request is a dictionary
    of strings.  [toggle_like] is read with the collection reachable and
    to itself; [delete_forum_post] is read under [Conditions]: the driver
    may raise, and other clients may write between its two calls. *)

Module Forum.

Import Routes.

Section World.

(** The types of a stored comment and of a stored instant. *)
Variable Comment : Type.
Variable Instant : Type.
(** [ObjectId(text)]: [None] is [InvalidId]; an id is held as its text. *)
Variable object_id : string -> option string.

Record Post : Type := {
  oid : string;
  user_id : string;
  username : string;
  text : string;
  image_url : option string;
  cloudinary_public_id : option string;
  likes : list string;
  comments : list Comment;
  timestamp : Instant
}.

Inductive Body : Type :=
| FError (msg : string)
| FLikes (likes : list string)
| FMessage (message : string).

(** [find_one({"_id": id})] *)
Definition find_one (store : list Post) (id : string) : option Post :=
  find (fun p => oid p =? id) store.

(** [update_one({"_id": id}, {"$set": {"likes": new_likes}})] *)
Fixpoint set_likes (store : list Post) (id : string) (new_likes : list string)
    : list Post :=
  match store with
  | [] => []
  | p :: rest =>
      if oid p =? id then
        {| oid := oid p; user_id := user_id p; username := username p;
           text := text p; image_url := image_url p;
           cloudinary_public_id := cloudinary_public_id p;
           likes := new_likes; comments := comments p;
           timestamp := timestamp p |} :: rest
      else p :: set_likes rest id new_likes
  end.

(** [delete_one({"_id": id})] with its [deleted_count]. *)
Fixpoint delete_one (store : list Post) (id : string) : list Post * nat :=
  match store with
  | [] => ([], 0%nat)
  | p :: rest =>
      if oid p =? id then (rest, 1%nat)
      else let (rest', n) := delete_one rest id in (p :: rest', n)
  end.

(** [l.remove(x)] for an [x] that occurs in [l]. *)
Fixpoint remove_first (x : string) (l : list string) : list string :=
  match l with
  | [] => []
  | y :: rest => if y =? x then rest else y :: remove_first x rest
  end.

(** Lines 393-397. *)
Definition toggle (likes : list string) (user : string) : list string :=
  if existsb (fun y => y =? user) likes then remove_first user likes
  else likes ++ [user].

(** The route [/forum/like]. *)
Definition toggle_like (data : list (string * string)) (store : list Post)
    : list Post * (Body * nat) :=
  match lookup "post_id" data, lookup "user_id" data with
  | Some post_id, Some user =>
      match object_id post_id with
      | None => (store, (FError "Invalid post_id format", 400%nat))
      | Some post_object_id =>
          match find_one store post_object_id with
          | None => (store, (FError "Post not found", 404%nat))
          | Some post =>
              let new_likes := toggle (likes post) user in
              (set_likes store post_object_id new_likes,
               (FLikes new_likes, 200%nat))
          end
      end
  | _, _ => (store, (FError "Missing post_id or user_id", 400%nat))
  end.

(** Python truthiness of an optional string. *)
Definition truthy (s : option string) : bool :=
  match s with
  | Some EmptyString | None => false
  | Some _ => true
  end.

(** What surrounds the two driver calls of one deletion: an exception
    raised by [find_one] or by [delete_one] (a call that raises is taken
    to have changed nothing), and the writes of other clients that reach
    the collection between the two calls. *)
Record Conditions : Type := {
  find_one_raises : option string;
  interleaved : list Post -> list Post;
  delete_one_raises : option string
}.

(** Nothing raises and nobody else writes. *)
Definition quiet : Conditions :=
  {| find_one_raises := None;
     interleaved := fun store => store;
     delete_one_raises := None |}.

(** The route [DELETE /forum/post/<post_id>].  The trace lists the public
    ids handed to [cloudinary.uploader.destroy], whose failure is logged
    and ignored; the collection returned is the collection after the last
    driver call of the request. *)
Definition delete_forum_post (c : Conditions) (post_id : string)
    (data : list (string * string)) (store : list Post)
    : list string * list Post * (Body * nat) :=
  match lookup "user_id" data with
  | None => ([], store, (FError "Missing user_id", 400%nat))
  | Some user =>
      match object_id post_id with
      | None => ([], store, (FError "Invalid post_id format", 400%nat))
      | Some post_object_id =>
          match find_one_raises c with
          | Some e => ([], store, (FError ("Database error: " ++ e), 500%nat))
          | None =>
              match find_one store post_object_id with
              | None => ([], store, (FError "Post not found", 404%nat))
              | Some post =>
                  if negb (user_id post =? user) then
                    ([], store,
                     (FError "Unauthorized: You can only delete your own posts",
                      403%nat))
                  else
                    let destroyed :=
                      if truthy (lookup "image_url" data)
                         && truthy (cloudinary_public_id post)
                      then match cloudinary_public_id post with
                           | Some public_id => [public_id]
                           | None => []
                           end
                      else [] in
                    let store := interleaved c store in
                    match delete_one_raises c with
                    | Some e =>
                        (destroyed, store,
                         (FError ("Database error: " ++ e), 500%nat))
                    | None =>
                        let (store', deleted_count) :=
                          delete_one store post_object_id in
                        if (deleted_count =? 0)%nat then
                          (destroyed, store',
                           (FError "Failed to delete post", 500%nat))
                        else
                          (destroyed, store',
                           (FMessage "Post deleted successfully", 200%nat))
                    end
              end
          end
      end
  end.

End World.

Arguments oid {Comment Instant} p.
Arguments user_id {Comment Instant} p.
Arguments likes {Comment Instant} p.
Arguments cloudinary_public_id {Comment Instant} p.
Arguments image_url {Comment Instant} p.
Arguments find_one_raises {Comment Instant} c.
Arguments interleaved {Comment Instant} c.
Arguments delete_one_raises {Comment Instant} c.

End Forum.

Module ForumDemo.

Import Forum.

Definition is_hex (c : ascii) : bool :=
  let n := nat_of_ascii c in
  ((48 <=? n) && (n <=? 57) || (65 <=? n) && (n <=? 70)
   || (97 <=? n) && (n <=? 102))%nat.

(** [ObjectId] of a text: 24 hexadecimal digits. *)
Definition object_id (s : string) : option string :=
  if ((String.length s =? 24)%nat && forallb is_hex (list_ascii_of_string s))%bool
  then Some s else None.

Definition post_a : Post unit nat :=
  {| oid := "65f000000000000000000001"; user_id := "ann"; username := "Ann";
     text := "Week three"; image_url := Some "https://cdn.test/p1.png";
     cloudinary_public_id := Some "forum_images/p1";
     likes := ["bob"; "cy"]; comments := []; timestamp := 1%nat |}.

Definition post_b : Post unit nat :=
  {| oid := "65f000000000000000000002"; user_id := "bob"; username := "Bob";
     text := "Any advice?"; image_url := None;
     cloudinary_public_id := None;
     likes := []; comments := []; timestamp := 2%nat |}.

Definition store : list (Post unit nat) := [post_a; post_b].

(** Another client removes the first post between the two driver calls. *)
Definition raced : Conditions unit nat :=
  {| find_one_raises := None;
     interleaved := fun _ => [post_b];
     delete_one_raises := None |}.

(** The connection drops at [delete_one]. *)
Definition dropped : Conditions unit nat :=
  {| find_one_raises := None;
     interleaved := fun store => store;
     delete_one_raises := Some "connection closed" |}.

End ForumDemo.

(** * Further vocabulary *)

Module Reading.

Import Tracker.
Local Open Scope Q_scope.

(** A pixel the binarisation marks as hair: luminance not above 50. *)
Definition dark (p : Z) : Prop := (p <= 50)%Z.

(** The fixed messages of [analyze_hair_density]. *)
Definition count_message : string :=
  "Exactly 4 images and timestamps are required".

Definition image_message (url e : string) : string :=
  ("Failed to process image " ++ url ++ ": " ++ e)%string.

(** [c] is the largest entry of [l] and [k] the first position holding it. *)
Definition first_maximum (l : list Q) (k : nat) (c : Q) : Prop :=
  nth_error l k = Some c /\
  Forall (fun p => p <= c) l /\
  forall j p, (j < k)%nat -> nth_error l j = Some p -> p < c.

End Reading.
(** * Properties of the classifier *)

Module ClassifierFacts.

Import Classifier.

Lemma select_model_labels gender model class_labels :
  select_model gender = Some (model, class_labels) ->
  nth_error class_labels 0 = Some "non-scalp".
Proof.
  unfold select_model.
  destruct (gender =? "male"); [intros [= <- <-]; reflexivity|].
  destruct (gender =? "female"); [intros [= <- <-]; reflexivity|discriminate].
Qed.

Lemma select_model_valid gender :
  gender = "male" \/ gender = "female" ->
  exists model class_labels, select_model gender = Some (model, class_labels).
Proof.
  intros [-> | ->]; unfold select_model; simpl; eauto.
Qed.

Lemma select_model_invalid gender :
  gender <> "male" -> gender <> "female" -> select_model gender = None.
Proof.
  intros Hm Hf. unfold select_model.
  destruct (String.eqb_spec gender "male"); [contradiction|].
  destruct (String.eqb_spec gender "female"); [contradiction|reflexivity].
Qed.

Section World.

Variable Bytes : Type.
Variable Tensor : Type.
Variable urlopen : string -> exc Bytes.
Variable preprocess : Bytes -> exc Tensor.
Variable model_predict : Model -> Tensor -> exc (list Q).

Local Abbreviation predict_stage :=
  (predict_stage Bytes Tensor urlopen preprocess model_predict).

(** C1.  For a supported category ("male" or "female"), an image that
    loads and whose top predicted index is 0 is answered with a result
    dictionary, not a failure: it carries the rejection text under
    ["error"] (so it is not valid), the index-0 label "non-scalp", the
    confidence (the largest predicted probability) and the image URL. *)
Theorem non_scalp_soft_rejection :
  forall url gender model class_labels img_data img_array predictions,
    gender = "male" \/ gender = "female" ->
    select_model gender = Some (model, class_labels) ->
    urlopen url = Return img_data ->
    preprocess img_data = Return img_array ->
    model_predict model img_array = Return predictions ->
    argmax predictions = Return 0%nat ->
    exists conf,
      amax predictions = Return conf /\
      snd (predict_stage url gender) =
        {| error := Some "Invalid image! Please upload a scalp image.";
           stage := Some "non-scalp";
           confidence := Some conf;
           image_url := Some url |} /\
      isValid (snd (predict_stage url gender)) = false /\
      is_failure (snd (predict_stage url gender)) = false.
Proof.
  intros url gender model class_labels img_data img_array predictions
         _ Hsel Hopen Hpre Hpred Harg.
  destruct predictions as [|p ps]; [discriminate Harg|].
  exists (fold_left (fun m y => if Qle_bool y m then m else y) ps p).
  assert (Hrun : snd (predict_stage url gender) =
    {| error := Some "Invalid image! Please upload a scalp image.";
       stage := Some "non-scalp";
       confidence := Some (fold_left (fun m y => if Qle_bool y m then m else y) ps p);
       image_url := Some url |}).
  { unfold Classifier.predict_stage, load_image, run_prediction.
    rewrite Hsel, Hopen. cbn [bind]. rewrite Hpre. cbn [snd].
    rewrite Hpred. cbn [bind]. rewrite Harg. cbn [bind amax].
    unfold getitem. rewrite (select_model_labels _ _ _ Hsel).
    reflexivity. }
  split; [reflexivity|]. split; [exact Hrun|].
  rewrite Hrun. split; reflexivity.
Qed.

(** C8.  A category other than "male" and "female" is answered with the
    invalid-selection error whatever the image is, and no call is made
    to load the image or to run a model. *)
Theorem invalid_gender_no_inference :
  forall url gender,
    gender <> "male" -> gender <> "female" ->
    predict_stage url gender =
      ([], error_dict "Invalid gender selection. Choose 'male' or 'female'.").
Proof.
  intros url gender Hm Hf. unfold Classifier.predict_stage.
  rewrite (select_model_invalid _ Hm Hf). reflexivity.
Qed.

End World.

Lemma non_scalp_soft_rejection_witness :
  exists conf,
    amax [9 # 10; 1 # 50; 1 # 50; 1 # 50; 1 # 50; 1 # 100; 1 # 100] = Return conf /\
    snd (Demo.predict "https://cdn.test/wall.png" "male") =
      {| error := Some "Invalid image! Please upload a scalp image.";
         stage := Some "non-scalp";
         confidence := Some conf;
         image_url := Some "https://cdn.test/wall.png" |} /\
    isValid (snd (Demo.predict "https://cdn.test/wall.png" "male")) = false /\
    is_failure (snd (Demo.predict "https://cdn.test/wall.png" "male")) = false.
Proof.
  apply (non_scalp_soft_rejection string string Demo.urlopen Demo.preprocess
           Demo.model_predict "https://cdn.test/wall.png" "male"
           male_model male_labels "wall" "wall"
           [9 # 10; 1 # 50; 1 # 50; 1 # 50; 1 # 50; 1 # 100; 1 # 100]).
  - left; reflexivity.
  - reflexivity.
  - reflexivity.
  - reflexivity.
  - reflexivity.
  - reflexivity.
Defined.

Lemma invalid_gender_no_inference_witness :
  Demo.predict "https://cdn.test/w1.png" "other" =
    ([], error_dict "Invalid gender selection. Choose 'male' or 'female'.").
Proof.
  apply (invalid_gender_no_inference string string Demo.urlopen Demo.preprocess
           Demo.model_predict "https://cdn.test/w1.png" "other").
  - discriminate.
  - discriminate.
Defined.

End ClassifierFacts.

(** * The order on timestamps *)

Module StrOrder.

Import Tracker Vocabulary.

Lemma ltb_lt a b : String.ltb a b = true <-> String_as_OT.lt a b.
Proof.
  unfold String.ltb. rewrite <- String_as_OT.cmp_lt.
  unfold String_as_OT.cmp. destruct (String.compare a b); split; congruence.
Qed.

Lemma slt_trans a b c : slt a b -> slt b c -> slt a c.
Proof.
  unfold slt. rewrite !ltb_lt. apply String_as_OT.lt_trans.
Qed.

Lemma slt_irrefl a : ~ slt a a.
Proof.
  unfold slt. rewrite ltb_lt. intros H.
  exact (String_as_OT.lt_not_eq _ _ H eq_refl).
Qed.

Lemma sle_antisym a b : sle a b -> sle b a -> a = b.
Proof.
  unfold sle, String.ltb. intros Hab Hba.
  apply String.compare_eq_iff.
  rewrite (String.compare_antisym b a) in Hab.
  destruct (String.compare a b); simpl in *; congruence.
Qed.

Lemma slt_sle a b : slt a b -> sle a b.
Proof.
  unfold sle. intros H.
  destruct (String.ltb b a) eqn:E; [|reflexivity].
  exfalso. exact (slt_irrefl a (slt_trans _ _ _ H E)).
Qed.

Lemma sle_cases a b : sle a b -> slt a b \/ a = b.
Proof.
  intros H. destruct (String.ltb a b) eqn:E; [left; exact E|].
  right. exact (sle_antisym _ _ H E).
Qed.

Lemma sle_refl a : sle a a.
Proof.
  unfold sle. destruct (String.ltb a a) eqn:E; [|reflexivity].
  exfalso. exact (slt_irrefl a E).
Qed.

Lemma sle_trans a b c : sle a b -> sle b c -> sle a c.
Proof.
  intros Hab Hbc.
  destruct (sle_cases _ _ Hab) as [Hlt | ->]; [|exact Hbc].
  destruct (sle_cases _ _ Hbc) as [Hlt' | <-]; [|exact Hab].
  apply slt_sle. exact (slt_trans _ _ _ Hlt Hlt').
Qed.

(** ** Array entries *)

Lemma zero_least (d : ascii) : d <> Ascii.zero -> Ascii.compare Ascii.zero d = Lt.
Proof.
  intros Hd. unfold Ascii.compare.
  destruct (N.compare_spec (N_of_ascii Ascii.zero) (N_of_ascii d)) as [E | L | G].
  - elim Hd. rewrite <- (ascii_N_embedding d), <- E. reflexivity.
  - reflexivity.
  - exfalso. change (N_of_ascii Ascii.zero) with 0%N in G. lia.
Qed.

Lemma np_item_compare (x y : string) :
  String.compare (np_item x) (np_item y) = Lt -> String.compare x y = Lt.
Proof.
  revert y. induction x as [|c x IH]; intros [|d y]; cbn [np_item].
  - discriminate.
  - reflexivity.
  - destruct (Ascii.eqb c Ascii.zero && (np_item x =? ""))%bool; discriminate.
  - cbn [String.compare].
    destruct (Ascii.eqb_spec c Ascii.zero) as [Ec | Ec];
      destruct (String.eqb_spec (np_item x) "") as [Ex | Ex];
      destruct (Ascii.eqb_spec d Ascii.zero) as [Ed | Ed];
      destruct (String.eqb_spec (np_item y) "") as [Ey | Ey];
      cbn [andb String.compare]; try discriminate;
      try (subst c; rewrite (zero_least d Ed); reflexivity);
      try (intros H; destruct (Ascii.compare c d);
           [apply IH; exact H | reflexivity | discriminate H]).
    all: intros _; subst c d; cbn; apply IH; rewrite Ex;
      destruct (np_item y); [congruence | reflexivity].
Qed.

(** Dropping trailing NULs keeps the order of two timestamps or ties them. *)
Lemma sle_np_item (a b : string) : sle a b -> sle (np_item a) (np_item b).
Proof.
  unfold sle, String.ltb. intros H.
  destruct (String.compare (np_item b) (np_item a)) eqn:E; try reflexivity.
  apply np_item_compare in E. rewrite E in H. discriminate H.
Qed.

End StrOrder.

(** * The insertion sort behind [argsort] *)

Module SortFacts.

Import Tracker Vocabulary StrOrder.

Section Generic.

Context {A : Type}.
Variable key : A -> string.

Lemma insert_back_perm (x : A) (l : list A) :
  Permutation (insert_back key x l) (x :: l).
Proof.
  induction l as [|k l IH]; simpl; [reflexivity|].
  destruct (String.ltb (key x) (key k)); [|reflexivity].
  rewrite IH. apply perm_swap.
Qed.

Lemma fold_insert_perm (l acc : list A) :
  Permutation (fold_left (fun acc x => insert_back key x acc) l acc) (l ++ acc).
Proof.
  revert acc. induction l as [|x l IH]; intros acc; simpl; [reflexivity|].
  rewrite IH, insert_back_perm. symmetry. apply Permutation_middle.
Qed.

Lemma insertion_sort_perm (l : list A) : Permutation (insertion_sort key l) l.
Proof.
  unfold insertion_sort. rewrite <- Permutation_rev, fold_insert_perm.
  rewrite app_nil_r. reflexivity.
Qed.

Variable earlier : A -> A -> Prop.

Local Abbreviation before := (stable_before key earlier).

Lemma before_sle x y : before x y -> sle (key x) (key y).
Proof.
  intros [H | [H _]]; [apply slt_sle; exact H | rewrite H; apply sle_refl].
Qed.

Lemma sle_before x y : sle (key x) (key y) -> earlier x y -> before x y.
Proof.
  intros H E. destruct (sle_cases _ _ H) as [Hlt | Heq]; [left | right]; auto.
Qed.

Lemma insert_back_sorted (x : A) (acc : list A) :
  (forall a, In a acc -> earlier a x) ->
  StronglySorted (fun a b => before b a) acc ->
  StronglySorted (fun a b => before b a) (insert_back key x acc).
Proof.
  induction acc as [|k rest IH]; intros Hx Hs; simpl.
  - constructor; constructor.
  - apply StronglySorted_inv in Hs. destruct Hs as [Hrest Hk].
    destruct (String.ltb (key x) (key k)) eqn:E.
    + constructor.
      * apply IH; [intros a Ha; apply Hx; right; exact Ha | exact Hrest].
      * apply Forall_forall. intros y Hy.
        apply (Permutation_in _ (insert_back_perm x rest)) in Hy.
        destruct Hy as [<- | Hy]; [left; exact E|].
        rewrite Forall_forall in Hk. apply Hk. exact Hy.
    + constructor; [constructor; assumption|].
      assert (Hkx : sle (key k) (key x)) by exact E.
      constructor.
      * apply sle_before; [exact Hkx | apply Hx; left; reflexivity].
      * apply Forall_forall. intros y Hy.
        rewrite Forall_forall in Hk.
        apply sle_before; [|apply Hx; right; exact Hy].
        apply sle_trans with (key k); [apply before_sle, Hk, Hy | exact Hkx].
Qed.

Lemma fold_insert_sorted (l acc : list A) :
  StronglySorted earlier l ->
  (forall a x, In a acc -> In x l -> earlier a x) ->
  StronglySorted (fun a b => before b a) acc ->
  StronglySorted (fun a b => before b a)
    (fold_left (fun acc x => insert_back key x acc) l acc).
Proof.
  revert acc. induction l as [|x l IH]; intros acc Hl Hacc Hs; simpl; [exact Hs|].
  apply StronglySorted_inv in Hl. destruct Hl as [Hl Hx].
  apply IH; [exact Hl| |].
  - intros a y Ha Hy.
    apply (Permutation_in _ (insert_back_perm x acc)) in Ha.
    destruct Ha as [<- | Ha].
    + rewrite Forall_forall in Hx. apply Hx, Hy.
    + apply Hacc; [exact Ha | right; exact Hy].
  - apply insert_back_sorted; [|exact Hs].
    intros a Ha. apply Hacc; [exact Ha | left; reflexivity].
Qed.

Lemma sorted_snoc (R : A -> A -> Prop) (l : list A) (x : A) :
  StronglySorted R l -> Forall (fun a => R a x) l -> StronglySorted R (l ++ [x]).
Proof.
  induction l as [|a l IH]; intros Hs Hx; simpl.
  - constructor; constructor.
  - apply StronglySorted_inv in Hs. destruct Hs as [Hs Ha].
    inversion Hx; subst. constructor; [apply IH; assumption|].
    apply Forall_app. split; [exact Ha | constructor; [assumption | constructor]].
Qed.

Lemma sorted_rev (R : A -> A -> Prop) (l : list A) :
  StronglySorted (fun a b => R b a) l -> StronglySorted R (rev l).
Proof.
  induction l as [|a l IH]; intros Hs; simpl; [constructor|].
  apply StronglySorted_inv in Hs. destruct Hs as [Hs Ha].
  apply sorted_snoc; [apply IH, Hs|].
  apply Forall_forall. intros y Hy. apply in_rev in Hy.
  rewrite Forall_forall in Ha. apply Ha, Hy.
Qed.

(** The sort is ascending and stable. *)
Lemma insertion_sort_stable (l : list A) :
  StronglySorted earlier l -> StronglySorted before (insertion_sort key l).
Proof.
  intros Hl. unfold insertion_sort. apply sorted_rev.
  apply fold_insert_sorted; [exact Hl | intros a x [] | constructor].
Qed.

End Generic.

(** Ascending alone, for any input. *)
Lemma insertion_sort_ascending {A : Type} (key : A -> string) (l : list A) :
  StronglySorted (fun a b => sle (key a) (key b)) (insertion_sort key l).
Proof.
  assert (H : StronglySorted (stable_before key (fun _ _ => True))
                (insertion_sort key l)).
  { unfold insertion_sort. apply sorted_rev.
    apply fold_insert_sorted; [|intros a x []|constructor].
    induction l; constructor; auto. apply Forall_forall; auto. }
  induction H as [|a l' Hs IH Ha]; constructor; [exact IH|].
  rewrite Forall_forall in *. intros y Hy.
  exact (before_sle key _ a y (Ha y Hy)).
Qed.

(** Two ascending arrangements of the same elements agree when no key
    repeats. *)
Lemma ascending_unique {A : Type} (key : A -> string) (l1 l2 : list A) :
  StronglySorted (fun a b => sle (key a) (key b)) l1 ->
  StronglySorted (fun a b => sle (key a) (key b)) l2 ->
  Permutation l1 l2 ->
  NoDup (map key l1) ->
  l1 = l2.
Proof.
  revert l2. induction l1 as [|a l1 IH]; intros l2 H1 H2 HP HN.
  - apply Permutation_nil in HP. subst; reflexivity.
  - destruct l2 as [|b l2].
    { apply Permutation_sym, Permutation_nil in HP. discriminate. }
    apply StronglySorted_inv in H1. destruct H1 as [H1 Ha].
    apply StronglySorted_inv in H2. destruct H2 as [H2 Hb].
    rewrite Forall_forall in Ha, Hb.
    simpl in HN. apply NoDup_cons_iff in HN. destruct HN as [Hna HN].
    assert (Hab : a = b).
    { assert (Hin_a : In a (b :: l2))
        by (apply (Permutation_in _ HP); left; reflexivity).
      assert (Hin_b : In b (a :: l1))
        by (apply (Permutation_in _ (Permutation_sym HP)); left; reflexivity).
      destruct Hin_a as [-> | Hin_a]; [reflexivity|].
      destruct Hin_b as [-> | Hin_b]; [reflexivity|].
      exfalso. apply Hna.
      rewrite (sle_antisym _ _ (Ha b Hin_b) (Hb a Hin_a)).
      apply in_map. exact Hin_b. }
    subst b. f_equal.
    apply IH; auto. exact (Permutation_cons_inv HP).
Qed.

Lemma insertion_sort_ext {A : Type} (key key' : A -> string) (l : list A) :
  (forall x, key x = key' x) -> insertion_sort key l = insertion_sort key' l.
Proof.
  intros E. unfold insertion_sort. f_equal.
  generalize (@nil A). induction l as [|x l IH]; intros acc; simpl; [reflexivity|].
  rewrite IH. f_equal.
  induction acc as [|k acc IHacc]; simpl; [reflexivity|].
  rewrite !E, IHacc. reflexivity.
Qed.

Lemma insertion_sort_map {A B : Type} (f : A -> B) (key : B -> string) (l : list A) :
  map f (insertion_sort (fun x => key (f x)) l) = insertion_sort key (map f l).
Proof.
  unfold insertion_sort. rewrite map_rev. f_equal.
  change (@nil B) with (map f []).
  generalize (@nil A). induction l as [|x l IH]; intros acc; simpl; [reflexivity|].
  rewrite IH. f_equal.
  induction acc as [|k acc IHacc]; simpl; [reflexivity|].
  destruct (String.ltb (key (f x)) (key (f k))); simpl; [rewrite IHacc|]; reflexivity.
Qed.

(** ** [argsort] *)

Lemma argsort_perm (v : list string) :
  Permutation (argsort v) (seq 0 (List.length v)).
Proof. apply insertion_sort_perm. Qed.

Lemma seq_sorted (n start : nat) : StronglySorted lt (seq start n).
Proof.
  revert start. induction n as [|n IH]; intros start; simpl; constructor.
  - apply IH.
  - apply Forall_forall. intros y Hy. apply in_seq in Hy. lia.
Qed.

Lemma argsort_chronological (v : list string) :
  StronglySorted (chronological v) (argsort v).
Proof.
  unfold argsort, chronological. apply insertion_sort_stable, seq_sorted.
Qed.

Lemma argsort_in_range (v : list string) :
  Forall (fun i => (i < List.length v)%nat) (argsort v).
Proof.
  apply Forall_forall. intros i Hi.
  apply (Permutation_in _ (argsort_perm v)) in Hi. apply in_seq in Hi. lia.
Qed.

Lemma argsort_length (v : list string) :
  List.length (argsort v) = List.length v.
Proof.
  rewrite (Permutation_length (argsort_perm v)). apply length_seq.
Qed.

Lemma map_nth_seq {B : Type} (l : list B) (d : B) :
  map (fun i => nth i l d) (seq 0 (List.length l)) = l.
Proof.
  induction l as [|b l IH]; simpl; [reflexivity|].
  f_equal. rewrite <- seq_shift, map_map. exact IH.
Qed.

(** Sorting positions by timestamp and reading the scores through them is
    sorting the (timestamp, score) pairs by timestamp. *)
Lemma argsort_pairs {B : Type} (v : list string) (ds : list B) (d : B) :
  List.length v = List.length ds ->
  map (fun i => nth i ds d) (argsort v) =
  map snd (insertion_sort (fun p => np_item (fst p)) (combine v ds)).
Proof.
  intros Hlen. unfold argsort.
  set (P := combine v ds).
  set (f := fun i => nth i P ("", d)).
  set (key := fun p : string * B => np_item (fst p)).
  assert (HP : List.length P = List.length v).
  { unfold P. rewrite length_combine, <- Hlen. apply Nat.min_id. }
  assert (E : insertion_sort key P =
              map f (insertion_sort (fun i => key (f i)) (seq 0 (List.length v)))).
  { rewrite insertion_sort_map, <- HP. unfold f.
    rewrite map_nth_seq. reflexivity. }
  rewrite E, map_map.
  rewrite (insertion_sort_ext (fun i => np_item (nth i v "")) (fun i => key (f i))).
  2:{ intros i. unfold key, f, P. rewrite combine_nth by exact Hlen. reflexivity. }
  apply map_ext. intros i. unfold f, P.
  rewrite combine_nth by exact Hlen. reflexivity.
Qed.

End SortFacts.

(** * Status rule, rounding and the change formula *)

Module NumericFacts.

Import Tracker Vocabulary.
Local Open Scope Q_scope.

Lemma status_of_improved x : status_of x = Improved <-> 0 < x.
Proof.
  unfold status_of. rewrite Qlt_alt.
  destruct (Qcompare 0 x); [| tauto |];
    (split; [|discriminate]); destruct (Qcompare x (-5)); discriminate.
Qed.

Lemma status_of_worsened x : status_of x = Worsened <-> x < -5.
Proof.
  unfold status_of.
  destruct (Qcompare_spec 0 x) as [H0 | H0 | H0];
    destruct (Qcompare_spec x (-5)) as [H5 | H5 | H5];
    split; intros H;
    first [discriminate H | reflexivity | lra | exfalso; lra].
Qed.

Lemma status_of_stable x : status_of x = Stable <-> -5 <= x <= 0.
Proof.
  unfold status_of.
  destruct (Qcompare_spec 0 x) as [H0 | H0 | H0];
    destruct (Qcompare_spec x (-5)) as [H5 | H5 | H5];
    split; intros H;
    first [discriminate H | reflexivity | lra | exfalso; lra].
Qed.

Lemma status_of_rule x : three_way_rule x (status_of x).
Proof.
  repeat split;
    first [apply status_of_improved | apply status_of_worsened
          | apply status_of_stable]; assumption.
Qed.

Lemma rint_near (x : Q) :
  - (1 # 2) <= inject_Z (rint x) - x <= 1 # 2.
Proof.
  unfold rint.
  pose proof (Qfloor_le x) as Hlo.
  pose proof (Qlt_floor x) as Hhi.
  rewrite inject_Z_plus in Hhi. change (inject_Z 1) with 1 in Hhi.
  destruct (Qcompare_spec (x - inject_Z (Qfloor x)) (1 # 2)) as [H | H | H].
  - destruct (Z.even (Qfloor x)).
    + lra.
    + rewrite inject_Z_plus. change (inject_Z 1) with 1. lra.
  - lra.
  - rewrite inject_Z_plus. change (inject_Z 1) with 1. lra.
Qed.

Lemma round1_rounded (x : Q) : rounded_to_tenths x (round1 x).
Proof.
  unfold rounded_to_tenths, round1. split.
  - exists (rint (x * 10)). reflexivity.
  - pose proof (rint_near (x * 10)) as H.
    set (n := inject_Z (rint (x * 10))) in *.
    assert (E : n / 10 == n * (1 # 10)) by (field).
    rewrite E. lra.
Qed.

Lemma round1_zero : round1 0 == 0.
Proof. reflexivity. Qed.

Lemma percentage_change_zero_baseline b s :
  b == 0 -> percentage_change b s = 0.
Proof.
  intros H. unfold percentage_change. rewrite (Qeq_eq_bool _ _ H). reflexivity.
Qed.

Lemma percentage_change_formula b s :
  ~ b == 0 -> percentage_change b s == 100 * (s - b) / b.
Proof.
  intros H. unfold percentage_change.
  destruct (Qeq_bool b 0) eqn:E.
  - exfalso. apply H. apply Qeq_bool_eq. exact E.
  - field. exact H.
Qed.

Lemma rint_comp x y : x == y -> rint x = rint y.
Proof.
  intros E. unfold rint. rewrite (Qfloor_comp _ _ E).
  assert (E' : x - inject_Z (Qfloor y) == y - inject_Z (Qfloor y))
    by (rewrite E; reflexivity).
  rewrite (Qcompare_comp _ _ E' (1 # 2) (1 # 2) (Qeq_refl _)). reflexivity.
Qed.

Lemma round1_comp x y : x == y -> round1 x = round1 y.
Proof.
  intros E. unfold round1. rewrite (rint_comp (x * 10) (y * 10)); [reflexivity|].
  rewrite E. reflexivity.
Qed.

Lemma status_of_comp x y : x == y -> status_of x = status_of y.
Proof.
  intros E. unfold status_of.
  rewrite (Qcompare_comp 0 0 (Qeq_refl _) _ _ E).
  rewrite (Qcompare_comp _ _ E (-5) (-5) (Qeq_refl _)). reflexivity.
Qed.

Lemma percentage_change_comp b b' s s' :
  b == b' -> s == s' -> percentage_change b s == percentage_change b' s'.
Proof.
  intros Eb Es. unfold percentage_change.
  rewrite (Qeqb_comp _ _ Eb 0 0 (Qeq_refl _)).
  destruct (Qeq_bool b' 0) eqn:E; [reflexivity|].
  rewrite Eb, Es. reflexivity.
Qed.

Lemma trend_entry_comp b b' i s s' :
  b == b' -> s == s' -> trend_entry b i s = trend_entry b' i s'.
Proof.
  intros Eb Es. unfold trend_entry.
  pose proof (percentage_change_comp _ _ _ _ Eb Es) as E.
  rewrite (round1_comp _ _ E), (status_of_comp _ _ E). reflexivity.
Qed.

Lemma summary_comp b b' s2 s2' s3 s3' s4 s4' :
  b == b' -> s2 == s2' -> s3 == s3' -> s4 == s4' ->
  summary b s2 s3 s4 = summary b' s2' s3' s4'.
Proof.
  intros Eb E2 E3 E4. unfold summary.
  rewrite (trend_entry_comp b b' 1 s2 s2' Eb E2).
  rewrite (trend_entry_comp b b' 2 s3 s3' Eb E3).
  rewrite (trend_entry_comp b b' 3 s4 s4' Eb E4).
  reflexivity.
Qed.

Lemma rounded_to_tenths_comp x y r :
  x == y -> rounded_to_tenths x r -> rounded_to_tenths y r.
Proof.
  intros E [Hn Hb]. split; [exact Hn|]. lra.
Qed.

Lemma sorted_weaken {A : Type} (R R' : A -> A -> Prop) (l : list A) :
  (forall a b, R a b -> R' a b) -> StronglySorted R l -> StronglySorted R' l.
Proof.
  intros HR. induction 1 as [|a l Hs IH Ha]; constructor; [exact IH|].
  rewrite Forall_forall in *. auto.
Qed.

End NumericFacts.

(** * Running [analyze_hair_density] *)

Module TrackerFacts.

Import Tracker Vocabulary StrOrder SortFacts NumericFacts.
Local Open Scope Q_scope.

Lemma for_each_getitem {B : Type} (l : list B) (d : B) (idx : list nat) :
  Forall (fun i => (i < List.length l)%nat) idx ->
  for_each (getitem l) idx = Return (map (fun i => nth i l d) idx).
Proof.
  induction 1 as [|i idx Hi _ IH]; simpl; [reflexivity|].
  unfold getitem at 1. rewrite (nth_error_nth' l d Hi). simpl.
  rewrite IH. reflexivity.
Qed.

Lemma for_each_length {B C : Type} (f : B -> exc C) (l : list B) (bs : list C) :
  for_each f l = Return bs -> List.length bs = List.length l.
Proof.
  revert bs. induction l as [|a l IH]; simpl; intros bs H.
  - injection H as <-. reflexivity.
  - destruct (f a); simpl in H; [discriminate|].
    destruct (for_each f l); simpl in H; [discriminate|].
    injection H as <-. simpl. f_equal. apply IH. reflexivity.
Qed.

Lemma for_each_pointwise {B C : Type} (f : B -> exc C) (l : list B) (bs : list C) :
  for_each f l = Return bs -> Forall2 (fun a b => f a = Return b) l bs.
Proof.
  revert bs. induction l as [|a l IH]; simpl; intros bs H.
  - injection H as <-. constructor.
  - destruct (f a) eqn:E; simpl in H; [discriminate|].
    destruct (for_each f l); simpl in H; [discriminate|].
    injection H as <-. constructor; [exact E | apply IH; reflexivity].
Qed.

Lemma for_each_total {B C : Type} (f : B -> exc C) (g : B -> C) (l : list B) :
  (forall a, In a l -> f a = Return (g a)) ->
  for_each f l = Return (map g l).
Proof.
  induction l as [|a l IH]; intros H; simpl; [reflexivity|].
  rewrite (H a (or_introl eq_refl)). simpl.
  rewrite IH; [reflexivity|]. intros b Hb. apply H. right. exact Hb.
Qed.

Lemma for_each_raises {B C : Type} (f : B -> exc C) (l : list B) :
  (exists a e, In a l /\ f a = Raise e) ->
  exists pre a rest e done,
    l = pre ++ a :: rest /\ for_each f pre = Return done /\ f a = Raise e.
Proof.
  induction l as [|a l IH]; intros (x & e & Hin & Hx); [destruct Hin|].
  destruct (f a) as [ea | b] eqn:E.
  - exists [], a, l, ea, []. repeat split; assumption.
  - destruct Hin as [-> | Hin]; [congruence|].
    destruct IH as (pre & y & rest & e' & done & -> & Hpre & Hy).
    { exists x, e. split; assumption. }
    exists (a :: pre), y, rest, e', (b :: done).
    repeat split; [|exact Hy]. simpl. rewrite E, Hpre. reflexivity.
Qed.

(** Four densities in time order give the closed form. *)
Lemma compare_densities_closed (ds : list Q) (us ts : list string) :
  List.length ds = 4%nat -> List.length us = 4%nat -> List.length ts = 4%nat ->
  exists b s2 s3 s4,
    map (fun i => nth i ds 0) (argsort ts) = [b; s2; s3; s4] /\
    compare_densities ds us ts = Return (summary b s2 s3 s4).
Proof.
  intros Hds Hus Hts.
  pose proof (argsort_in_range ts) as Hr.
  pose proof (argsort_length ts) as Hl. rewrite Hts in Hl.
  unfold compare_densities.
  rewrite (for_each_getitem ds 0) by (rewrite Hds, <- Hts; exact Hr).
  rewrite (for_each_getitem us "") by (rewrite Hus, <- Hts; exact Hr).
  destruct (argsort ts) as [|i0 [|i1 [|i2 [|i3 [|? ?]]]]]; try discriminate Hl.
  simpl map.
  exists (nth i0 ds 0), (nth i1 ds 0), (nth i2 ds 0), (nth i3 ds 0).
  split; reflexivity.
Qed.

Section World.

Variable Bytes : Type.
Variable ColorMat : Type.
Variable urlopen : string -> exc Bytes.
Variable imdecode : Bytes -> option ColorMat.
Variable cvtColor_BGR2GRAY : ColorMat -> Mat.

Local Abbreviation image_density :=
  (image_density Bytes ColorMat urlopen imdecode cvtColor_BGR2GRAY).
Local Abbreviation measure_images :=
  (measure_images Bytes ColorMat urlopen imdecode cvtColor_BGR2GRAY).
Local Abbreviation analyze_hair_density :=
  (analyze_hair_density Bytes ColorMat urlopen imdecode cvtColor_BGR2GRAY).

Lemma image_density_undecodable url img_data :
  urlopen url = Return img_data -> imdecode img_data = None ->
  image_density url = Raise ("Failed to decode image from " ++ url)%string.
Proof.
  intros Ho Hd. unfold Tracker.image_density. rewrite Ho. simpl.
  rewrite Hd. reflexivity.
Qed.

Lemma measure_images_ok urls ds acc accu :
  for_each image_density urls = Return ds ->
  measure_images urls acc accu = inr (acc ++ ds, accu ++ urls).
Proof.
  revert ds acc accu. induction urls as [|u urls IH]; simpl; intros ds acc accu H.
  - injection H as <-. rewrite !app_nil_r. reflexivity.
  - destruct (image_density u) as [e | d]; simpl in H; [discriminate|].
    destruct (for_each image_density urls) as [e | ds']; simpl in H; [discriminate|].
    injection H as <-. rewrite (IH ds') by reflexivity.
    rewrite <- !app_assoc. reflexivity.
Qed.

Lemma measure_images_stops pre url rest e done acc accu :
  for_each image_density pre = Return done ->
  image_density url = Raise e ->
  measure_images (pre ++ url :: rest) acc accu =
    inl ("Failed to process image " ++ url ++ ": " ++ e)%string.
Proof.
  revert done acc accu. induction pre as [|u pre IH]; simpl; intros done acc accu H He.
  - rewrite He. reflexivity.
  - destruct (image_density u) as [e' | d]; simpl in H; [discriminate|].
    destruct (for_each image_density pre) as [e' | ds']; simpl in H; [discriminate|].
    apply (IH ds'); [reflexivity | exact He].
Qed.

Lemma measure_images_inr urls acc accu ds us :
  measure_images urls acc accu = inr (ds, us) ->
  exists ds', for_each image_density urls = Return ds' /\
              ds = acc ++ ds' /\ us = accu ++ urls.
Proof.
  revert acc accu. induction urls as [|u urls IH]; simpl; intros acc accu H.
  - injection H as <- <-. exists []. rewrite !app_nil_r. auto.
  - destruct (image_density u) as [e | d]; [discriminate|].
    destruct (IH _ _ H) as (ds' & Hf & -> & ->).
    exists (d :: ds'). simpl. rewrite Hf. simpl.
    rewrite <- !app_assoc. auto.
Qed.

(** When the call succeeds and what it then returns. *)
Lemma analyze_success_iff urls ts r :
  analyze_hair_density urls ts = Success r <->
  List.length urls = 4%nat /\ List.length ts = 4%nat /\
  exists ds b s2 s3 s4,
    for_each image_density urls = Return ds /\
    map (fun i => nth i ds 0) (argsort ts) = [b; s2; s3; s4] /\
    r = summary b s2 s3 s4.
Proof.
  unfold Tracker.analyze_hair_density. split.
  - destruct (Nat.eqb_spec (List.length urls) 4) as [Hu|]; [|discriminate].
    destruct (Nat.eqb_spec (List.length ts) 4) as [Ht|]; [|discriminate].
    simpl.
    destruct (measure_images urls [] []) as [msg | [ds us]] eqn:Hm; [discriminate|].
    apply measure_images_inr in Hm. destruct Hm as (ds' & Hf & -> & ->).
    simpl. pose proof (for_each_length _ _ _ Hf) as Hl. rewrite Hu in Hl.
    rewrite Hl. simpl.
    destruct (compare_densities_closed ds' urls ts Hl Hu Ht)
      as (b & s2 & s3 & s4 & Hs & ->).
    intros [= <-]. repeat split; auto.
    exists ds', b, s2, s3, s4. auto.
  - intros (Hu & Ht & ds & b & s2 & s3 & s4 & Hf & Hs & ->).
    rewrite Hu, Ht. simpl.
    rewrite (measure_images_ok urls ds [] []) by exact Hf. simpl.
    pose proof (for_each_length _ _ _ Hf) as Hl. rewrite Hu in Hl.
    rewrite Hl. simpl.
    destruct (compare_densities_closed ds urls ts Hl Hu Ht)
      as (b' & s2' & s3' & s4' & Hs' & ->).
    rewrite Hs in Hs'. injection Hs' as <- <- <- <-. reflexivity.
Qed.

End World.

End TrackerFacts.

(** * Running [analyze_hair_density] on doubles *)

Module Binary64Run.

Import Tracker Vocabulary StrOrder SortFacts TrackerFacts.
Import Binary64.
Local Open Scope float_scope.

(** The three-way rule holds of [status_of] at every double. *)
Lemma below_minus_five_not_positive (x : float) :
  PrimFloat.ltb x (-5) = true -> PrimFloat.ltb 0 x = false.
Proof.
  rewrite !FloatAxioms.ltb_spec.
  change (Prim2SF 0) with (S754_zero false).
  replace (Prim2SF (-5)) with (S754_finite true 5629499534213120 (-50))
    by (vm_compute; reflexivity).
  destruct (Prim2SF x) as [s | s | | s m e]; try destruct s;
    simpl; intros H; try reflexivity; try discriminate H.
Qed.

Lemma status_of_rule64 (x : float) : three_way_rule x (status_of x).
Proof.
  unfold three_way_rule, status_of.
  destruct (PrimFloat.ltb 0 x) eqn:Hpos.
  - destruct (PrimFloat.ltb x (-5)) eqn:Hneg.
    + apply below_minus_five_not_positive in Hneg. congruence.
    + repeat split; intros; try reflexivity; try discriminate.
      destruct H; discriminate.
  - destruct (PrimFloat.ltb x (-5)) eqn:Hneg;
      repeat split; intros; try reflexivity; try discriminate.
    destruct H; discriminate.
Qed.

Lemma percentage_change_zero_baseline64 (b s : float) :
  PrimFloat.eqb b 0 = true -> percentage_change b s = 0.
Proof. intros H. unfold percentage_change. rewrite H. reflexivity. Qed.

Lemma percentage_change_formula64 (b s : float) :
  PrimFloat.eqb b 0 = false -> percentage_change b s = ((s - b) / b) * 100.
Proof. intros H. unfold percentage_change. rewrite H. reflexivity. Qed.

(** Four densities in time order give the closed form. *)
Lemma compare_densities_closed64 (ds : list float) (us ts : list string) :
  List.length ds = 4%nat -> List.length us = 4%nat -> List.length ts = 4%nat ->
  exists b s2 s3 s4,
    map (fun i => nth i ds 0) (argsort ts) = [b; s2; s3; s4] /\
    compare_densities ds us ts = Return (summary b s2 s3 s4).
Proof.
  intros Hds Hus Hts.
  pose proof (argsort_in_range ts) as Hr.
  pose proof (argsort_length ts) as Hl. rewrite Hts in Hl.
  unfold compare_densities.
  rewrite (for_each_getitem ds 0) by (rewrite Hds, <- Hts; exact Hr).
  rewrite (for_each_getitem us "") by (rewrite Hus, <- Hts; exact Hr).
  destruct (argsort ts) as [|i0 [|i1 [|i2 [|i3 [|? ?]]]]]; try discriminate Hl.
  simpl map.
  exists (nth i0 ds 0), (nth i1 ds 0), (nth i2 ds 0), (nth i3 ds 0).
  split; reflexivity.
Qed.

Section World.

Variable Bytes : Type.
Variable ColorMat : Type.
Variable urlopen : string -> exc Bytes.
Variable imdecode : Bytes -> exc (option ColorMat).
Variable cvtColor_BGR2GRAY : ColorMat -> Mat.

Local Abbreviation image_density :=
  (Binary64.image_density Bytes ColorMat urlopen imdecode cvtColor_BGR2GRAY).
Local Abbreviation measure_images :=
  (Binary64.measure_images Bytes ColorMat urlopen imdecode cvtColor_BGR2GRAY).
Local Abbreviation analyze_hair_density :=
  (Binary64.analyze_hair_density Bytes ColorMat urlopen imdecode
                                 cvtColor_BGR2GRAY).

Lemma measure_images_ok64 urls ds acc accu :
  for_each image_density urls = Return ds ->
  measure_images urls acc accu = inr (acc ++ ds, accu ++ urls).
Proof.
  revert ds acc accu. induction urls as [|u urls IH]; simpl; intros ds acc accu H.
  - injection H as <-. rewrite !app_nil_r. reflexivity.
  - destruct (image_density u) as [e | d]; simpl in H; [discriminate|].
    destruct (for_each image_density urls) as [e | ds']; simpl in H; [discriminate|].
    injection H as <-. rewrite (IH ds') by reflexivity.
    rewrite <- !app_assoc. reflexivity.
Qed.

Lemma measure_images_inr64 urls acc accu ds us :
  measure_images urls acc accu = inr (ds, us) ->
  exists ds', for_each image_density urls = Return ds' /\
              ds = acc ++ ds' /\ us = accu ++ urls.
Proof.
  revert acc accu. induction urls as [|u urls IH]; simpl; intros acc accu H.
  - injection H as <- <-. exists []. rewrite !app_nil_r. auto.
  - destruct (image_density u) as [e | d]; [discriminate|].
    destruct (IH _ _ H) as (ds' & Hf & -> & ->).
    exists (d :: ds'). simpl. rewrite Hf. simpl.
    rewrite <- !app_assoc. auto.
Qed.

(** When the call succeeds and what it then returns. *)
Lemma analyze_success_iff64 urls ts r :
  analyze_hair_density urls ts = Success r <->
  List.length urls = 4%nat /\ List.length ts = 4%nat /\
  exists ds b s2 s3 s4,
    for_each image_density urls = Return ds /\
    map (fun i => nth i ds 0) (argsort ts) = [b; s2; s3; s4] /\
    r = summary b s2 s3 s4.
Proof.
  unfold Binary64.analyze_hair_density. split.
  - destruct (Nat.eqb_spec (List.length urls) 4) as [Hu|]; [|discriminate].
    destruct (Nat.eqb_spec (List.length ts) 4) as [Ht|]; [|discriminate].
    simpl.
    destruct (measure_images urls [] []) as [msg | [ds us]] eqn:Hm; [discriminate|].
    apply measure_images_inr64 in Hm. destruct Hm as (ds' & Hf & -> & ->).
    simpl. pose proof (for_each_length _ _ _ Hf) as Hl. rewrite Hu in Hl.
    rewrite Hl. simpl.
    destruct (compare_densities_closed64 ds' urls ts Hl Hu Ht)
      as (b & s2 & s3 & s4 & Hs & ->).
    intros [= <-]. repeat split; auto.
    exists ds', b, s2, s3, s4. auto.
  - intros (Hu & Ht & ds & b & s2 & s3 & s4 & Hf & Hs & ->).
    rewrite Hu, Ht. simpl.
    rewrite (measure_images_ok64 urls ds [] []) by exact Hf. simpl.
    pose proof (for_each_length _ _ _ Hf) as Hl. rewrite Hu in Hl.
    rewrite Hl. simpl.
    destruct (compare_densities_closed64 ds urls ts Hl Hu Ht)
      as (b' & s2' & s3' & s4' & Hs' & ->).
    rewrite Hs in Hs'. injection Hs' as <- <- <- <-. reflexivity.
Qed.

End World.

End Binary64Run.

(** * Properties of the tracker, on exact arithmetic *)

Module TrackerSpec.

Import Tracker Vocabulary StrOrder SortFacts NumericFacts TrackerFacts.
Local Open Scope Q_scope.

Section World.

Variable Bytes : Type.
Variable ColorMat : Type.
Variable urlopen : string -> exc Bytes.
Variable imdecode : Bytes -> option ColorMat.
Variable cvtColor_BGR2GRAY : ColorMat -> Mat.

Local Abbreviation image_density :=
  (image_density Bytes ColorMat urlopen imdecode cvtColor_BGR2GRAY).
Local Abbreviation analyze_hair_density :=
  (analyze_hair_density Bytes ColorMat urlopen imdecode cvtColor_BGR2GRAY).

(** C4.  When the earliest sample has density 0, each of the three
    reported changes is 0, each entry is Stable and the overall status is
    Stable. *)
Theorem zero_baseline_all_stable :
  forall urls ts r ds,
    analyze_hair_density urls ts = Success r ->
    for_each image_density urls = Return ds ->
    nth (hd 0%nat (argsort ts)) ds 0 == 0 ->
    List.length (results r) = 3%nat /\
    Forall (fun p => percentageChange p == 0 /\ status p = Stable) (results r) /\
    overall_status r = Stable.
Proof.
  intros urls ts r ds H Hds Hb.
  apply analyze_success_iff in H.
  destruct H as (Hu & Ht & ds' & b & s2 & s3 & s4 & Hf & Hs & ->).
  rewrite Hds in Hf. injection Hf as <-.
  destruct (argsort ts) as [|i0 rest]; [discriminate Hs|].
  simpl in Hs, Hb. injection Hs as Hb0 _. rewrite Hb0 in Hb.
  unfold summary, trend_entry.
  rewrite !(percentage_change_zero_baseline b _ Hb).
  split; [reflexivity|]. split; [|reflexivity].
  repeat constructor; reflexivity.
Qed.

(** C7.  If one of the four images cannot be decoded, the call returns the
    image-processing error naming the first image that could not be
    processed, and so returns no tracking result at all. *)
Theorem undecodable_image_is_fatal :
  forall urls ts url img_data,
    List.length urls = 4%nat -> List.length ts = 4%nat ->
    In url urls -> urlopen url = Return img_data -> imdecode img_data = None ->
    (exists pre bad rest e done,
       urls = pre ++ bad :: rest /\
       for_each image_density pre = Return done /\
       image_density bad = Raise e /\
       analyze_hair_density urls ts =
         Error ("Failed to process image " ++ bad ++ ": " ++ e)%string) /\
    (forall r, analyze_hair_density urls ts <> Success r).
Proof.
  intros urls ts url img_data Hu Ht Hin Ho Hd.
  assert (H : exists pre bad rest e done,
             urls = pre ++ bad :: rest /\
             for_each image_density pre = Return done /\
             image_density bad = Raise e /\
             analyze_hair_density urls ts =
               Error ("Failed to process image " ++ bad ++ ": " ++ e)%string).
  { destruct (for_each_raises image_density urls)
      as (pre & bad & rest & e & done & Hsplit & Hpre & Hbad).
    { exists url. eexists. split; [exact Hin|].
      exact (image_density_undecodable _ _ _ _ _ url img_data Ho Hd). }
    exists pre, bad, rest, e, done. repeat split; auto.
    unfold Tracker.analyze_hair_density. rewrite Hu, Ht. simpl.
    rewrite Hsplit.
    rewrite (measure_images_stops _ _ _ _ _ pre bad rest e done [] [] Hpre Hbad).
    reflexivity. }
  split; [exact H|].
  destruct H as (pre & bad & rest & e & done & _ & _ & _ & ->).
  intros r. discriminate.
Qed.

End World.


(** ** The theorems at concrete inputs *)

Local Abbreviation demo_density :=
  (image_density string Mat Demo.urlopen Demo.imdecode Demo.cvtColor_BGR2GRAY).

Lemma zero_baseline_all_stable_witness :
  let urls := ["https://cdn.test/bare.png"; "https://cdn.test/w2.png";
               "https://cdn.test/w3.png"; "https://cdn.test/w4.png"] in
  exists r,
    Demo.analyze urls Demo.week_stamps = Success r /\
    List.length (results r) = 3%nat /\
    Forall (fun p => percentageChange p == 0 /\ status p = Stable) (results r) /\
    overall_status r = Stable.
Proof.
  cbv zeta. eexists.
  assert (H : Demo.analyze
                ["https://cdn.test/bare.png"; "https://cdn.test/w2.png";
                 "https://cdn.test/w3.png"; "https://cdn.test/w4.png"]
                Demo.week_stamps = Success _)
    by (vm_compute; reflexivity).
  split; [exact H|].
  eapply (zero_baseline_all_stable string Mat Demo.urlopen Demo.imdecode
            Demo.cvtColor_BGR2GRAY _ _ _ _ H).
  - vm_compute. reflexivity.
  - vm_compute. reflexivity.
Defined.

Lemma undecodable_image_is_fatal_witness :
  let urls := ["https://cdn.test/w1.png"; "https://cdn.test/w2.png";
               "https://cdn.test/notes.txt"; "https://cdn.test/w4.png"] in
  Demo.analyze urls Demo.week_stamps =
    Error "Failed to process image https://cdn.test/notes.txt: Failed to decode image from https://cdn.test/notes.txt" /\
  forall r, Demo.analyze urls Demo.week_stamps <> Success r.
Proof.
  cbv zeta.
  destruct (undecodable_image_is_fatal string Mat Demo.urlopen Demo.imdecode
              Demo.cvtColor_BGR2GRAY
              ["https://cdn.test/w1.png"; "https://cdn.test/w2.png";
               "https://cdn.test/notes.txt"; "https://cdn.test/w4.png"]
              Demo.week_stamps "https://cdn.test/notes.txt" "notes")
    as [_ Hno].
  - reflexivity.
  - reflexivity.
  - right; right; left; reflexivity.
  - reflexivity.
  - reflexivity.
  - split; [vm_compute; reflexivity | exact Hno].
Defined.


End TrackerSpec.

(** * Properties of the tracker, on doubles *)

Module Binary64Spec.

Import Tracker Vocabulary StrOrder SortFacts NumericFacts TrackerFacts.
Import Binary64 Binary64Run.
Local Open Scope float_scope.

Lemma nth_np_item (ts : list string) (i : nat) :
  Forall (fun t => np_item t = t) ts -> np_item (nth i ts "") = nth i ts "".
Proof.
  intros H. revert i. induction H as [|t ts Ht _ IH]; intros [|i]; simpl; auto.
Qed.

Lemma combine_scores (g : string -> float) (samples : list (string * string)) :
  combine (map snd samples) (map g (map fst samples)) =
  map (fun p => (snd p, g (fst p))) samples.
Proof.
  induction samples as [|p l IH]; simpl; [reflexivity|]. rewrite IH. reflexivity.
Qed.

Lemma pointwise_in {B C : Type} (P : B -> C -> Prop) (l : list B) (l' : list C) :
  Forall2 P l l' -> forall a, In a l -> exists b, P a b.
Proof.
  induction 1 as [|a b l l' Hab _ IH]; intros x Hx; [destruct Hx|].
  destruct Hx as [<- | Hx]; [exists b; exact Hab | apply IH, Hx].
Qed.

Section World.

Variable Bytes : Type.
Variable ColorMat : Type.
Variable urlopen : string -> exc Bytes.
Variable imdecode : Bytes -> exc (option ColorMat).
Variable cvtColor_BGR2GRAY : ColorMat -> Mat.

Local Abbreviation image_density :=
  (Binary64.image_density Bytes ColorMat urlopen imdecode cvtColor_BGR2GRAY).
Local Abbreviation analyze_hair_density :=
  (Binary64.analyze_hair_density Bytes ColorMat urlopen imdecode
                                 cvtColor_BGR2GRAY).


(** C3 (as the code has it).  The three-way rule: a double is Improved
    exactly when it is above 0, Worsened exactly when it is below -5 and
    Stable otherwise, so -5.0 and 0.0 themselves are Stable.  Each trend
    entry's status is this rule at the period's change before rounding,
    while the entry reports the rounded change; the overall status is the
    rule at the binary64 mean of the three reported changes. *)
Theorem status_rule_before_rounding :
  (forall x, three_way_rule x (status_of x)) /\
  status_of (-5) = Stable /\
  status_of 0 = Stable /\
  forall urls ts r,
    analyze_hair_density urls ts = Success r ->
    exists ds b s2 s3 s4,
      for_each image_density urls = Return ds /\
      map (fun i => nth i ds 0) (argsort ts) = [b; s2; s3; s4] /\
      map status (results r) =
        map (fun s => status_of (percentage_change b s)) [s2; s3; s4] /\
      map percentageChange (results r) =
        map (fun s => round1 (percentage_change b s)) [s2; s3; s4] /\
      overall_status r = status_of (mean (map percentageChange (results r))).
Proof.
  split; [exact status_of_rule64|].
  split; [vm_compute; reflexivity|]. split; [vm_compute; reflexivity|].
  intros urls ts r H.
  apply analyze_success_iff64 in H.
  destruct H as (Hu & Ht & ds & b & s2 & s3 & s4 & Hf & Hs & ->).
  exists ds, b, s2, s3, s4. repeat split; auto.
Qed.

(** C5 (as the code has it).  With a nonzero baseline [b], the change
    reported for each later sample [s] is the double [((s - b) / b) * 100],
    computed in that order, rounded to one decimal place by
    [rint(x * 10) / 10].  For densities 10, 12, 9, 20 in time order the
    reported changes are 20, -10 and 100 with statuses Improved, Worsened,
    Improved, their mean is the double nearest 110/3 and the overall
    status is Improved. *)
Theorem change_as_computed :
  forall urls ts r ds b s2 s3 s4,
    analyze_hair_density urls ts = Success r ->
    for_each image_density urls = Return ds ->
    map (fun i => nth i ds 0) (argsort ts) = [b; s2; s3; s4] ->
    PrimFloat.eqb b 0 = false ->
    map percentageChange (results r) =
      [round1 (((s2 - b) / b) * 100); round1 (((s3 - b) / b) * 100);
       round1 (((s4 - b) / b) * 100)] /\
    (b = 10 -> s2 = 12 -> s3 = 9 -> s4 = 20 ->
     map percentageChange (results r) = [20; -10; 100] /\
     map status (results r) = [Improved; Worsened; Improved] /\
     mean (map percentageChange (results r)) = 110 / 3 /\
     overall_status r = Improved).
Proof.
  intros urls ts r ds b s2 s3 s4 H Hds Hs Hb.
  apply analyze_success_iff64 in H.
  destruct H as (Hu & Ht & ds' & b' & s2' & s3' & s4' & Hf & Hs' & ->).
  rewrite Hds in Hf. injection Hf as <-.
  rewrite Hs in Hs'. injection Hs' as <- <- <- <-.
  split.
  - unfold summary, trend_entry. simpl.
    rewrite !(percentage_change_formula64 b _ Hb). reflexivity.
  - intros -> -> -> ->. repeat split; vm_compute; reflexivity.
Qed.

Lemma permuted_success (samples samples' : list (string * string)) r :
  Permutation samples samples' ->
  NoDup (map (fun p => np_item (snd p)) samples) ->
  analyze_hair_density (map fst samples) (map snd samples) = Success r ->
  analyze_hair_density (map fst samples') (map snd samples') = Success r.
Proof.
  intros HP Hnd H.
  apply analyze_success_iff64 in H.
  destruct H as (Hu & Ht & ds & b & s2 & s3 & s4 & Hf & Hs & ->).
  apply analyze_success_iff64.
  rewrite !length_map in *. rewrite <- (Permutation_length HP).
  split; [exact Hu|]. split; [exact Hu|].
  pose (g := fun u => match image_density u with
                      | Return d => d
                      | Raise _ => 0
                      end).
  assert (Hg : forall u, In u (map fst samples) -> image_density u = Return (g u)).
  { intros u Hin.
    destruct (pointwise_in _ _ _ (for_each_pointwise _ _ _ Hf) u Hin) as [d Hd].
    unfold g. rewrite Hd. reflexivity. }
  assert (Hds : ds = map g (map fst samples)).
  { rewrite (for_each_total _ g _ Hg) in Hf. injection Hf as <-. reflexivity. }
  assert (Hf' : for_each image_density (map fst samples') =
                Return (map g (map fst samples'))).
  { apply for_each_total. intros u Hin. apply Hg.
    exact (Permutation_in _ (Permutation_map fst (Permutation_sym HP)) Hin). }
  exists (map g (map fst samples')), b, s2, s3, s4.
  split; [exact Hf'|]. split; [|reflexivity].
  rewrite <- Hs, Hds.
  rewrite !argsort_pairs by (rewrite !length_map; reflexivity).
  f_equal. rewrite !combine_scores.
  set (h := fun p : string * string => (snd p, g (fst p))).
  set (key := fun q : string * float => np_item (fst q)).
  assert (Hkeys : forall l, map key (map h l) =
                            map (fun p => np_item (snd p)) l).
  { intros l. rewrite map_map. reflexivity. }
  apply (ascending_unique key).
  - apply insertion_sort_ascending.
  - apply insertion_sort_ascending.
  - rewrite !insertion_sort_perm. apply Permutation_map, Permutation_sym, HP.
  - apply (Permutation_NoDup (l := map key (map h samples'))).
    + apply Permutation_map, Permutation_sym, insertion_sort_perm.
    + rewrite Hkeys.
      exact (Permutation_NoDup
               (Permutation_map (fun p => np_item (snd p)) HP) Hnd).
Qed.

(** C6 (as the code has it).  Four samples (image, timestamp) whose
    timestamps are pairwise distinct as the numpy array holds them, that
    is, still distinct once trailing NUL characters are dropped, give the
    same tracking result in whatever order they are supplied. *)
Theorem order_independent_numpy_distinct :
  forall (samples samples' : list (string * string)) r,
    List.length samples = 4%nat ->
    NoDup (map (fun p => np_item (snd p)) samples) ->
    Permutation samples samples' ->
    (analyze_hair_density (map fst samples) (map snd samples) = Success r <->
     analyze_hair_density (map fst samples') (map snd samples') = Success r).
Proof.
  intros samples samples' r _ Hnd HP. split.
  - apply permuted_success; assumption.
  - apply permuted_success; [apply Permutation_sym, HP|].
    exact (Permutation_NoDup
             (Permutation_map (fun p => np_item (snd p)) HP) Hnd).
Qed.

(** C9 (as the code has it).  Timestamps are never parsed or checked:
    whatever four timestamps are supplied, if the four images can be
    processed the call returns a tracking result. *)
Theorem timestamps_not_validated :
  forall urls ts ds,
    List.length urls = 4%nat -> List.length ts = 4%nat ->
    for_each image_density urls = Return ds ->
    exists r, analyze_hair_density urls ts = Success r.
Proof.
  intros urls ts ds Hu Ht Hf.
  pose proof (for_each_length _ _ _ Hf) as Hl. rewrite Hu in Hl.
  destruct (compare_densities_closed64 ds urls ts Hl Hu Ht)
    as (b & s2 & s3 & s4 & Hs & _).
  exists (summary b s2 s3 s4).
  apply analyze_success_iff64. repeat split; auto.
  exists ds, b, s2, s3, s4. auto.
Qed.

End World.

(** ** Where the statements of the specification fail *)

(** C3, as stated, fails on the reported values: with 2500, 2374 and 2501
    dark pixels of 5000 the first entry reports a change of exactly -5.0
    with status Worsened and the second a change of exactly 0.0 with
    status Improved.  It also fails at a change of exactly -5 percent:
    with 60 and then 57 dark pixels of 100 the entry is Worsened. *)
Lemma reported_boundary_values :
  let urls := ["https://cdn.test/fine1.png"; "https://cdn.test/fine0.png";
               "https://cdn.test/fine2.png"; "https://cdn.test/fine1.png"] in
  let urls' := ["https://cdn.test/d60.png"; "https://cdn.test/d57.png";
                "https://cdn.test/d60.png"; "https://cdn.test/d60.png"] in
  (exists r p q,
     Demo2.analyze urls Demo.week_stamps = Success r /\
     nth_error (results r) 0 = Some p /\
     percentageChange p = -5 /\ status p = Worsened /\
     ~ three_way_rule (percentageChange p) (status p) /\
     nth_error (results r) 1 = Some q /\
     percentageChange q = 0 /\ status q = Improved /\
     ~ three_way_rule (percentageChange q) (status q)) /\
  (exists r p,
     Demo2.analyze urls' Demo.week_stamps = Success r /\
     (100 * (57 - 60) / 60 == -5)%Q /\
     nth_error (results r) 0 = Some p /\
     percentageChange p = -5 /\ status p = Worsened).
Proof.
  cbv zeta. split.
  - eexists. eexists. eexists.
    split; [vm_compute; reflexivity|].
    split; [reflexivity|].
    split; [vm_compute; reflexivity|]. split; [reflexivity|].
    split.
    { intros (_ & [Hw _] & _). specialize (Hw eq_refl).
      vm_compute in Hw. discriminate Hw. }
    split; [reflexivity|].
    split; [vm_compute; reflexivity|]. split; [reflexivity|].
    intros ([Hi _] & _). specialize (Hi eq_refl).
    vm_compute in Hi. discriminate Hi.
  - eexists. eexists.
    split; [vm_compute; reflexivity|].
    split; [reflexivity|].
    split; [reflexivity|].
    split; [vm_compute; reflexivity | reflexivity].
Qed.

(** C5, as stated, fails: with 80 then 29 dark pixels of 100 the code
    reports -63.7, while [100 * (s - b) / b] rounded to one decimal place
    is -63.8, both when the formula is evaluated on doubles as it is
    written and when it is evaluated exactly on the two densities the code
    computed. *)
Lemma formula_differs_by_a_tenth :
  let urls := ["https://cdn.test/d80.png"; "https://cdn.test/d29.png";
               "https://cdn.test/d31.png"; "https://cdn.test/d80.png"] in
  let b := density_of (Demo.raster 80 100) in
  let s := density_of (Demo.raster 29 100) in
  exists r p,
    Demo2.analyze urls Demo.week_stamps = Success r /\
    for_each (Binary64.image_density string Mat Demo2.urlopen Demo2.imdecode
                Demo.cvtColor_BGR2GRAY) urls =
      Return [b; s; density_of (Demo.raster 31 100); b] /\
    argsort Demo.week_stamps = [0; 1; 2; 3]%nat /\
    PrimFloat.eqb b 0 = false /\
    nth_error (results r) 0 = Some p /\
    percentageChange p = -637 / 10 /\
    formula_as_written b s = -638 / 10 /\
    (Tracker.round1 (100 * (exact s - exact b) / exact b) == -638 / 10)%Q /\
    PrimFloat.eqb (-637 / 10) (-638 / 10) = false.
Proof.
  cbv zeta. eexists. eexists.
  split; [vm_compute; reflexivity|].
  split; [vm_compute; reflexivity|].
  split; [vm_compute; reflexivity|].
  split; [vm_compute; reflexivity|].
  split; [reflexivity|].
  split; [vm_compute; reflexivity|].
  split; [vm_compute; reflexivity|].
  split; vm_compute; reflexivity.
Qed.

(** C6, as stated, fails: the timestamps "t" followed by a NUL character
    and "t" are distinct strings, but the numpy array holds both as "t",
    so the two samples tie and keep the order in which they were
    supplied; swapping them changes the result. *)
Lemma tie_through_trailing_nul :
  let samples := [("https://cdn.test/w1.png", Demo2.padded "t");
                  ("https://cdn.test/w2.png", "t");
                  ("https://cdn.test/w3.png", "u");
                  ("https://cdn.test/w4.png", "v")] in
  let samples' := [("https://cdn.test/w2.png", "t");
                   ("https://cdn.test/w1.png", Demo2.padded "t");
                   ("https://cdn.test/w3.png", "u");
                   ("https://cdn.test/w4.png", "v")] in
  List.length samples = 4%nat /\
  NoDup (map snd samples) /\
  Permutation samples samples' /\
  exists r r',
    Demo2.analyze (map fst samples) (map snd samples) = Success r /\
    Demo2.analyze (map fst samples') (map snd samples') = Success r' /\
    map status (results r) = [Improved; Worsened; Improved] /\
    map status (results r') = [Worsened; Worsened; Improved] /\
    r <> r'.
Proof.
  cbv zeta. split; [reflexivity|].
  split.
  { repeat (constructor;
            [ simpl; intros H';
              repeat (destruct H' as [H' | H']; [discriminate H'|]); exact H' |]).
    constructor. }
  split; [apply perm_swap|].
  eexists. eexists.
  split; [vm_compute; reflexivity|].
  split; [vm_compute; reflexivity|].
  split; [reflexivity|]. split; [reflexivity|].
  intros E. apply (f_equal (fun x => map status (results x))) in E.
  discriminate E.
Qed.

(** C9, as stated, fails: a timestamp that is no instant at all is
    accepted and the call returns a tracking result, not an error. *)
Lemma unparsable_timestamp_accepted :
  let urls := ["https://cdn.test/w1.png"; "https://cdn.test/w2.png";
               "https://cdn.test/w3.png"; "https://cdn.test/w4.png"] in
  let ts := ["2024-01-01T09:00:00"; "yesterday";
             "2024-01-15T09:00:00"; "2024-01-22T09:00:00"] in
  In "yesterday" ts /\
  is_iso_instant "yesterday" = false /\
  (exists r, Demo.analyze urls ts = Tracker.Success r) /\
  ~ (exists msg, Demo.analyze urls ts = Tracker.Error msg) /\
  (exists r, Demo2.analyze urls ts = Success r) /\
  ~ (exists msg, Demo2.analyze urls ts = Error msg).
Proof.
  cbv zeta. split; [right; left; reflexivity|].
  split; [reflexivity|].
  split; [eexists; vm_compute; reflexivity|].
  split; [intros [msg H]; vm_compute in H; discriminate H|].
  split; [eexists; vm_compute; reflexivity|].
  intros [msg H]. vm_compute in H. discriminate H.
Qed.

(** An empty download makes [cv2.imdecode] raise; the call reports it as
    it reports an image that does not decode. *)
Example empty_download :
  Demo2.analyze ["https://cdn.test/w1.png"; "https://cdn.test/empty.png";
                 "https://cdn.test/w3.png"; "https://cdn.test/w4.png"]
                Demo.week_stamps =
  Error "Failed to process image https://cdn.test/empty.png: (-215:Assertion failed) !buf.empty()".
Proof. vm_compute. reflexivity. Qed.

(** The overall status follows the binary64 mean: reported changes of 0.1,
    0.2 and -0.3 have a mean just above 0, so the overall status is
    Improved. *)
Example mean_of_doubles :
  let urls := ["https://cdn.test/m0.png"; "https://cdn.test/m1.png";
               "https://cdn.test/m2.png"; "https://cdn.test/m3.png"] in
  exists r,
    Demo2.analyze urls Demo.week_stamps = Success r /\
    map percentageChange (results r) = [1 / 10; 2 / 10; -3 / 10] /\
    PrimFloat.ltb 0 (mean (map percentageChange (results r))) = true /\
    overall_status r = Improved.
Proof.
  cbv zeta. eexists.
  split; [vm_compute; reflexivity|].
  repeat split; vm_compute; reflexivity.
Qed.

(** ** The theorems at concrete inputs *)

Local Abbreviation demo_density :=
  (Binary64.image_density string Mat Demo2.urlopen Demo2.imdecode
                          Demo.cvtColor_BGR2GRAY).


Lemma status_rule_before_rounding_witness :
  three_way_rule (-5) Stable /\
  exists r ds b s2 s3 s4,
    Demo2.analyze Demo.week_urls Demo.week_stamps = Success r /\
    for_each demo_density Demo.week_urls = Return ds /\
    map (fun i => nth i ds 0) (argsort Demo.week_stamps) = [b; s2; s3; s4] /\
    map status (results r) =
      map (fun s => status_of (percentage_change b s)) [s2; s3; s4] /\
    map percentageChange (results r) =
      map (fun s => round1 (percentage_change b s)) [s2; s3; s4] /\
    overall_status r = status_of (mean (map percentageChange (results r))).
Proof.
  destruct (status_rule_before_rounding string Mat Demo2.urlopen Demo2.imdecode
              Demo.cvtColor_BGR2GRAY) as (Hrule & H5 & _ & Hrun).
  split; [rewrite <- H5; exact (Hrule (-5))|].
  eexists.
  assert (H : Demo2.analyze Demo.week_urls Demo.week_stamps = Success _)
    by (vm_compute; reflexivity).
  destruct (Hrun _ _ _ H) as (ds & b & s2 & s3 & s4 & H').
  exists ds, b, s2, s3, s4. split; [exact H | exact H'].
Defined.

Lemma change_as_computed_witness :
  exists r,
    Demo2.analyze Demo.week_urls Demo.week_stamps = Success r /\
    map percentageChange (results r) = [20; -10; 100] /\
    map status (results r) = [Improved; Worsened; Improved] /\
    mean (map percentageChange (results r)) = 110 / 3 /\
    overall_status r = Improved.
Proof.
  eexists.
  assert (H : Demo2.analyze Demo.week_urls Demo.week_stamps = Success _)
    by (vm_compute; reflexivity).
  split; [exact H|].
  refine (proj2 (change_as_computed string Mat Demo2.urlopen Demo2.imdecode
                   Demo.cvtColor_BGR2GRAY _ _ _ _ 10 12 9 20
                   H _ _ _) _ _ _ _).
  - vm_compute. reflexivity.
  - vm_compute. reflexivity.
  - vm_compute. reflexivity.
  - reflexivity.
  - reflexivity.
  - reflexivity.
  - reflexivity.
Defined.

Lemma order_independent_numpy_distinct_witness :
  exists r,
    Demo2.analyze Demo.week_urls Demo.week_stamps = Success r /\
    Demo2.analyze (rev Demo.week_urls) (rev Demo.week_stamps) = Success r.
Proof.
  eexists.
  assert (H : Demo2.analyze Demo.week_urls Demo.week_stamps = Success _)
    by (vm_compute; reflexivity).
  split; [exact H|].
  refine (proj1 (order_independent_numpy_distinct string Mat Demo2.urlopen
                   Demo2.imdecode Demo.cvtColor_BGR2GRAY
                   (combine Demo.week_urls Demo.week_stamps)
                   (rev (combine Demo.week_urls Demo.week_stamps)) _ _ _ _) H).
  - reflexivity.
  - repeat (constructor;
            [ simpl; intros H';
              repeat (destruct H' as [H' | H']; [discriminate H'|]); exact H' |]).
    constructor.
  - apply Permutation_rev.
Defined.

Lemma timestamps_not_validated_witness :
  exists r,
    Demo2.analyze Demo.week_urls
      ["2024-01-01T09:00:00"; "yesterday";
       "2024-01-15T09:00:00"; "2024-01-22T09:00:00"] = Success r.
Proof.
  apply (timestamps_not_validated string Mat Demo2.urlopen Demo2.imdecode
           Demo.cvtColor_BGR2GRAY Demo.week_urls
           ["2024-01-01T09:00:00"; "yesterday";
            "2024-01-15T09:00:00"; "2024-01-22T09:00:00"]
           [10; 12; 9; 20]).
  - reflexivity.
  - reflexivity.
  - vm_compute. reflexivity.
Defined.

End Binary64Spec.

(** * The worked figures in binary64 *)

Module Binary64Facts.

Import Tracker Binary64.
Local Open Scope float_scope.

(** Densities 10, 12, 9, 20: the changes are exactly 20, -10 and 100. *)
Example weekly_changes :
  density 10 100 = 10 /\
  map (percentage_change (density 10 100))
      [density 12 100; density 9 100; density 20 100] = [20; -10; 100] /\
  map status_of [20; -10; 100] = [Improved; Worsened; Improved].
Proof. repeat split; vm_compute; reflexivity. Qed.

(** 2500 then 2501 dark pixels of 5000: a change above 0 that is below
    half a tenth, so it is Improved and rounds to 0.0. *)
Example small_gain :
  let pc := percentage_change (density 2500 5000) (density 2501 5000) in
  status_of pc = Improved /\ PrimFloat.ltb (pc * 10) 0.5 = true.
Proof. split; vm_compute; reflexivity. Qed.

(** The two boundaries. *)
Example boundaries : status_of (-5) = Stable /\ status_of 0 = Stable.
Proof. split; vm_compute; reflexivity. Qed.

End Binary64Facts.

(** * More on the classifier *)

Module ClassifierMore.

Import Classifier Reading.
Local Open Scope Q_scope.

Lemma argmax_from_first_maximum (pre l : list Q) (best_i : nat) (best : Q) :
  first_maximum pre best_i best ->
  first_maximum (pre ++ l)
    (argmax_from best_i best (List.length pre) l)
    (fold_left (fun m y => if Qle_bool y m then m else y) l best).
Proof.
  revert pre best_i best. induction l as [|x l IH]; intros pre best_i best H.
  - simpl. rewrite app_nil_r. exact H.
  - simpl. destruct H as (Hnth & Hall & Hfirst).
    replace (pre ++ x :: l) with ((pre ++ [x]) ++ l)
      by (rewrite <- app_assoc; reflexivity).
    replace (S (List.length pre)) with (List.length (pre ++ [x]))
      by (rewrite length_app; simpl; lia).
    destruct (Qle_bool x best) eqn:E; apply IH.
    + apply Qle_bool_iff in E. repeat split.
      * rewrite nth_error_app1; [exact Hnth|].
        apply nth_error_Some. congruence.
      * apply Forall_app. split; [exact Hall | repeat constructor; exact E].
      * intros j p Hj Hp. apply (Hfirst j p Hj).
        assert (Hk : (best_i < List.length pre)%nat)
          by (apply nth_error_Some; congruence).
        rewrite nth_error_app1 in Hp by lia. exact Hp.
    + assert (Hlt : best < x).
      { apply Qnot_le_lt. intros Hle. apply Qle_bool_iff in Hle. congruence. }
      repeat split.
      * rewrite nth_error_app2 by lia. rewrite Nat.sub_diag. reflexivity.
      * apply Forall_app. split; [|repeat constructor; apply Qle_refl].
        revert Hall. apply Forall_impl. intros p Hp.
        apply Qle_trans with best; [exact Hp | apply Qlt_le_weak, Hlt].
      * intros j p Hj Hp. rewrite nth_error_app1 in Hp by exact Hj.
        apply Qle_lt_trans with best; [|exact Hlt].
        rewrite Forall_forall in Hall. apply Hall.
        exact (nth_error_In _ _ Hp).
Qed.

Lemma argmax_amax (l : list Q) (k : nat) (c : Q) :
  argmax l = Return k -> amax l = Return c -> first_maximum l k c.
Proof.
  destruct l as [|x l]; [discriminate|]. simpl. intros [= <-] [= <-].
  apply (argmax_from_first_maximum [x] l 0 x).
  repeat split.
  - repeat constructor. apply Qle_refl.
  - intros j p Hj. lia.
Qed.

Lemma non_scalp_only_first (labels : list string) (k : nat) :
  labels = male_labels \/ labels = female_labels ->
  nth_error labels k = Some "non-scalp" -> k = 0%nat.
Proof.
  intros Hl H.
  assert (Hk : (k < 7)%nat).
  { assert (Hlen : (k < List.length labels)%nat)
      by (apply nth_error_Some; congruence).
    destruct Hl as [-> | ->]; cbn in Hlen; lia. }
  destruct k as [|[|[|[|[|[|[|k]]]]]]]; [reflexivity| | | | | | |lia];
    destruct Hl as [-> | ->]; discriminate H.
Qed.

Lemma select_model_cases gender model labels :
  select_model gender = Some (model, labels) ->
  (gender = "male" /\ model = male_model /\ labels = male_labels) \/
  (gender = "female" /\ model = female_model /\ labels = female_labels).
Proof.
  unfold select_model.
  destruct (String.eqb_spec gender "male") as [-> |]; [intros [= <- <-]; auto|].
  destruct (String.eqb_spec gender "female") as [-> |]; [intros [= <- <-]; auto|].
  discriminate.
Qed.

Section World.

Variable Bytes : Type.
Variable Tensor : Type.
Variable urlopen : string -> exc Bytes.
Variable preprocess : Bytes -> exc Tensor.
Variable model_predict : Model -> Tensor -> exc (list Q).

Local Abbreviation predict_stage :=
  (predict_stage Bytes Tensor urlopen preprocess model_predict).
Local Abbreviation load_image := (load_image Bytes Tensor urlopen preprocess).

(** A dictionary that carries a stage was produced by a supported gender
    from an image that loaded and a prediction that succeeded; its stage
    is a label of that gender, its confidence is the largest predicted
    probability, the stage sits at the first position holding it, and the
    dictionary is marked invalid exactly when the stage is "non-scalp". *)
Theorem stage_comes_from_top_prediction :
  forall url gender l,
    stage (snd (predict_stage url gender)) = Some l ->
    exists model labels img_array predictions k c,
      select_model gender = Some (model, labels) /\
      load_image url = Return img_array /\
      model_predict model img_array = Return predictions /\
      nth_error labels k = Some l /\
      first_maximum predictions k c /\
      confidence (snd (predict_stage url gender)) = Some c /\
      image_url (snd (predict_stage url gender)) = Some url /\
      (isValid (snd (predict_stage url gender)) = false <-> l = "non-scalp").
Proof.
  intros url gender l. unfold Classifier.predict_stage.
  destruct (select_model gender) as [[model labels]|] eqn:Hsel; [|discriminate].
  fold load_image.
  destruct (load_image url) as [e | img_array] eqn:Hload; [discriminate|].
  cbn [snd]. unfold run_prediction.
  destruct (model_predict model img_array) as [e | predictions] eqn:Hp;
    [discriminate|].
  cbn [bind].
  destruct (argmax predictions) as [e | k] eqn:Hk; [discriminate|].
  cbn [bind].
  destruct (amax predictions) as [e | c] eqn:Hc; [discriminate|].
  cbn [bind]. unfold getitem.
  destruct (nth_error labels k) as [label|] eqn:Hl; [|discriminate].
  cbn [bind].
  assert (Hlabels : labels = male_labels \/ labels = female_labels).
  { destruct (select_model_cases _ _ _ Hsel) as [(_ & _ & ->) | (_ & _ & ->)];
      auto. }
  destruct (Nat.eqb_spec k 0) as [-> | Hne]; cbn; intros [= <-].
  - exists model, labels, img_array, predictions, 0%nat, c.
    split; [reflexivity|]. split; [reflexivity|]. split; [exact Hp|].
    split; [exact Hl|]. split; [apply argmax_amax; assumption|].
    split; [reflexivity|]. split; [reflexivity|].
    split; [|reflexivity].
    intros _. destruct Hlabels as [-> | ->]; cbn in Hl; congruence.
  - exists model, labels, img_array, predictions, k, c.
    split; [reflexivity|]. split; [reflexivity|]. split; [exact Hp|].
    split; [exact Hl|]. split; [apply argmax_amax; assumption|].
    split; [reflexivity|]. split; [reflexivity|].
    split; [discriminate|].
    intros ->. elim Hne. exact (non_scalp_only_first _ _ Hlabels Hl).
Qed.

(** A model is run only for a supported gender and only on an image that
    was fetched and preprocessed without error; the image is fetched at
    most once and the model run at most once. *)
Theorem inference_only_after_load :
  forall url gender,
    (fst (predict_stage url gender) = [] \/
     fst (predict_stage url gender) = [EvUrlopen url] \/
     exists m, fst (predict_stage url gender) = [EvUrlopen url; EvPredict m]) /\
    forall m, In (EvPredict m) (fst (predict_stage url gender)) ->
      exists labels img_array,
        select_model gender = Some (m, labels) /\
        load_image url = Return img_array.
Proof.
  intros url gender. unfold Classifier.predict_stage.
  destruct (select_model gender) as [[model labels]|] eqn:Hsel.
  - fold load_image. destruct (load_image url) as [e | img_array] eqn:Hload.
    + split; [right; left; reflexivity|].
      intros m [H | []]. discriminate H.
    + split; [right; right; exists model; reflexivity|].
      intros m [H | [H | []]]; [discriminate H|].
      injection H as <-. exists labels, img_array. auto.
  - split; [left; reflexivity|]. intros m [].
Qed.

(** If the image cannot be fetched or preprocessed the answer is the
    loading error with the reason spliced in, and no model is run. *)
Theorem load_failure_reported :
  forall url gender e,
    gender = "male" \/ gender = "female" ->
    load_image url = Raise e ->
    predict_stage url gender =
      ([EvUrlopen url], error_dict ("Error loading image from URL: " ++ e)).
Proof.
  intros url gender e Hg Hload. unfold Classifier.predict_stage.
  destruct (ClassifierFacts.select_model_valid _ Hg) as (m & ls & ->).
  fold load_image. rewrite Hload. reflexivity.
Qed.

(** If the top prediction falls outside the gender's label list (a model
    with more outputs than labels) the answer is a prediction failure, not
    a stage. *)
Theorem label_index_out_of_range :
  forall url gender model labels img_array predictions k,
    select_model gender = Some (model, labels) ->
    load_image url = Return img_array ->
    model_predict model img_array = Return predictions ->
    argmax predictions = Return k ->
    (List.length labels <= k)%nat ->
    snd (predict_stage url gender) =
      error_dict "Prediction failed: list index out of range".
Proof.
  intros url gender model labels img_array predictions k Hsel Hload Hp Hk Hlen.
  unfold Classifier.predict_stage. rewrite Hsel. fold load_image.
  rewrite Hload. cbn [snd]. unfold run_prediction.
  rewrite Hp. cbn [bind]. rewrite Hk. cbn [bind].
  destruct predictions as [|p ps]; [discriminate Hk|]. cbn [amax bind].
  unfold getitem. apply nth_error_None in Hlen. rewrite Hlen. reflexivity.
Qed.

End World.

End ClassifierMore.

(** * More on the tracker *)

Module TrackerMore.

Import Tracker Vocabulary Reading StrOrder SortFacts NumericFacts TrackerFacts.
Local Open Scope Q_scope.

(** ** The density metric *)

Lemma hair_count (l : list Z) :
  List.length
    (filter (fun p => (p =? 255)%Z)
            (map (fun p : Z => if (p >? 50)%Z then 0%Z else 255%Z) l)) =
  List.length (filter (fun p => (p <=? 50)%Z) l).
Proof.
  induction l as [|p l IH]; [reflexivity|]. cbn [map filter].
  rewrite Z.gtb_ltb, Z.leb_antisym.
  destruct (50 <? p)%Z; cbn; rewrite IH; reflexivity.
Qed.

Lemma density_of_count (m : Mat) :
  density_of m =
  (inject_Z (Z.of_nat (List.length (filter (fun p => (p <=? 50)%Z) (pixels m))))
   / inject_Z (Z.of_nat (List.length (pixels m)))) * 100.
Proof.
  unfold density_of, count_eq, size.
  assert (E : pixels (threshold_binary_inv 50 255 m) =
              map (fun p : Z => if (p >? 50)%Z then 0%Z else 255%Z) (pixels m))
    by reflexivity.
  rewrite E, hair_count, length_map. reflexivity.
Qed.

Lemma filter_none (l : list Z) :
  List.length (filter (fun p => (p <=? 50)%Z) l) = 0%nat <->
  Forall (fun p => ~ dark p) l.
Proof.
  unfold dark. induction l as [|p l IH]; cbn [filter].
  - split; [constructor | reflexivity].
  - destruct (Z.leb_spec p 50); cbn [List.length].
    + split; [discriminate|]. intros H'. inversion H'; subst. lia.
    + rewrite IH. split; [constructor; [lia | assumption]|].
      intros H'. inversion H'; assumption.
Qed.

Lemma filter_all (l : list Z) :
  List.length (filter (fun p => (p <=? 50)%Z) l) = List.length l <->
  Forall dark l.
Proof.
  unfold dark. induction l as [|p l IH]; cbn [filter].
  - split; [constructor | reflexivity].
  - pose proof (filter_length_le (fun p => (p <=? 50)%Z) l) as Hle.
    destruct (Z.leb_spec p 50); cbn [List.length].
    + split.
      * intros [= H']. constructor; [assumption | apply IH, H'].
      * intros H'. inversion H'; subst. f_equal. apply IH. assumption.
    + split; [lia|]. intros H'. inversion H'; subst. lia.
Qed.

Lemma ratio_bounds (h t : nat) :
  (h <= t)%nat -> (0 < t)%nat ->
  0 <= inject_Z (Z.of_nat h) / inject_Z (Z.of_nat t) * 100 <= 100.
Proof.
  intros Hle Hpos.
  assert (Ht : 0 < inject_Z (Z.of_nat t)).
  { change 0 with (inject_Z 0). rewrite <- Zlt_Qlt. lia. }
  assert (Hh : 0 <= inject_Z (Z.of_nat h)).
  { change 0 with (inject_Z 0). rewrite <- Zle_Qle. lia. }
  assert (Hht : inject_Z (Z.of_nat h) <= inject_Z (Z.of_nat t)).
  { rewrite <- Zle_Qle. lia. }
  assert (H0 : 0 <= inject_Z (Z.of_nat h) / inject_Z (Z.of_nat t)).
  { apply Qle_shift_div_l; [exact Ht | lra]. }
  assert (H1 : inject_Z (Z.of_nat h) / inject_Z (Z.of_nat t) <= 1).
  { apply Qle_shift_div_r; [exact Ht | lra]. }
  lra.
Qed.

Lemma ratio_value (h t : nat) (c : Z) :
  (0 < t)%nat ->
  (inject_Z (Z.of_nat h) / inject_Z (Z.of_nat t) * 100 == inject_Z c * 100 <->
   Z.of_nat h = (c * Z.of_nat t)%Z).
Proof.
  intros Hpos.
  assert (Ht : 0 < inject_Z (Z.of_nat t)).
  { change 0 with (inject_Z 0). rewrite <- Zlt_Qlt. lia. }
  assert (E : inject_Z (Z.of_nat h) ==
              inject_Z (Z.of_nat h) / inject_Z (Z.of_nat t) * inject_Z (Z.of_nat t))
    by (field; lra).
  split.
  - intros H. apply inject_Z_injective.
    rewrite inject_Z_mult, E.
    assert (H' : inject_Z (Z.of_nat h) / inject_Z (Z.of_nat t) == inject_Z c)
      by lra.
    rewrite H'. reflexivity.
  - intros H. rewrite H, inject_Z_mult. field. lra.
Qed.

Lemma density_of_range (m : Mat) : 0 <= density_of m <= 100.
Proof.
  rewrite density_of_count.
  apply ratio_bounds; [apply filter_length_le | cbn; lia].
Qed.

(** The density score is a percentage. *)
Theorem density_is_percentage :
  forall gray : Mat, 0 <= density_of gray <= 100.
Proof.
  intros gray. pose proof (density_of_range gray) as [Hlo Hhi].
  split; [exact Hlo | exact Hhi].
Qed.

(** The density score is 0 exactly when no pixel is dark and 100 exactly
    when every pixel is dark. *)
Theorem density_extremes :
  forall gray : Mat,
    (density_of gray == 0 <-> Forall (fun p => ~ dark p) (pixels gray)) /\
    (density_of gray == 100 <-> Forall dark (pixels gray)).
Proof.
  intros m. rewrite density_of_count.
  assert (Hpos : (0 < List.length (pixels m))%nat) by (cbn; lia).
  split.
  - rewrite <- filter_none.
    assert (E : 0 == inject_Z 0 * 100) by reflexivity. rewrite E.
    rewrite ratio_value by exact Hpos. lia.
  - rewrite <- filter_all.
    assert (E : 100 == inject_Z 1 * 100) by reflexivity. rewrite E.
    rewrite ratio_value by exact Hpos. lia.
Qed.

(** ** Rounding against whole tenths *)

Lemma rint_ge_int (x : Q) (n : Z) : inject_Z n <= x -> (n <= rint x)%Z.
Proof.
  intros H. pose proof (rint_near x) as [Hlo _].
  destruct (Z_lt_le_dec (rint x) n) as [Hlt | Hge]; [|exact Hge].
  exfalso.
  assert (Hz : (rint x + 1 <= n)%Z) by lia.
  rewrite Zle_Qle, inject_Z_plus in Hz.
  change (inject_Z 1) with 1 in Hz. lra.
Qed.

Lemma rint_le_int (x : Q) (n : Z) : x <= inject_Z n -> (rint x <= n)%Z.
Proof.
  intros H. pose proof (rint_near x) as [_ Hhi].
  destruct (Z_lt_le_dec n (rint x)) as [Hlt | Hge]; [|exact Hge].
  exfalso.
  assert (Hz : (n + 1 <= rint x)%Z) by lia.
  rewrite Zle_Qle, inject_Z_plus in Hz.
  change (inject_Z 1) with 1 in Hz. lra.
Qed.

Lemma round1_ge (x : Q) (n : Z) :
  inject_Z n / 10 <= x -> inject_Z n / 10 <= round1 x.
Proof.
  intros H. unfold round1.
  assert (Hn : inject_Z n <= x * 10).
  { assert (E : inject_Z n == inject_Z n / 10 * 10) by field. lra. }
  apply rint_ge_int in Hn. rewrite Zle_Qle in Hn.
  unfold Qdiv. change (/ 10) with (1 # 10). lra.
Qed.

Lemma round1_le (x : Q) (n : Z) :
  x <= inject_Z n / 10 -> round1 x <= inject_Z n / 10.
Proof.
  intros H. unfold round1.
  assert (Hn : x * 10 <= inject_Z n).
  { assert (E : inject_Z n == inject_Z n / 10 * 10) by field. lra. }
  apply rint_le_int in Hn. rewrite Zle_Qle in Hn.
  unfold Qdiv. change (/ 10) with (1 # 10). lra.
Qed.

Lemma round1_small (x : Q) : 0 < x -> x < 1 # 20 -> round1 x = round1 0.
Proof.
  intros Hlo Hhi. unfold round1.
  pose proof (rint_near (x * 10)) as [_ Hn].
  assert (E : rint (x * 10) = 0%Z).
  { apply Z.le_antisymm.
    - destruct (Z_lt_le_dec 0 (rint (x * 10))) as [Hpos | Hnp]; [|exact Hnp].
      exfalso.
      assert (Hz : (1 <= rint (x * 10))%Z) by lia.
      rewrite Zle_Qle in Hz. change (inject_Z 1) with 1 in Hz. lra.
    - apply rint_ge_int. change (inject_Z 0) with 0. lra. }
  rewrite E. reflexivity.
Qed.

(** ** Arrangements *)

Lemma sorted_unique {A : Type} (R : A -> A -> Prop) (l1 l2 : list A) :
  (forall a b, R a b -> R b a -> False) ->
  StronglySorted R l1 -> StronglySorted R l2 -> Permutation l1 l2 -> l1 = l2.
Proof.
  intros Hasym. revert l2. induction l1 as [|a l1 IH]; intros l2 H1 H2 HP.
  - apply Permutation_nil in HP. subst; reflexivity.
  - destruct l2 as [|b l2].
    { apply Permutation_sym, Permutation_nil in HP. discriminate. }
    apply StronglySorted_inv in H1. destruct H1 as [H1 Ha].
    apply StronglySorted_inv in H2. destruct H2 as [H2 Hb].
    rewrite Forall_forall in Ha, Hb.
    assert (Hab : a = b).
    { assert (Hin_a : In a (b :: l2))
        by (apply (Permutation_in _ HP); left; reflexivity).
      assert (Hin_b : In b (a :: l1))
        by (apply (Permutation_in _ (Permutation_sym HP)); left; reflexivity).
      destruct Hin_a as [-> | Hin_a]; [reflexivity|].
      destruct Hin_b as [-> | Hin_b]; [reflexivity|].
      exfalso. exact (Hasym a b (Ha b Hin_b) (Hb a Hin_a)). }
    subst b. f_equal. apply IH; auto. exact (Permutation_cons_inv HP).
Qed.

Lemma chronological_asym (ts : list string) (i j : nat) :
  chronological ts i j -> chronological ts j i -> False.
Proof.
  unfold chronological, stable_before.
  intros [H1 | [E1 L1]] [H2 | [E2 L2]].
  - exact (slt_irrefl _ (slt_trans _ _ _ H1 H2)).
  - rewrite E2 in H1. exact (slt_irrefl _ H1).
  - rewrite E1 in H2. exact (slt_irrefl _ H2).
  - lia.
Qed.

Lemma seq_sorted_by (R : nat -> nat -> Prop) (n start : nat) :
  (forall i j, (start <= i)%nat -> (i < j)%nat -> (j < start + n)%nat -> R i j) ->
  StronglySorted R (seq start n).
Proof.
  revert start. induction n as [|n IH]; intros start H; simpl; constructor.
  - apply IH. intros i j Hi Hij Hj. apply H; lia.
  - apply Forall_forall. intros j Hj. apply in_seq in Hj. apply H; lia.
Qed.

Lemma ascending_nth (ts : list string) :
  StronglySorted sle ts ->
  forall i j, (i < j)%nat -> (j < List.length ts)%nat ->
    sle (nth i ts "") (nth j ts "").
Proof.
  induction 1 as [|t ts Hs IH Ht]; intros i j Hij Hj; [simpl in Hj; lia|].
  destruct j as [|j]; [lia|]. simpl in Hj.
  destruct i as [|i]; simpl.
  - rewrite Forall_forall in Ht. apply Ht. apply nth_In. lia.
  - apply IH; lia.
Qed.

(** Timestamps that already ascend are left in input order. *)
Lemma argsort_ascending_input (ts : list string) :
  StronglySorted sle ts -> argsort ts = seq 0 (List.length ts).
Proof.
  intros Hs.
  apply (sorted_unique (chronological ts)).
  - apply chronological_asym.
  - apply argsort_chronological.
  - apply seq_sorted_by. intros i j _ Hij Hj.
    apply sle_before; [|exact Hij].
    apply sle_np_item.
    apply ascending_nth; [exact Hs | exact Hij | lia].
  - apply argsort_perm.
Qed.

(** ** The change relative to the baseline *)

Lemma change_at_least_minus_100 (b s : Q) :
  0 <= b -> 0 <= s -> -100 <= percentage_change b s.
Proof.
  intros Hb Hs. unfold percentage_change.
  destruct (Qeq_bool b 0) eqn:E; [lra|].
  apply Qeq_bool_neq in E.
  assert (Hpos : 0 < b) by (destruct (Qlt_le_dec 0 b); [assumption|]; exfalso; apply E; lra).
  assert (Ed : s - b == ((s - b) / b) * b) by (field; lra).
  set (d := (s - b) / b) in *. clearbody d. nra.
Qed.

Lemma change_sign (b s : Q) :
  0 < b ->
  (0 < percentage_change b s <-> b < s) /\
  (percentage_change b s < -5 <-> s < (95 # 100) * b).
Proof.
  intros Hpos. unfold percentage_change.
  destruct (Qeq_bool b 0) eqn:E.
  { apply Qeq_bool_eq in E. exfalso. lra. }
  assert (Ed : s - b == ((s - b) / b) * b) by (field; lra).
  set (d := (s - b) / b) in *. clearbody d.
  split; split; intros H; nra.
Qed.

Lemma mean3 (a b c : Q) : mean [a; b; c] == (a + b + c) * (1 # 3).
Proof.
  unfold mean. cbn [fold_right List.length]. unfold Qdiv.
  change (/ inject_Z (Z.of_nat 3)) with (1 # 3). ring.
Qed.

Section World.

Variable Bytes : Type.
Variable ColorMat : Type.
Variable urlopen : string -> exc Bytes.
Variable imdecode : Bytes -> option ColorMat.
Variable cvtColor_BGR2GRAY : ColorMat -> Mat.

Local Abbreviation image_density :=
  (image_density Bytes ColorMat urlopen imdecode cvtColor_BGR2GRAY).
Local Abbreviation measure_images :=
  (measure_images Bytes ColorMat urlopen imdecode cvtColor_BGR2GRAY).
Local Abbreviation analyze_hair_density :=
  (analyze_hair_density Bytes ColorMat urlopen imdecode cvtColor_BGR2GRAY).

Lemma image_density_range url d :
  image_density url = Return d -> 0 <= d <= 100.
Proof.
  unfold Tracker.image_density.
  destruct (urlopen url) as [e | data]; [discriminate|]. cbn [bind].
  destruct (imdecode data) as [img|]; [|discriminate].
  intros [= <-]. apply density_of_range.
Qed.

Lemma densities_range urls ds :
  for_each image_density urls = Return ds ->
  Forall (fun d => 0 <= d <= 100) ds.
Proof.
  intros H. apply for_each_pointwise in H.
  induction H as [|u d urls ds Hu _ IH]; constructor; [|exact IH].
  exact (image_density_range _ _ Hu).
Qed.

Lemma sorted_densities_range ds idx sds :
  Forall (fun d => 0 <= d <= 100) ds ->
  map (fun i => nth i ds 0) idx = sds ->
  Forall (fun d => 0 <= d <= 100) sds.
Proof.
  intros Hds <-. apply Forall_forall. intros d Hd.
  apply in_map_iff in Hd. destruct Hd as (i & <- & _).
  rewrite Forall_forall in Hds.
  destruct (Nat.lt_ge_cases i (List.length ds)) as [Hi | Hi].
  - apply Hds, nth_In, Hi.
  - rewrite nth_overflow by exact Hi. lra.
Qed.

Lemma measure_images_inl urls acc accu msg :
  measure_images urls acc accu = inl msg ->
  exists pre bad rest e done,
    urls = pre ++ bad :: rest /\
    for_each image_density pre = Return done /\
    image_density bad = Raise e /\
    msg = image_message bad e.
Proof.
  revert acc accu. induction urls as [|u urls IH]; simpl; intros acc accu H;
    [discriminate|].
  destruct (image_density u) as [e | d] eqn:Hu.
  - injection H as <-. exists [], u, urls, e, []. auto.
  - destruct (IH _ _ H) as (pre & bad & rest & e & done & -> & Hpre & Hbad & ->).
    exists (u :: pre), bad, rest, e, (d :: done).
    repeat split; auto. simpl. rewrite Hu, Hpre. reflexivity.
Qed.

Lemma analyze_error_inv urls ts msg :
  analyze_hair_density urls ts = Error msg ->
  (msg = count_message /\
   (List.length urls <> 4%nat \/ List.length ts <> 4%nat)) \/
  (List.length urls = 4%nat /\ List.length ts = 4%nat /\
   exists pre bad rest e done,
     urls = pre ++ bad :: rest /\
     for_each image_density pre = Return done /\
     image_density bad = Raise e /\
     msg = image_message bad e).
Proof.
  unfold Tracker.analyze_hair_density.
  destruct (Nat.eqb_spec (List.length urls) 4) as [Hu | Hu];
    destruct (Nat.eqb_spec (List.length ts) 4) as [Ht | Ht]; cbn [negb orb];
    try (intros [= <-]; left; split; auto).
  destruct (measure_images urls [] []) as [m | [ds us]] eqn:Hm.
  - intros [= <-]. right. split; [exact Hu|]. split; [exact Ht|].
    exact (measure_images_inl _ _ _ _ Hm).
  - apply measure_images_inr in Hm. destruct Hm as (ds' & Hf & -> & ->).
    simpl. pose proof (for_each_length _ _ _ Hf) as Hl. rewrite Hu in Hl.
    rewrite Hl. cbn [Nat.eqb negb].
    destruct (compare_densities_closed ds' urls ts Hl Hu Ht)
      as (b & s2 & s3 & s4 & _ & ->).
    discriminate.
Qed.

(** The only errors [analyze_hair_density] ever returns are the count
    error, returned exactly when either list is not of length four, and
    the processing error of the first image that cannot be measured; the
    two later error branches of the function are never taken. *)
Theorem analyze_errors :
  forall urls ts,
    (List.length urls <> 4%nat \/ List.length ts <> 4%nat ->
     analyze_hair_density urls ts = Error count_message) /\
    (forall msg,
       analyze_hair_density urls ts = Error msg ->
       (msg = count_message /\
        (List.length urls <> 4%nat \/ List.length ts <> 4%nat)) \/
       (List.length urls = 4%nat /\ List.length ts = 4%nat /\
        exists pre bad rest e done,
          urls = pre ++ bad :: rest /\
          for_each image_density pre = Return done /\
          image_density bad = Raise e /\
          msg = image_message bad e)).
Proof.
  intros urls ts. split; [|intros msg; apply analyze_error_inv].
  unfold Tracker.analyze_hair_density.
  destruct (Nat.eqb_spec (List.length urls) 4) as [Hu | Hu];
    destruct (Nat.eqb_spec (List.length ts) 4) as [Ht | Ht]; cbn [negb orb];
    try reflexivity.
  intros [H | H]; contradiction.
Qed.

(** A tracking result has exactly three entries, for weeks 2, 3 and 4, and
    no reported change is below -100. *)
Theorem trend_shape :
  forall urls ts r,
    analyze_hair_density urls ts = Success r ->
    map week (results r) = [2; 3; 4]%nat /\
    Forall (fun p => -100 <= percentageChange p) (results r).
Proof.
  intros urls ts r H. apply analyze_success_iff in H.
  destruct H as (Hu & Ht & ds & b & s2 & s3 & s4 & Hf & Hs & ->).
  split; [reflexivity|].
  pose proof (sorted_densities_range _ _ _ (densities_range _ _ Hf) Hs) as Hr.
  inversion Hr as [|? ? Hb Hr2]; subst.
  inversion Hr2 as [|? ? H2 Hr3]; subst.
  inversion Hr3 as [|? ? H3 Hr4]; subst.
  inversion Hr4 as [|? ? H4 _]; subst.
  assert (E : -100 == inject_Z (-1000) / 10) by reflexivity.
  cbn [summary results trend_entry].
  repeat constructor; cbn [percentageChange]; rewrite E; apply round1_ge;
    rewrite <- E; apply change_at_least_minus_100; lra.
Qed.

(** The overall status is never more extreme than the periods: if no
    period is Worsened the overall status is not Worsened, and if no
    period is Improved the overall status is not Improved. *)
Theorem overall_between_periods :
  forall urls ts r,
    analyze_hair_density urls ts = Success r ->
    (Forall (fun p => status p <> Worsened) (results r) ->
     overall_status r <> Worsened) /\
    (Forall (fun p => status p <> Improved) (results r) ->
     overall_status r <> Improved).
Proof.
  intros urls ts r H. apply analyze_success_iff in H.
  destruct H as (Hu & Ht & ds & b & s2 & s3 & s4 & Hf & Hs & ->).
  unfold summary, trend_entry.
  cbn [results overall_status map percentageChange].
  set (c2 := percentage_change b s2). set (c3 := percentage_change b s3).
  set (c4 := percentage_change b s4).
  split; intros Hall;
    inversion Hall as [|? ? H2 Hall3]; subst;
    inversion Hall3 as [|? ? H3 Hall4]; subst;
    inversion Hall4 as [|? ? H4 _]; subst;
    cbn [status] in H2, H3, H4.
  - rewrite status_of_worsened in H2, H3, H4 |- *.
    assert (E : -5 == inject_Z (-50) / 10) by reflexivity.
    assert (R2 : -5 <= round1 c2) by (rewrite E; apply round1_ge; rewrite <- E; lra).
    assert (R3 : -5 <= round1 c3) by (rewrite E; apply round1_ge; rewrite <- E; lra).
    assert (R4 : -5 <= round1 c4) by (rewrite E; apply round1_ge; rewrite <- E; lra).
    rewrite mean3. lra.
  - rewrite status_of_improved in H2, H3, H4 |- *.
    assert (E : 0 == inject_Z 0 / 10) by reflexivity.
    assert (R2 : round1 c2 <= 0) by (rewrite E; apply round1_le; rewrite <- E; lra).
    assert (R3 : round1 c3 <= 0) by (rewrite E; apply round1_le; rewrite <- E; lra).
    assert (R4 : round1 c4 <= 0) by (rewrite E; apply round1_le; rewrite <- E; lra).
    rewrite mean3. lra.
Qed.

(** Gains too small to survive rounding: when every period's change is
    above 0 but below 0.05, every period is Improved, every reported
    change is 0 and the overall status is Stable. *)
Theorem small_gains_overall_stable :
  forall urls ts r ds b s2 s3 s4,
    analyze_hair_density urls ts = Success r ->
    for_each image_density urls = Return ds ->
    map (fun i => nth i ds 0) (argsort ts) = [b; s2; s3; s4] ->
    Forall (fun s => 0 < percentage_change b s /\ percentage_change b s < 1 # 20)
           [s2; s3; s4] ->
    map status (results r) = [Improved; Improved; Improved] /\
    Forall (fun p => percentageChange p == 0) (results r) /\
    overall_status r = Stable.
Proof.
  intros urls ts r ds b s2 s3 s4 H Hds Hs Hsmall.
  apply analyze_success_iff in H.
  destruct H as (Hu & Ht & ds' & b' & s2' & s3' & s4' & Hf & Hs' & ->).
  rewrite Hds in Hf. injection Hf as <-.
  rewrite Hs in Hs'. injection Hs' as <- <- <- <-.
  inversion Hsmall as [|? ? [L2 U2] Hsm3]; subst.
  inversion Hsm3 as [|? ? [L3 U3] Hsm4]; subst.
  inversion Hsm4 as [|? ? [L4 U4] _]; subst.
  unfold summary, trend_entry.
  rewrite (round1_small _ L2 U2), (round1_small _ L3 U3), (round1_small _ L4 U4).
  apply status_of_improved in L2, L3, L4.
  rewrite L2, L3, L4.
  split; [reflexivity|]. split; [|reflexivity].
  repeat constructor; reflexivity.
Qed.

Lemma ascending_input_result urls ts ds :
  List.length urls = 4%nat -> List.length ts = 4%nat ->
  for_each image_density urls = Return ds ->
  StronglySorted sle ts ->
  exists d1 d2 d3 d4,
    ds = [d1; d2; d3; d4] /\
    analyze_hair_density urls ts = Success (summary d1 d2 d3 d4).
Proof.
  intros Hu Ht Hf Hs.
  pose proof (for_each_length _ _ _ Hf) as Hl. rewrite Hu in Hl.
  destruct ds as [|d1 [|d2 [|d3 [|d4 [|? ?]]]]]; try discriminate Hl.
  exists d1, d2, d3, d4. split; [reflexivity|].
  apply analyze_success_iff. split; [exact Hu|]. split; [exact Ht|].
  exists [d1; d2; d3; d4], d1, d2, d3, d4.
  split; [exact Hf|]. split; [|reflexivity].
  rewrite (argsort_ascending_input ts Hs), Ht. reflexivity.
Qed.

(** Images supplied with timestamps that already ascend (ties allowed) are
    compared in the order supplied: the first image is the baseline. *)
Theorem chronological_input_kept :
  forall urls ts ds,
    List.length urls = 4%nat -> List.length ts = 4%nat ->
    for_each image_density urls = Return ds ->
    StronglySorted sle ts ->
    argsort ts = [0; 1; 2; 3]%nat /\
    exists d1 d2 d3 d4,
      ds = [d1; d2; d3; d4] /\
      analyze_hair_density urls ts = Success (summary d1 d2 d3 d4).
Proof.
  intros urls ts ds Hu Ht Hf Hs. split.
  - rewrite (argsort_ascending_input ts Hs), Ht. reflexivity.
  - exact (ascending_input_result urls ts ds Hu Ht Hf Hs).
Qed.

End World.

End TrackerMore.

(** * Folder names *)

Module SanitizeFacts.

Import Sanitize.
Local Open Scope N_scope.

Lemma in_class_replacement : in_class 95 = true.
Proof. reflexivity. Qed.

(** The sanitised name has as many characters as the name, every one of
    them a letter, digit, underscore or hyphen; in particular it holds no
    slash, backslash or dot, so it names a single folder. *)
Theorem sanitized_is_safe :
  forall name,
    List.length (sanitize_folder_name name) = List.length name /\
    Forall (fun c => in_class c = true) (sanitize_folder_name name) /\
    ~ In 47 (sanitize_folder_name name) /\
    ~ In 92 (sanitize_folder_name name) /\
    ~ In 46 (sanitize_folder_name name).
Proof.
  intros name.
  assert (Hsafe : Forall (fun c => in_class c = true) (sanitize_folder_name name)).
  { unfold sanitize_folder_name. apply Forall_forall. intros c Hc.
    apply in_map_iff in Hc. destruct Hc as (x & <- & _).
    destruct (in_class x) eqn:E; [exact E | reflexivity]. }
  split; [apply length_map|]. split; [exact Hsafe|].
  rewrite Forall_forall in Hsafe.
  repeat split; intros Hin; apply Hsafe in Hin; discriminate Hin.
Qed.

(** Sanitising twice is sanitising once, and a name is left unchanged
    exactly when it is already made of permitted characters; so a name
    with any other character shares its folder with a different name. *)
Theorem sanitize_fixpoint :
  forall name,
    sanitize_folder_name (sanitize_folder_name name) = sanitize_folder_name name /\
    (sanitize_folder_name name = name <-> Forall (fun c => in_class c = true) name).
Proof.
  intros name. unfold sanitize_folder_name. split.
  - rewrite map_map. apply map_ext. intros c.
    destruct (in_class c) eqn:E; [rewrite E; reflexivity | reflexivity].
  - induction name as [|c name IH]; cbn [map].
    + split; [constructor | reflexivity].
    + split.
      * intros [= Hc Hrest]. constructor; [|apply IH, Hrest].
        destruct (in_class c) eqn:E; [reflexivity|].
        subst c. discriminate E.
      * intros H. inversion H as [|? ? Hc Hrest]; subst.
        rewrite Hc. f_equal. apply IH, Hrest.
Qed.

End SanitizeFacts.

(** * The analysis routes *)

Module RoutesFacts.

Import Classifier Tracker Vocabulary Reading Routes.
Import StrOrder SortFacts NumericFacts TrackerFacts TrackerMore.

Section World.

Variable Bytes : Type.
Variable Tensor : Type.
Variable ColorMat : Type.
Variable Instant : Type.
Variable Json : Type.
Variable urlopen : string -> exc Bytes.
Variable preprocess : Bytes -> exc Tensor.
Variable model_predict : Model -> Tensor -> exc (list Q).
Variable imdecode : Bytes -> option ColorMat.
Variable cvtColor_BGR2GRAY : ColorMat -> Mat.
Variable lower : string -> string.
Variable upload : Folder -> string -> FileStorage -> exc string.
Variable json_loads : string -> exc Json.
Variable is_dict : Json -> bool.
Variable predictions_collection :
  option (PredictionDoc Instant Json -> exc unit).
Variable hair_tracking_collection : option (TrackingDoc Instant -> exc unit).
Variable utcnow : nat -> Instant.
Variable isoformat : Instant -> string.
Variable bad_request_key : string -> string.

Local Abbreviation predict_stage :=
  (Classifier.predict_stage Bytes Tensor urlopen preprocess model_predict).
Local Abbreviation image_density :=
  (Tracker.image_density Bytes ColorMat urlopen imdecode cvtColor_BGR2GRAY).
Local Abbreviation analyze_hair_density :=
  (Tracker.analyze_hair_density Bytes ColorMat urlopen imdecode cvtColor_BGR2GRAY).
Local Abbreviation read_answers := (Routes.read_answers Json json_loads is_dict).
Local Abbreviation predict :=
  (Routes.predict Bytes Tensor Instant Json urlopen preprocess model_predict
                  lower upload json_loads is_dict predictions_collection utcnow).
Local Abbreviation upload_images :=
  (Routes.upload_images Instant Json upload utcnow isoformat bad_request_key).
Local Abbreviation analyze_hair_growth :=
  (Routes.analyze_hair_growth Bytes ColorMat Instant Json urlopen imdecode
     cvtColor_BGR2GRAY upload hair_tracking_collection utcnow isoformat
     bad_request_key).

(** ** [/predict] *)

(** What [/predict] does once the request has passed validation. *)
Lemma predict_after_validation req file g user_id :
  lookup "file" (files req) = Some file ->
  lookup "gender" (form req) = Some g ->
  lookup "user_id" (form req) = Some user_id ->
  filename file <> "" ->
  allowed_type (content_type file) = true ->
  predict req =
    match upload PredictionsFolder user_id file with
    | Raise e =>
        ([Upload PredictionsFolder user_id file],
         (BError ("Cloudinary upload failed: " ++ e), 500%nat))
    | Return url =>
        let trace :=
          Upload PredictionsFolder user_id file
            :: map Classify (fst (predict_stage url (lower g))) in
        let result := snd (predict_stage url (lower g)) in
        match predictions_collection with
        | None => (trace, (BError "MongoDB is not initialized", 500%nat))
        | Some insert_one =>
            match read_answers req with
            | Raise e =>
                (trace, (BError ("Invalid questionnaire answers: " ++ e), 400%nat))
            | Return answers =>
                let metadata :=
                  {| pd_user_id := user_id;
                     pd_image_url := url;
                     pd_stage := stage result;
                     pd_confidence := confidence result;
                     pd_gender := lower g;
                     pd_timestamp := utcnow 0%nat;
                     pd_questionnaire_answers := answers |} in
                match insert_one metadata with
                | Raise e =>
                    (trace ++ [InsertPrediction metadata],
                     (BError ("Prediction or database error: " ++ e), 500%nat))
                | Return _ =>
                    (trace ++ [InsertPrediction metadata],
                     (BStage result, 200%nat))
                end
            end
        end
    end.
Proof.
  intros Hf Hg Hu Hname Htype. unfold Routes.predict.
  rewrite Hf, Hg, Hu.
  destruct (String.eqb_spec (filename file) ""); [contradiction|].
  rewrite Htype. cbn [negb].
  destruct (upload PredictionsFolder user_id file); [reflexivity|].
  destruct (predict_stage a (lower g)) as [calls result]. reflexivity.
Qed.

(** Nothing is uploaded exactly when the request fails validation (a
    missing field, an empty file name, or a content type other than JPEG
    and PNG), and such a request is answered with status 400. *)
Theorem predict_validation :
  forall req,
    (fst (predict req) = [] <->
     lookup "file" (files req) = None \/
     lookup "gender" (form req) = None \/
     lookup "user_id" (form req) = None \/
     exists file,
       lookup "file" (files req) = Some file /\
       (filename file = "" \/ allowed_type (content_type file) = false)) /\
    (fst (predict req) = [] -> snd (snd (predict req)) = 400%nat).
Proof.
  intros req.
  destruct (lookup "file" (files req)) as [file|] eqn:Hf.
  2:{ unfold Routes.predict. rewrite Hf. split; [split|]; auto. }
  destruct (lookup "gender" (form req)) as [g|] eqn:Hg.
  2:{ unfold Routes.predict. rewrite Hf, Hg. split; [split|]; auto. }
  destruct (lookup "user_id" (form req)) as [user_id|] eqn:Hu.
  2:{ unfold Routes.predict. rewrite Hf, Hg, Hu. split; [split|]; auto. }
  destruct (String.eqb_spec (filename file) "") as [Hname | Hname].
  { unfold Routes.predict. rewrite Hf, Hg, Hu.
    rewrite (proj2 (String.eqb_eq _ _) Hname).
    split; [split|]; auto. intros _. right; right; right. exists file. auto. }
  destruct (allowed_type (content_type file)) eqn:Htype.
  2:{ unfold Routes.predict. rewrite Hf, Hg, Hu.
      rewrite (proj2 (String.eqb_neq _ _) Hname), Htype.
      split; [split|]; auto. intros _. right; right; right. exists file. auto. }
  rewrite (predict_after_validation req file g user_id Hf Hg Hu Hname Htype).
  assert (Hiff : forall (tr : list (Event Instant Json)) (resp : Response),
    (exists x l, tr = x :: l) ->
    (fst (tr, resp) = [] <->
     Some file = None \/ Some g = None \/ Some user_id = None \/
     exists file0, Some file = Some file0 /\
       (filename file0 = "" \/ allowed_type (content_type file0) = false)) /\
    (fst (tr, resp) = [] -> snd (snd (tr, resp)) = 400%nat)).
  { intros tr resp (x & l & ->). cbn [fst]. split; [split|]; try discriminate.
    intros [H | [H | [H | (f0 & [= <-] & [H | H])]]]; congruence. }
  destruct (upload PredictionsFolder user_id file) as [e | url].
  { apply Hiff. eauto. }
  cbv zeta.
  destruct predictions_collection as [insert_one|]; [|apply Hiff; eauto].
  destruct (read_answers req) as [e | answers]; [apply Hiff; eauto|].
  match goal with
  | |- context [insert_one ?doc] => destruct (insert_one doc)
  end; apply Hiff; cbn [app]; eauto.
Qed.

(** The answer of [/predict] depends on the request only through its
    file, its user id, its answers and the lower-cased gender: the gender
    may be sent in any letter case. *)
Theorem predict_gender_case_insensitive :
  forall req req',
    lookup "file" (files req) = lookup "file" (files req') ->
    option_map lower (lookup "gender" (form req)) =
      option_map lower (lookup "gender" (form req')) ->
    lookup "user_id" (form req) = lookup "user_id" (form req') ->
    lookup "answers" (form req) = lookup "answers" (form req') ->
    predict req = predict req'.
Proof.
  intros req req' Hf Hg Hu Ha. unfold Routes.predict, Routes.read_answers, get_or.
  rewrite Hf, Hu, Ha.
  destruct (lookup "gender" (form req)) as [g|];
    destruct (lookup "gender" (form req')) as [g'|];
    cbn [option_map] in Hg; try discriminate Hg; [|reflexivity].
  injection Hg as Hg. rewrite Hg. reflexivity.
Qed.

(** A classification body is only ever sent with status 200, and then the
    image was uploaded, the dictionary is what [predict_stage] returned for
    the uploaded URL and the lower-cased gender, and a record carrying the
    same stage and confidence was stored after the classification. *)
Theorem predict_ok_inversion :
  forall req d code,
    snd (predict req) = (BStage d, code) ->
    code = 200%nat /\
    exists file g user_id url insert_one answers,
      lookup "file" (files req) = Some file /\
      lookup "gender" (form req) = Some g /\
      lookup "user_id" (form req) = Some user_id /\
      upload PredictionsFolder user_id file = Return url /\
      d = snd (predict_stage url (lower g)) /\
      predictions_collection = Some insert_one /\
      read_answers req = Return answers /\
      let doc := {| pd_user_id := user_id;
                    pd_image_url := url;
                    pd_stage := stage d;
                    pd_confidence := confidence d;
                    pd_gender := lower g;
                    pd_timestamp := utcnow 0%nat;
                    pd_questionnaire_answers := answers |} in
      insert_one doc = Return tt /\
      fst (predict req) =
        Upload PredictionsFolder user_id file
          :: map Classify (fst (predict_stage url (lower g)))
          ++ [InsertPrediction doc].
Proof.
  intros req d code.
  destruct (lookup "file" (files req)) as [file|] eqn:Hf.
  2:{ unfold Routes.predict. rewrite Hf. discriminate. }
  destruct (lookup "gender" (form req)) as [g|] eqn:Hg.
  2:{ unfold Routes.predict. rewrite Hf, Hg. discriminate. }
  destruct (lookup "user_id" (form req)) as [user_id|] eqn:Hu.
  2:{ unfold Routes.predict. rewrite Hf, Hg, Hu. discriminate. }
  destruct (String.eqb_spec (filename file) "") as [Hname | Hname].
  { unfold Routes.predict. rewrite Hf, Hg, Hu.
    rewrite (proj2 (String.eqb_eq _ _) Hname). discriminate. }
  destruct (allowed_type (content_type file)) eqn:Htype.
  2:{ unfold Routes.predict. rewrite Hf, Hg, Hu.
      rewrite (proj2 (String.eqb_neq _ _) Hname), Htype. discriminate. }
  rewrite (predict_after_validation req file g user_id Hf Hg Hu Hname Htype).
  destruct (upload PredictionsFolder user_id file) as [e | url] eqn:Hup;
    [discriminate|].
  cbv zeta.
  destruct predictions_collection as [insert_one|] eqn:Hcol; [|discriminate].
  destruct (read_answers req) as [e | answers] eqn:Hans; [discriminate|].
  match goal with
  | |- context [insert_one ?doc] => destruct (insert_one doc) as [e | []] eqn:Hins
  end; [discriminate|].
  cbn [snd fst]. intros [= <- <-]. split; [reflexivity|].
  exists file, g, user_id, url, insert_one, answers.
  cbv zeta. repeat split; first [reflexivity | assumption].
Qed.

(** A gender that is neither "male" nor "female" after lower-casing is
    still answered with status 200: the image is uploaded, no model is
    run, a record without stage or confidence is stored and the body is
    the invalid-selection error. *)
Theorem unsupported_gender_is_stored :
  forall req file g user_id url insert_one answers,
    lookup "file" (files req) = Some file ->
    lookup "gender" (form req) = Some g ->
    lookup "user_id" (form req) = Some user_id ->
    filename file <> "" ->
    allowed_type (content_type file) = true ->
    lower g <> "male" -> lower g <> "female" ->
    upload PredictionsFolder user_id file = Return url ->
    predictions_collection = Some insert_one ->
    read_answers req = Return answers ->
    let doc := {| pd_user_id := user_id;
                  pd_image_url := url;
                  pd_stage := None;
                  pd_confidence := None;
                  pd_gender := lower g;
                  pd_timestamp := utcnow 0%nat;
                  pd_questionnaire_answers := answers |} in
    insert_one doc = Return tt ->
    predict req =
      ([Upload PredictionsFolder user_id file; InsertPrediction doc],
       (BStage (error_dict "Invalid gender selection. Choose 'male' or 'female'."),
        200%nat)).
Proof.
  intros req file g user_id url insert_one answers
         Hf Hg Hu Hname Htype Hm Hw Hup Hcol Hans doc Hins.
  rewrite (predict_after_validation req file g user_id Hf Hg Hu Hname Htype).
  rewrite Hup, Hcol, Hans. cbv zeta.
  unfold Classifier.predict_stage.
  rewrite (ClassifierFacts.select_model_invalid _ Hm Hw).
  cbn [fst snd map stage confidence error_dict].
  fold doc. rewrite Hins. reflexivity.
Qed.

(** ** [/analyze-hair-growth] *)

Lemma upload_images_inr req user_id indices images timestamps trace im ts tr :
  upload_images req user_id indices images timestamps trace = inr (im, ts, tr) ->
  exists fs urls,
    Forall2 (fun i f => lookup ("image" ++ digit i) (files req) = Some f /\
                        filename f <> "") indices fs /\
    Forall2 (fun f u => upload TrackingFolder user_id f = Return u) fs urls /\
    im = images ++ urls /\
    ts = timestamps ++
         map (fun i => get_or ("timestamp" ++ digit i) (isoformat (utcnow i))
                              (form req)) indices /\
    tr = trace ++ map (Upload TrackingFolder user_id) fs.
Proof.
  revert images timestamps trace.
  induction indices as [|i rest IH]; intros images timestamps trace H.
  - cbn in H. injection H as <- <- <-. exists [], [].
    rewrite !app_nil_r. repeat split; constructor.
  - cbn [Routes.upload_images] in H.
    destruct (lookup ("image" ++ digit i) (files req)) as [f|] eqn:Hl;
      [|discriminate].
    destruct (String.eqb_spec (filename f) ""); [discriminate|].
    destruct (upload TrackingFolder user_id f) as [e | url] eqn:Hup;
      [discriminate|].
    destruct (IH _ _ _ H) as (fs & urls & Hfs & Hurls & -> & -> & ->).
    exists (f :: fs), (url :: urls).
    split; [constructor; auto|]. split; [constructor; auto|].
    cbn [map]. rewrite <- !app_assoc. auto.
Qed.

Lemma upload_images_inl req user_id indices images timestamps trace tr resp :
  upload_images req user_id indices images timestamps trace = inl (tr, resp) ->
  exists msg code, resp = (BError msg, code).
Proof.
  revert images timestamps trace.
  induction indices as [|i rest IH]; intros images timestamps trace H;
    [discriminate|].
  cbn [Routes.upload_images] in H.
  destruct (lookup ("image" ++ digit i) (files req)) as [f|];
    [|injection H as <- <-; eauto].
  destruct (String.eqb (filename f) ""); [injection H as <- <-; eauto|].
  destruct (upload TrackingFolder user_id f);
    [injection H as <- <-; eauto | exact (IH _ _ _ H)].
Qed.

(** What the route does once the four uploads are through. *)
Lemma analyze_after_uploads req user_id images timestamps trace :
  lookup "user_id" (form req) = Some user_id ->
  upload_images req user_id (seq 0 4) [] [] [] = inr (images, timestamps, trace) ->
  analyze_hair_growth req =
    match hair_tracking_collection with
    | None => (trace, (BError "MongoDB is not initialized", 500%nat))
    | Some insert_one =>
        match analyze_hair_density images timestamps with
        | Error _ => (trace, (BError "Analysis failed: 'results'", 500%nat))
        | Success r =>
            let metadata :=
              {| td_user_id := user_id;
                 td_images := images;
                 td_timestamps := timestamps;
                 td_results := Tracker.results r;
                 td_status := overall_status r;
                 td_comparison_image_url := comparisonImageUrl r;
                 td_timestamp := utcnow 4%nat |} in
            match insert_one metadata with
            | Raise e =>
                (trace ++ [InsertTracking metadata],
                 (BError ("Analysis failed: " ++ e), 500%nat))
            | Return _ =>
                (trace ++ [InsertTracking metadata], (BTracking r, 200%nat))
            end
        end
    end.
Proof.
  intros Hu Hup. unfold Routes.analyze_hair_growth. rewrite Hu.
  assert (Hall : forallb (fun i => has ("image" ++ digit i) (files req))
                         (seq 0 4) = true).
  { destruct (upload_images_inr _ _ _ _ _ _ _ _ _ Hup)
      as (fs & urls & Hfs & _).
    apply forallb_forall. intros i Hi.
    clear Hup. induction Hfs as [|j f js fs [Hj _] _ IH]; [destruct Hi|].
    destruct Hi as [<- | Hi]; [unfold has; rewrite Hj; reflexivity | auto]. }
  rewrite Hall. cbn [negb]. rewrite Hup. reflexivity.
Qed.

(** A tracking body is only ever sent with status 200, and then four
    images were uploaded, the body is what [analyze_hair_density] returned
    for the four uploaded URLs, and a record with the same entries and
    overall status was stored after the uploads. *)
Theorem tracking_ok_inversion :
  forall req r code,
    snd (analyze_hair_growth req) = (BTracking r, code) ->
    code = 200%nat /\
    exists user_id fs images timestamps insert_one,
      lookup "user_id" (form req) = Some user_id /\
      List.length fs = 4%nat /\ List.length images = 4%nat /\
      List.length timestamps = 4%nat /\
      Forall2 (fun f u => upload TrackingFolder user_id f = Return u) fs images /\
      analyze_hair_density images timestamps = Success r /\
      hair_tracking_collection = Some insert_one /\
      let doc := {| td_user_id := user_id;
                    td_images := images;
                    td_timestamps := timestamps;
                    td_results := Tracker.results r;
                    td_status := overall_status r;
                    td_comparison_image_url := comparisonImageUrl r;
                    td_timestamp := utcnow 4%nat |} in
      insert_one doc = Return tt /\
      fst (analyze_hair_growth req) =
        map (Upload TrackingFolder user_id) fs ++ [InsertTracking doc].
Proof.
  intros req r code.
  destruct (lookup "user_id" (form req)) as [user_id|] eqn:Hu.
  2:{ unfold Routes.analyze_hair_growth. rewrite Hu. discriminate. }
  destruct (upload_images req user_id (seq 0 4) [] [] [])
    as [[tr resp] | [[images timestamps] trace]] eqn:Hup.
  { unfold Routes.analyze_hair_growth. rewrite Hu.
    destruct (forallb _ _); cbn [negb]; [|discriminate].
    rewrite Hup. cbn [snd].
    destruct (upload_images_inl _ _ _ _ _ _ _ _ Hup) as (msg & c & ->).
    discriminate. }
  rewrite (analyze_after_uploads req user_id images timestamps trace Hu Hup).
  destruct (upload_images_inr _ _ _ _ _ _ _ _ _ Hup)
    as (fs & urls & Hfs & Hurls & Him & Hts & Htr).
  cbn [app] in Him, Hts, Htr. subst images trace.
  destruct hair_tracking_collection as [insert_one|] eqn:Hcol; [|discriminate].
  destruct (analyze_hair_density urls timestamps) as [msg | r'] eqn:Han;
    [discriminate|].
  cbv zeta.
  match goal with
  | |- context [insert_one ?doc] => destruct (insert_one doc) as [e | []] eqn:Hins
  end; [discriminate|].
  cbn [snd fst]. intros [= <- <-]. split; [reflexivity|].
  pose proof (Forall2_length Hfs) as Lfs. cbn in Lfs.
  pose proof (Forall2_length Hurls) as Lurls.
  exists user_id, fs, urls, timestamps, insert_one.
  split; [reflexivity|]. split; [lia|]. split; [lia|].
  split; [rewrite Hts, length_map; reflexivity|].
  split; [exact Hurls|]. split; [exact Han|]. split; [reflexivity|].
  split; [exact Hins | reflexivity].
Qed.

(** When the analysis of the uploaded images fails, the client is told
    only "Analysis failed: 'results'" with status 500 and nothing is
    stored; the failure is always that of an uploaded image that could
    not be measured, never the count error. *)
Theorem analysis_failure_hidden :
  forall req user_id images timestamps trace insert_one msg,
    lookup "user_id" (form req) = Some user_id ->
    upload_images req user_id (seq 0 4) [] [] [] = inr (images, timestamps, trace) ->
    hair_tracking_collection = Some insert_one ->
    analyze_hair_density images timestamps = Error msg ->
    analyze_hair_growth req =
      (trace, (BError "Analysis failed: 'results'", 500%nat)) /\
    (forall doc, ~ In (InsertTracking doc) trace) /\
    exists bad e,
      In bad images /\ image_density bad = Raise e /\
      msg = image_message bad e.
Proof.
  intros req user_id images timestamps trace insert_one msg Hu Hup Hcol Han.
  rewrite (analyze_after_uploads req user_id images timestamps trace Hu Hup).
  rewrite Hcol, Han. split; [reflexivity|].
  destruct (upload_images_inr _ _ _ _ _ _ _ _ _ Hup)
    as (fs & urls & Hfs & Hurls & Him & Hts & Htr).
  cbn [app] in Him, Hts, Htr. subst images timestamps trace.
  split.
  { intros doc Hin. apply in_map_iff in Hin.
    destruct Hin as (f & Hf & _). discriminate Hf. }
  pose proof (Forall2_length Hfs) as Lfs. cbn in Lfs.
  pose proof (Forall2_length Hurls) as Lurls.
  destruct (analyze_error_inv Bytes ColorMat urlopen imdecode
              cvtColor_BGR2GRAY urls _ msg Han)
    as [[_ [Hbad | Hbad]] | (_ & _ & pre & bad & rest & e & done & -> & _ & Hb & ->)].
  - exfalso. apply Hbad. lia.
  - exfalso. apply Hbad. rewrite length_map. reflexivity.
  - exists bad, e. split; [apply in_elt | auto].
Qed.

(** When the request carries no timestamps, the clock readings taken at
    each upload stand in for them; if those read in ascending order the
    images are compared in upload order, the first image being the
    baseline. *)
Theorem default_timestamps_keep_upload_order :
  forall req user_id images timestamps trace insert_one ds,
    lookup "user_id" (form req) = Some user_id ->
    (forall i, (i < 4)%nat -> lookup ("timestamp" ++ digit i) (form req) = None) ->
    upload_images req user_id (seq 0 4) [] [] [] = inr (images, timestamps, trace) ->
    StronglySorted sle (map (fun i => isoformat (utcnow i)) (seq 0 4)) ->
    for_each image_density images = Return ds ->
    hair_tracking_collection = Some insert_one ->
    (forall doc, insert_one doc = Return tt) ->
    timestamps = map (fun i => isoformat (utcnow i)) (seq 0 4) /\
    exists d1 d2 d3 d4,
      ds = [d1; d2; d3; d4] /\
      snd (analyze_hair_growth req) = (BTracking (summary d1 d2 d3 d4), 200%nat).
Proof.
  intros req user_id images timestamps trace insert_one ds
         Hu Hnone Hup Hclock Hds Hcol Hins.
  rewrite (analyze_after_uploads req user_id images timestamps trace Hu Hup).
  destruct (upload_images_inr _ _ _ _ _ _ _ _ _ Hup)
    as (fs & urls & Hfs & Hurls & Him & Hts & Htr).
  cbn [app] in Him, Hts, Htr.
  assert (Hstamps : timestamps = map (fun i => isoformat (utcnow i)) (seq 0 4)).
  { rewrite Hts. apply map_ext_in. intros i Hi. apply in_seq in Hi.
    unfold get_or. rewrite Hnone by lia. reflexivity. }
  split; [exact Hstamps|].
  pose proof (Forall2_length Hfs) as Lfs. cbn in Lfs.
  pose proof (Forall2_length Hurls) as Lurls.
  assert (Li : List.length images = 4%nat) by (subst images; lia).
  assert (Lt : List.length timestamps = 4%nat) by (rewrite Hstamps; reflexivity).
  assert (Hsorted : StronglySorted sle timestamps) by (rewrite Hstamps; exact Hclock).
  destruct (ascending_input_result Bytes ColorMat urlopen imdecode
              cvtColor_BGR2GRAY images timestamps ds Li Lt Hds Hsorted)
    as (d1 & d2 & d3 & d4 & -> & Hrun).
  exists d1, d2, d3, d4. split; [reflexivity|].
  rewrite Hcol, Hrun. cbv zeta. rewrite Hins. reflexivity.
Qed.

End World.

End RoutesFacts.

(** * Likes and post deletion *)

Module ForumFacts.

Import Routes Forum.

Lemma existsb_in (likes : list string) (user : string) :
  existsb (fun y => y =? user) likes = true <-> In user likes.
Proof.
  rewrite existsb_exists. split.
  - intros (y & Hy & E). apply String.eqb_eq in E. subst. exact Hy.
  - intros H. exists user. split; [exact H | apply String.eqb_refl].
Qed.

Lemma remove_first_in (x v : string) (l : list string) :
  v <> x -> (In v (remove_first x l) <-> In v l).
Proof.
  intros Hv. induction l as [|y l IH]; cbn [remove_first]; [tauto|].
  destruct (String.eqb_spec y x) as [-> | Hy]; cbn [In].
  - split; [auto | intros [H | H]; [congruence | exact H]].
  - rewrite IH. tauto.
Qed.

Lemma remove_first_nodup (x : string) (l : list string) :
  NoDup l -> NoDup (remove_first x l) /\ ~ In x (remove_first x l).
Proof.
  induction 1 as [|y l Hy Hl IH]; cbn [remove_first]; [split; [constructor | auto]|].
  destruct (String.eqb_spec y x) as [-> | Hne].
  - split; assumption.
  - destruct IH as [IH1 IH2]. split.
    + constructor; [|exact IH1]. rewrite remove_first_in by exact Hne. exact Hy.
    + intros [H | H]; [congruence | exact (IH2 H)].
Qed.

Lemma remove_first_perm (x : string) (l : list string) :
  In x l -> Permutation (x :: remove_first x l) l.
Proof.
  induction l as [|y l IH]; intros Hin; [destruct Hin|].
  cbn [remove_first]. destruct (String.eqb_spec y x) as [-> | Hne];
    [reflexivity|].
  destruct Hin as [E | Hin]; [congruence|].
  rewrite perm_swap. constructor. apply IH, Hin.
Qed.

Lemma remove_first_last (x : string) (l : list string) :
  ~ In x l -> remove_first x (l ++ [x]) = l.
Proof.
  induction l as [|y l IH]; intros Hn; cbn [app remove_first].
  - rewrite String.eqb_refl. reflexivity.
  - destruct (String.eqb_spec y x) as [-> | Hne].
    + elim Hn. left; reflexivity.
    + f_equal. apply IH. intros H. apply Hn. right; exact H.
Qed.

(** Liking is a switch on a list without repetitions: the list stays
    without repetitions, the user's own membership flips and nobody else's
    membership changes. *)
Theorem like_toggle_membership :
  forall likes user,
    NoDup likes ->
    NoDup (toggle likes user) /\
    (In user (toggle likes user) <-> ~ In user likes) /\
    (forall v, v <> user -> (In v (toggle likes user) <-> In v likes)).
Proof.
  intros likes user Hnd. unfold toggle.
  destruct (existsb (fun y => y =? user) likes) eqn:E.
  - apply existsb_in in E.
    destruct (remove_first_nodup user likes Hnd) as [H1 H2].
    split; [exact H1|]. split; [tauto|].
    intros v Hv. apply remove_first_in, Hv.
  - assert (Hn : ~ In user likes).
    { intros H. apply existsb_in in H. congruence. }
    split.
    + apply NoDup_app; [exact Hnd | repeat constructor; auto |].
      intros x Hx [<- | []]. exact (Hn Hx).
    + split.
      * split; [intros _; exact Hn | intros _; apply in_or_app; right; left; reflexivity].
      * intros v Hv. rewrite in_app_iff. cbn [In].
        split; [intros [H | [H | []]]; [exact H | congruence] | auto].
Qed.

(** Liking twice restores the likes: the same users, and the very same
    list when the user had not liked the post before. *)
Theorem like_toggle_twice :
  forall likes user,
    NoDup likes ->
    Permutation (toggle (toggle likes user) user) likes /\
    (~ In user likes -> toggle (toggle likes user) user = likes).
Proof.
  intros likes user Hnd.
  assert (Hfresh : ~ In user likes -> toggle (toggle likes user) user = likes).
  { intros Hn. unfold toggle at 2.
    destruct (existsb (fun y => y =? user) likes) eqn:E.
    { apply existsb_in in E. contradiction. }
    unfold toggle.
    assert (E' : existsb (fun y => y =? user) (likes ++ [user]) = true).
    { apply existsb_in, in_or_app. right; left; reflexivity. }
    rewrite E'. apply remove_first_last, Hn. }
  split; [|exact Hfresh].
  destruct (in_dec string_dec user likes) as [Hin | Hn].
  - unfold toggle at 2.
    rewrite (proj2 (existsb_in likes user) Hin).
    destruct (remove_first_nodup user likes Hnd) as [_ Hgone].
    unfold toggle.
    destruct (existsb (fun y => y =? user) (remove_first user likes)) eqn:E.
    { apply existsb_in in E. contradiction. }
    rewrite <- Permutation_cons_append. apply remove_first_perm, Hin.
  - rewrite (Hfresh Hn). reflexivity.
Qed.

Section World.

Variable Comment : Type.
Variable Instant : Type.
Variable object_id : string -> option string.

Local Abbreviation Post := (Post Comment Instant).
Local Abbreviation find_one := (find_one Comment Instant).
Local Abbreviation set_likes := (set_likes Comment Instant).
Local Abbreviation delete_one := (delete_one Comment Instant).
Local Abbreviation toggle_like := (toggle_like Comment Instant object_id).
Local Abbreviation Conditions := (Conditions Comment Instant).
Local Abbreviation delete_forum_post :=
  (delete_forum_post Comment Instant object_id).

Lemma set_likes_found (store : list Post) id new_likes post :
  find_one store id = Some post ->
  exists post',
    find_one (set_likes store id new_likes) id = Some post' /\
    likes post' = new_likes /\ oid post' = oid post /\
    user_id post' = user_id post /\
    cloudinary_public_id post' = cloudinary_public_id post.
Proof.
  unfold Forum.find_one.
  induction store as [|p rest IH]; cbn [find Forum.set_likes]; [discriminate|].
  destruct (oid p =? id) eqn:E.
  - intros [= <-]. eexists. cbn [find Forum.oid]. rewrite E.
    split; [reflexivity|]. repeat split.
  - intros H. destruct (IH H) as (post' & Hf & Hrest).
    exists post'. cbn [find]. rewrite E. split; assumption.
Qed.

Lemma set_likes_other (store : list Post) id id' new_likes :
  id' <> id ->
  find_one (set_likes store id new_likes) id' = find_one store id'.
Proof.
  intros Hne. unfold Forum.find_one.
  induction store as [|p rest IH]; cbn [find Forum.set_likes]; [reflexivity|].
  destruct (String.eqb_spec (oid p) id) as [E | E].
  - cbn [find Forum.oid]. rewrite E.
    destruct (String.eqb_spec id id'); [congruence | reflexivity].
  - cbn [find]. rewrite IH. reflexivity.
Qed.

Lemma set_likes_length (store : list Post) id new_likes :
  List.length (set_likes store id new_likes) = List.length store.
Proof.
  induction store as [|p rest IH]; cbn [Forum.set_likes]; [reflexivity|].
  destruct (oid p =? id); cbn [List.length]; [reflexivity | rewrite IH; reflexivity].
Qed.

Lemma delete_one_found (store : list Post) id post :
  find_one store id = Some post ->
  exists store',
    delete_one store id = (store', 1%nat) /\
    S (List.length store') = List.length store /\
    forall id', id' <> id -> find_one store' id' = find_one store id'.
Proof.
  unfold Forum.find_one.
  induction store as [|p rest IH]; cbn [find Forum.delete_one]; [discriminate|].
  destruct (String.eqb_spec (oid p) id) as [E | E].
  - intros _. exists rest. split; [reflexivity|]. split; [reflexivity|].
    intros id' Hne. cbn [find].
    destruct (String.eqb_spec (oid p) id'); [congruence | reflexivity].
  - intros H. destruct (IH H) as (store' & Hd & Hlen & Hother).
    rewrite Hd. exists (p :: store'). split; [reflexivity|].
    split; [cbn [List.length]; lia|].
    intros id' Hne. cbn [find]. rewrite (Hother id' Hne). reflexivity.
Qed.


Lemma delete_one_cases (store : list Post) id :
  (find_one store id = None /\ delete_one store id = (store, 0%nat)) \/
  (exists post, find_one store id = Some post /\
                snd (delete_one store id) = 1%nat).
Proof.
  destruct (find_one store id) as [post|] eqn:Hf.
  - right. exists post. split; [reflexivity|].
    destruct (delete_one_found store id post Hf) as (store' & -> & _).
    reflexivity.
  - left. split; [reflexivity|].
    unfold Forum.find_one in Hf.
    induction store as [|p rest IH]; cbn [find Forum.delete_one] in *;
      [reflexivity|].
    destruct (oid p =? id)%string; [discriminate|].
    rewrite (IH Hf). reflexivity.
Qed.

(** Only the author deletes a post.  Unless the requester is the author of
    the post found under the given id, the request removes nothing,
    destroys no image and is not answered 200.  For the author the stored
    image is destroyed exactly when the request names an image and the
    post has a public id, whether or not the deletion then succeeds.  On
    200 exactly that one post has been removed from the collection as it
    stood at the deletion and the other posts are found as before.  The
    only other answer is 500, on which the request removed nothing: the
    driver raised, or the post was no longer there.  When nobody else
    writes in between and the driver does not raise, the answer is 200. *)
Theorem delete_post_owner_only :
  forall (c : Conditions) post_id data store destroyed store' body code,
    delete_forum_post c post_id data store = (destroyed, store', (body, code)) ->
    (store' = store /\ destroyed = [] /\ code <> 200%nat) \/
    (exists user id post,
       lookup "user_id" data = Some user /\
       object_id post_id = Some id /\
       find_one store id = Some post /\
       user_id post = user /\
       (forall p, In p destroyed <->
          cloudinary_public_id post = Some p /\ p <> "" /\
          truthy (lookup "image_url" data) = true) /\
       (code = 200%nat \/ code = 500%nat) /\
       (code = 200%nat ->
        body = FMessage "Post deleted successfully" /\
        delete_one_raises c = None /\
        (exists gone, find_one (interleaved c store) id = Some gone) /\
        S (List.length store') = List.length (interleaved c store) /\
        (forall id', id' <> id ->
           find_one store' id' = find_one (interleaved c store) id')) /\
       (code = 500%nat ->
        store' = interleaved c store /\
        ((exists e, delete_one_raises c = Some e /\
                    body = FError ("Database error: " ++ e)) \/
         (delete_one_raises c = None /\
          find_one (interleaved c store) id = None /\
          body = FError "Failed to delete post"))) /\
       (interleaved c store = store -> delete_one_raises c = None ->
        code = 200%nat)).
Proof.
  intros c post_id data store destroyed store' body code.
  unfold Forum.delete_forum_post.
  destruct (lookup "user_id" data) as [user|] eqn:Hu;
    [|intros [= <- <- <- <-]; left; repeat split; discriminate].
  destruct (object_id post_id) as [id|] eqn:Hid;
    [|intros [= <- <- <- <-]; left; repeat split; discriminate].
  destruct (find_one_raises c) as [e|] eqn:Hfe;
    [intros [= <- <- <- <-]; left; repeat split; discriminate|].
  destruct (find_one store id) as [post|] eqn:Hf;
    [|intros [= <- <- <- <-]; left; repeat split; discriminate].
  destruct (String.eqb_spec (user_id post) user) as [Hown | Hown]; cbn [negb];
    [|intros [= <- <- <- <-]; left; repeat split; discriminate].
  intros H. right. exists user, id, post.
  split; [reflexivity|]. split; [reflexivity|]. split; [exact Hf|].
  split; [exact Hown|].
  assert (Hdestroyed : forall p,
            In p (if truthy (lookup "image_url" data)
                     && truthy (cloudinary_public_id post)
                  then match cloudinary_public_id post with
                       | Some public_id => [public_id]
                       | None => []
                       end
                  else []) <->
            cloudinary_public_id post = Some p /\ p <> "" /\
            truthy (lookup "image_url" data) = true).
  { intros p. destruct (cloudinary_public_id post) as [[|a s]|];
      destruct (truthy (lookup "image_url" data)); cbn [truthy andb In].
    all: split; [intros H' | intros (H1 & H2 & H3)].
    all: try contradiction; try discriminate; try congruence.
    - destruct H' as [<- | []]. repeat split. discriminate.
    - left. congruence. }
  destruct (delete_one_raises c) as [e|] eqn:Hde.
  - injection H as <- <- <- <-.
    split; [exact Hdestroyed|]. split; [right; reflexivity|].
    split; [discriminate|].
    split; [|discriminate].
    intros _. split; [reflexivity|]. left. exists e. split; reflexivity.
  - destruct (delete_one_cases (interleaved c store) id)
      as [[Hnone Hd] | (gone & Hgone & Hd)].
    + rewrite Hd in H. cbn [Nat.eqb] in H. injection H as <- <- <- <-.
      split; [exact Hdestroyed|]. split; [right; reflexivity|].
      split; [discriminate|].
      split.
      * intros _. split; [reflexivity|]. right. repeat split. exact Hnone.
      * intros E _. rewrite E, Hf in Hnone. discriminate Hnone.
    + destruct (delete_one_found (interleaved c store) id gone Hgone)
        as (st & Hst & Hlen & Hother).
      rewrite Hst in H. cbn [Nat.eqb] in H. injection H as <- <- <- <-.
      split; [exact Hdestroyed|]. split; [left; reflexivity|].
      split.
      * intros _. split; [reflexivity|]. split; [reflexivity|].
        split; [exists gone; exact Hgone|]. split; [exact Hlen | exact Hother].
      * split; [discriminate|]. intros _ _. reflexivity.
Qed.

End World.

(** The two ways to a 500 after the author's image has been destroyed:
    another client removed the post first, or the driver raised. *)
Example deletion_can_fail_after_destroy :
  let request := [("user_id", "ann"); ("image_url", "https://cdn.test/p1.png")] in
  delete_forum_post unit nat ForumDemo.object_id ForumDemo.raced
    "65f000000000000000000001" request ForumDemo.store =
    (["forum_images/p1"], [ForumDemo.post_b],
     (FError "Failed to delete post", 500%nat)) /\
  delete_forum_post unit nat ForumDemo.object_id ForumDemo.dropped
    "65f000000000000000000001" request ForumDemo.store =
    (["forum_images/p1"], ForumDemo.store,
     (FError "Database error: connection closed", 500%nat)).
Proof. split; vm_compute; reflexivity. Qed.

End ForumFacts.

(** * The zero baseline on doubles *)

Module Binary64More.

Import Tracker TrackerFacts.
Import Binary64 Binary64Run.
Local Open Scope float_scope.

Section World.

Variable Bytes : Type.
Variable ColorMat : Type.
Variable urlopen : string -> exc Bytes.
Variable imdecode : Bytes -> exc (option ColorMat).
Variable cvtColor_BGR2GRAY : ColorMat -> Mat.

Local Abbreviation image_density :=
  (Binary64.image_density Bytes ColorMat urlopen imdecode cvtColor_BGR2GRAY).
Local Abbreviation analyze_hair_density :=
  (Binary64.analyze_hair_density Bytes ColorMat urlopen imdecode
                                 cvtColor_BGR2GRAY).

(** On doubles, as the code computes: when the earliest sample has density
    0.0, each of the three reported changes is exactly 0.0 whatever the
    later densities are, each entry is Stable and the overall status is
    Stable. *)
Theorem zero_baseline_on_doubles :
  forall urls ts r ds,
    analyze_hair_density urls ts = Success r ->
    for_each image_density urls = Return ds ->
    PrimFloat.eqb (nth (hd 0%nat (argsort ts)) ds 0) 0 = true ->
    map week (results r) = [2; 3; 4]%nat /\
    map percentageChange (results r) = [0; 0; 0] /\
    map status (results r) = [Stable; Stable; Stable] /\
    overall_status r = Stable.
Proof.
  intros urls ts r ds H Hds Hb.
  apply analyze_success_iff64 in H.
  destruct H as (Hu & Ht & ds' & b & s2 & s3 & s4 & Hf & Hs & ->).
  rewrite Hds in Hf. injection Hf as <-.
  destruct (argsort ts) as [|i0 rest]; [discriminate Hs|].
  simpl in Hs, Hb. injection Hs as Hb0 _. rewrite Hb0 in Hb.
  unfold summary, trend_entry.
  rewrite !(percentage_change_zero_baseline64 b _ Hb).
  repeat split; vm_compute; reflexivity.
Qed.

End World.

End Binary64More.

(** * The further properties at concrete inputs *)

Module Checks.

Import Classifier Tracker Vocabulary Reading Routes.
Local Open Scope Q_scope.

Local Abbreviation demo_density :=
  (image_density string Mat Demo.urlopen Demo.imdecode Demo.cvtColor_BGR2GRAY).

Lemma stage_comes_from_top_prediction_witness :
  exists k c,
    nth_error female_labels k = Some "Stage 1" /\
    first_maximum [1 # 50; 3 # 5; 1 # 5; 1 # 10; 1 # 20; 3 # 100] k c /\
    confidence (snd (Demo.predict "https://cdn.test/w1.png" "female")) = Some c.
Proof.
  destruct (ClassifierMore.stage_comes_from_top_prediction
              string string Demo.urlopen Demo.preprocess Demo.model_predict
              "https://cdn.test/w1.png" "female" "Stage 1")
    as (model & labels & img & predictions & k & c
        & Hsel & Hload & Hp & Hl & Hmax & Hc & _).
  - reflexivity.
  - injection Hsel as <- <-. injection Hload as <-.
    injection Hp as <-. exists k, c. auto.
Defined.

Lemma inference_only_after_load_witness :
  exists labels img_array,
    select_model "male" = Some (male_model, labels) /\
    load_image string string Demo.urlopen Demo.preprocess
               "https://cdn.test/wall.png" = Return img_array.
Proof.
  apply (proj2 (ClassifierMore.inference_only_after_load
                  string string Demo.urlopen Demo.preprocess Demo.model_predict
                  "https://cdn.test/wall.png" "male") male_model).
  right; left; reflexivity.
Defined.

Lemma load_failure_reported_witness :
  Demo.predict "https://cdn.test/gone.png" "male" =
    ([EvUrlopen "https://cdn.test/gone.png"],
     error_dict "Error loading image from URL: HTTP Error 404: Not Found").
Proof.
  apply (ClassifierMore.load_failure_reported
           string string Demo.urlopen Demo.preprocess Demo.model_predict
           "https://cdn.test/gone.png" "male" "HTTP Error 404: Not Found").
  - left; reflexivity.
  - reflexivity.
Defined.

Lemma label_index_out_of_range_witness :
  snd (predict_stage string string Demo.urlopen Demo.preprocess
         RouteDemo.wide_model_predict "https://cdn.test/w1.png" "female") =
    error_dict "Prediction failed: list index out of range".
Proof.
  apply (ClassifierMore.label_index_out_of_range
           string string Demo.urlopen Demo.preprocess
           RouteDemo.wide_model_predict "https://cdn.test/w1.png" "female"
           female_model female_labels "w1"
           [1 # 50; 1 # 50; 1 # 50; 1 # 50; 1 # 50; 1 # 10; 4 # 5] 6%nat).
  - reflexivity.
  - reflexivity.
  - reflexivity.
  - reflexivity.
  - cbn. lia.
Defined.

Lemma analyze_errors_witness :
  Demo.analyze ["https://cdn.test/w1.png"] Demo.week_stamps =
    Error count_message.
Proof.
  apply (proj1 (TrackerMore.analyze_errors string Mat Demo.urlopen
                  Demo.imdecode Demo.cvtColor_BGR2GRAY
                  ["https://cdn.test/w1.png"] Demo.week_stamps)).
  left. cbn. lia.
Defined.

Lemma trend_shape_witness :
  exists r,
    Demo.analyze Demo.week_urls Demo.week_stamps = Success r /\
    map week (results r) = [2; 3; 4]%nat /\
    Forall (fun p => -100 <= percentageChange p) (results r).
Proof.
  eexists.
  assert (H : Demo.analyze Demo.week_urls Demo.week_stamps = Success _)
    by (vm_compute; reflexivity).
  split; [exact H|].
  exact (TrackerMore.trend_shape string Mat Demo.urlopen Demo.imdecode
           Demo.cvtColor_BGR2GRAY _ _ _ H).
Defined.

Lemma overall_between_periods_witness :
  exists r,
    Demo.analyze RouteDemo.fine_urls Demo.week_stamps = Success r /\
    overall_status r <> Worsened.
Proof.
  eexists.
  assert (H : Demo.analyze RouteDemo.fine_urls Demo.week_stamps = Success _)
    by (vm_compute; reflexivity).
  split; [exact H|].
  apply (proj1 (TrackerMore.overall_between_periods string Mat Demo.urlopen
                  Demo.imdecode Demo.cvtColor_BGR2GRAY _ _ _ H)).
  repeat constructor; discriminate.
Defined.

Lemma small_gains_overall_stable_witness :
  exists r,
    Demo.analyze RouteDemo.fine_urls Demo.week_stamps = Success r /\
    map status (results r) = [Improved; Improved; Improved] /\
    Forall (fun p => percentageChange p == 0) (results r) /\
    overall_status r = Stable.
Proof.
  eexists.
  assert (H : Demo.analyze RouteDemo.fine_urls Demo.week_stamps = Success _)
    by (vm_compute; reflexivity).
  split; [exact H|].
  refine (TrackerMore.small_gains_overall_stable string Mat Demo.urlopen
            Demo.imdecode Demo.cvtColor_BGR2GRAY _ _ _ _
            (density_of (Demo.raster 2500 5000))
            (density_of (Demo.raster 2501 5000))
            (density_of (Demo.raster 2501 5000))
            (density_of (Demo.raster 2501 5000)) H _ _ _).
  - vm_compute. reflexivity.
  - vm_compute. reflexivity.
  - repeat constructor; vm_compute; reflexivity.
Defined.

Lemma chronological_input_kept_witness :
  argsort Demo.week_stamps = [0; 1; 2; 3]%nat /\
  exists d1 d2 d3 d4,
    [density_of (Demo.raster 10 100); density_of (Demo.raster 12 100);
     density_of (Demo.raster 9 100); density_of (Demo.raster 20 100)] =
      [d1; d2; d3; d4] /\
    Demo.analyze Demo.week_urls Demo.week_stamps = Success (summary d1 d2 d3 d4).
Proof.
  apply (TrackerMore.chronological_input_kept string Mat Demo.urlopen
           Demo.imdecode Demo.cvtColor_BGR2GRAY Demo.week_urls Demo.week_stamps).
  - reflexivity.
  - reflexivity.
  - vm_compute. reflexivity.
  - repeat (constructor; [|repeat constructor; vm_compute; reflexivity]).
    constructor.
Defined.

Lemma zero_baseline_on_doubles_witness :
  let urls := ["https://cdn.test/bare.png"; "https://cdn.test/w2.png";
               "https://cdn.test/w3.png"; "https://cdn.test/w4.png"] in
  exists r,
    Demo2.analyze urls Demo.week_stamps = Binary64.Success r /\
    map Binary64.percentageChange (Binary64.results r) = [0; 0; 0]%float /\
    map Binary64.status (Binary64.results r) = [Stable; Stable; Stable] /\
    Binary64.overall_status r = Stable.
Proof.
  cbv zeta. eexists.
  assert (H : Demo2.analyze
                ["https://cdn.test/bare.png"; "https://cdn.test/w2.png";
                 "https://cdn.test/w3.png"; "https://cdn.test/w4.png"]
                Demo.week_stamps = Binary64.Success _)
    by (vm_compute; reflexivity).
  split; [exact H|].
  eapply (fun Hds Hb =>
            proj2 (Binary64More.zero_baseline_on_doubles string Mat
                     Demo2.urlopen Demo2.imdecode Demo.cvtColor_BGR2GRAY
                     _ _ _ _ H Hds Hb)).
  - vm_compute. reflexivity.
  - vm_compute. reflexivity.
Defined.

(** ** The routes *)

Lemma predict_gender_case_insensitive_witness :
  RouteDemo.predict (RouteDemo.wall_request "MALE") =
  RouteDemo.predict (RouteDemo.wall_request "male").
Proof.
  apply (RoutesFacts.predict_gender_case_insensitive
           string string nat RouteDemo.json
           Demo.urlopen Demo.preprocess Demo.model_predict
           RouteDemo.lower RouteDemo.upload RouteDemo.json_loads
           RouteDemo.is_dict (Some (fun _ => Return tt)) RouteDemo.utcnow
           (RouteDemo.wall_request "MALE") (RouteDemo.wall_request "male"));
    reflexivity.
Defined.

Lemma predict_ok_inversion_witness :
  exists d,
    snd (RouteDemo.predict (RouteDemo.wall_request "MALE")) = (BStage d, 200%nat) /\
    d = snd (Demo.predict "https://cdn.test/wall.png" "male") /\
    In (InsertPrediction
          {| pd_user_id := "u/1";
             pd_image_url := "https://cdn.test/wall.png";
             pd_stage := stage d;
             pd_confidence := confidence d;
             pd_gender := "male";
             pd_timestamp := 0%nat;
             pd_questionnaire_answers := RouteDemo.JObject "{}" |})
       (fst (RouteDemo.predict (RouteDemo.wall_request "MALE"))).
Proof.
  eexists.
  assert (H : snd (RouteDemo.predict (RouteDemo.wall_request "MALE")) =
              (BStage _, 200%nat)) by (vm_compute; reflexivity).
  split; [exact H|].
  destruct (RoutesFacts.predict_ok_inversion
              string string nat RouteDemo.json
              Demo.urlopen Demo.preprocess Demo.model_predict
              RouteDemo.lower RouteDemo.upload RouteDemo.json_loads
              RouteDemo.is_dict (Some (fun _ => Return tt)) RouteDemo.utcnow
              _ _ _ H)
    as (_ & file & g & user_id & url & insert_one & answers
        & Hf & Hg & Hu & Hup & Hd & _ & Hans & _ & Htrace).
  injection Hf as <-. injection Hg as <-. injection Hu as <-.
  injection Hup as <-. injection Hans as <-.
  split; [exact Hd|].
  unfold RouteDemo.predict. rewrite Htrace.
  right. apply in_or_app. right. left. reflexivity.
Defined.

Lemma unsupported_gender_is_stored_witness :
  RouteDemo.predict (RouteDemo.wall_request "other") =
    ([Upload PredictionsFolder "u/1" (RouteDemo.photo "wall.png");
      InsertPrediction
        {| pd_user_id := "u/1";
           pd_image_url := "https://cdn.test/wall.png";
           pd_stage := None;
           pd_confidence := None;
           pd_gender := "other";
           pd_timestamp := 0%nat;
           pd_questionnaire_answers := RouteDemo.JObject "{}" |}],
     (BStage (error_dict "Invalid gender selection. Choose 'male' or 'female'."),
      200%nat)).
Proof.
  apply (RoutesFacts.unsupported_gender_is_stored
           string string nat RouteDemo.json
           Demo.urlopen Demo.preprocess Demo.model_predict
           RouteDemo.lower RouteDemo.upload RouteDemo.json_loads
           RouteDemo.is_dict (Some (fun _ => Return tt)) RouteDemo.utcnow
           (RouteDemo.wall_request "other") (RouteDemo.photo "wall.png")
           "other" "u/1" "https://cdn.test/wall.png" (fun _ => Return tt)
           (RouteDemo.JObject "{}")).
  - reflexivity.
  - reflexivity.
  - reflexivity.
  - discriminate.
  - reflexivity.
  - discriminate.
  - discriminate.
  - reflexivity.
  - reflexivity.
  - reflexivity.
  - reflexivity.
Defined.

Lemma tracking_ok_inversion_witness :
  exists r images timestamps,
    snd (RouteDemo.analyze_hair_growth RouteDemo.weekly_request) =
      (BTracking r, 200%nat) /\
    List.length images = 4%nat /\
    Demo.analyze images timestamps = Success r.
Proof.
  eexists.
  assert (H : snd (RouteDemo.analyze_hair_growth RouteDemo.weekly_request) =
              (BTracking _, 200%nat)) by (vm_compute; reflexivity).
  destruct (RoutesFacts.tracking_ok_inversion
              string Mat nat RouteDemo.json
              Demo.urlopen Demo.imdecode Demo.cvtColor_BGR2GRAY
              RouteDemo.upload (Some (fun _ => Return tt)) RouteDemo.utcnow
              RouteDemo.isoformat RouteDemo.bad_request_key _ _ _ H)
    as (_ & user_id & fs & images & timestamps & insert_one
        & _ & _ & Hlen & _ & _ & Han & _).
  exists images, timestamps. split; [exact H|]. split; [exact Hlen | exact Han].
Defined.

Lemma analysis_failure_hidden_witness :
  RouteDemo.analyze_hair_growth RouteDemo.broken_request =
    (map (fun name => Upload TrackingFolder "u/1" (RouteDemo.photo name))
         ["w1.png"; "w2.png"; "notes.txt"; "w4.png"],
     (BError "Analysis failed: 'results'", 500%nat)).
Proof.
  refine (proj1 (RoutesFacts.analysis_failure_hidden
                   string Mat nat RouteDemo.json
                   Demo.urlopen Demo.imdecode Demo.cvtColor_BGR2GRAY
                   RouteDemo.upload (Some (fun _ => Return tt)) RouteDemo.utcnow
                   RouteDemo.isoformat RouteDemo.bad_request_key
                   RouteDemo.broken_request "u/1"
                   ["https://cdn.test/w1.png"; "https://cdn.test/w2.png";
                    "https://cdn.test/notes.txt"; "https://cdn.test/w4.png"]
                   ["2024-05-01T10:00:00"; "2024-05-01T10:00:01";
                    "2024-05-01T10:00:02"; "2024-05-01T10:00:03"]
                   _ (fun _ => Return tt)
                   (image_message "https://cdn.test/notes.txt"
                      "Failed to decode image from https://cdn.test/notes.txt")
                   _ _ _ _)).
  - reflexivity.
  - vm_compute. reflexivity.
  - reflexivity.
  - vm_compute. reflexivity.
Defined.

Lemma default_timestamps_keep_upload_order_witness :
  exists d1 d2 d3 d4,
    [density_of (Demo.raster 10 100); density_of (Demo.raster 12 100);
     density_of (Demo.raster 9 100); density_of (Demo.raster 20 100)] =
      [d1; d2; d3; d4] /\
    snd (RouteDemo.analyze_hair_growth RouteDemo.weekly_request) =
      (BTracking (summary d1 d2 d3 d4), 200%nat).
Proof.
  refine (proj2 (RoutesFacts.default_timestamps_keep_upload_order
                   string Mat nat RouteDemo.json
                   Demo.urlopen Demo.imdecode Demo.cvtColor_BGR2GRAY
                   RouteDemo.upload (Some (fun _ => Return tt)) RouteDemo.utcnow
                   RouteDemo.isoformat RouteDemo.bad_request_key
                   RouteDemo.weekly_request "u/1" Demo.week_urls
                   ["2024-05-01T10:00:00"; "2024-05-01T10:00:01";
                    "2024-05-01T10:00:02"; "2024-05-01T10:00:03"]
                   _ (fun _ => Return tt) _ _ _ _ _ _ _ _)).
  - reflexivity.
  - intros i Hi. destruct i as [|[|[|[|i]]]]; [reflexivity ..|lia].
  - vm_compute. reflexivity.
  - repeat (constructor; [|repeat constructor; vm_compute; reflexivity]).
    constructor.
  - vm_compute. reflexivity.
  - reflexivity.
  - reflexivity.
Defined.

(** ** The forum *)

Lemma like_toggle_membership_witness :
  NoDup (Forum.toggle ["bob"; "cy"] "ann") /\
  (In "ann" (Forum.toggle ["bob"; "cy"] "ann") <-> ~ In "ann" ["bob"; "cy"]) /\
  (forall v, v <> "ann" ->
     (In v (Forum.toggle ["bob"; "cy"] "ann") <-> In v ["bob"; "cy"])).
Proof.
  apply (ForumFacts.like_toggle_membership ["bob"; "cy"] "ann").
  repeat (constructor;
          [ simpl; intros H;
            repeat (destruct H as [H | H]; [discriminate H|]); exact H |]).
  constructor.
Defined.

Lemma like_toggle_twice_witness :
  Permutation (Forum.toggle (Forum.toggle ["bob"; "cy"] "bob") "bob")
              ["bob"; "cy"].
Proof.
  apply (proj1 (ForumFacts.like_toggle_twice ["bob"; "cy"] "bob"
    ltac:(repeat (constructor;
                  [ simpl; intros H;
                    repeat (destruct H as [H | H]; [discriminate H|]); exact H |]);
          constructor))).
Defined.


Lemma delete_post_owner_only_witness :
  exists store',
    Forum.delete_forum_post unit nat ForumDemo.object_id
      (Forum.quiet unit nat) "65f000000000000000000001"
      [("user_id", "ann"); ("image_url", "https://cdn.test/p1.png")]
      ForumDemo.store =
      (["forum_images/p1"], store',
       (Forum.FMessage "Post deleted successfully", 200%nat)) /\
    S (List.length store') = List.length ForumDemo.store.
Proof.
  eexists.
  assert (H : Forum.delete_forum_post unit nat ForumDemo.object_id
                (Forum.quiet unit nat) "65f000000000000000000001"
                [("user_id", "ann"); ("image_url", "https://cdn.test/p1.png")]
                ForumDemo.store =
              (["forum_images/p1"], _,
               (Forum.FMessage "Post deleted successfully", 200%nat)))
    by (vm_compute; reflexivity).
  split; [exact H|].
  destruct (ForumFacts.delete_post_owner_only unit nat ForumDemo.object_id
              _ _ _ _ _ _ _ _ H)
    as [(_ & Hd & _) |
        (user & id & post & _ & _ & _ & _ & _ & _ & H200 & _)].
  - discriminate Hd.
  - exact (proj1 (proj2 (proj2 (proj2 (H200 eq_refl))))).
Defined.

End Checks.
